(** * Barbershop sales dashboard: the reporting pipeline of [app.py]

    A shallow embedding of the four pipeline stages of [src/app.py]
    ([load_sales_dataframe], [filter_by_period], [compute_summaries],
    [ai_insights]) together with the part of pandas they are written
    against, and the properties of the pipeline stated over it.

    Conventions of the embedding:
    - text is ASCII ([string]); Python's [str.strip] and [str.title] are
      modelled on ASCII code points;
    - numbers held in numeric columns are exact rationals ([Q]): the
      rounding of IEEE doubles is not modelled, sums are exact;
    - a pandas [Timestamp] is its number of nanoseconds since
      1970-01-01T00:00, a calendar date its number of days since then;
    - a raised Python exception is the [Raise] branch of [result]. *)

From Stdlib Require Import ZArith QArith Qabs String Ascii List Permutation Sorted.
From Stdlib Require OrderedTypeEx.
From stdpp Require Import base gmap strings list fin_maps pretty.

Local Open Scope string_scope.

(* ===================================================================== *)
(** ** Python text primitives                                             *)
(* ===================================================================== *)

Module PyStr.

Definition code (c : ascii) : nat := nat_of_ascii c.

Definition is_digit (c : ascii) : bool :=
  (48 <=? code c)%nat && (code c <=? 57)%nat.

Definition is_upper (c : ascii) : bool :=
  (65 <=? code c)%nat && (code c <=? 90)%nat.

Definition is_lower (c : ascii) : bool :=
  (97 <=? code c)%nat && (code c <=? 122)%nat.

(** [str.isspace] on ASCII: tab, line feed, vertical tab, form feed,
    carriage return, the four separators 28..31 and the blank. *)
Definition is_space (c : ascii) : bool :=
  ((9 <=? code c)%nat && (code c <=? 13)%nat)
  || ((28 <=? code c)%nat && (code c <=? 32)%nat).

Definition to_upper (c : ascii) : ascii :=
  if is_lower c then ascii_of_nat (code c - 32) else c.

Definition to_lower (c : ascii) : ascii :=
  if is_upper c then ascii_of_nat (code c + 32) else c.

Fixpoint lstrip (s : string) : string :=
  match s with
  | String c r => if is_space c then lstrip r else s
  | EmptyString => EmptyString
  end.

Fixpoint rstrip (s : string) : string :=
  match s with
  | String c r =>
      match rstrip r with
      | EmptyString => if is_space c then EmptyString else String c EmptyString
      | r' => String c r'
      end
  | EmptyString => EmptyString
  end.

(** [s.strip()] *)
Definition strip (s : string) : string := rstrip (lstrip s).

(** [s.title()]: a cased letter is upper-cased when the character before
    it is not a cased letter and lower-cased otherwise. *)
Fixpoint title_from (prev_cased : bool) (s : string) : string :=
  match s with
  | String c r =>
      if is_upper c || is_lower c
      then String (if prev_cased then to_lower c else to_upper c)
                  (title_from true r)
      else String c (title_from false r)
  | EmptyString => EmptyString
  end.

Definition title (s : string) : string := title_from false s.

(** [re.sub(r"[^0-9\.-]", "", s)]: keep digits, dots and minus signs. *)
Definition is_price_char (c : ascii) : bool :=
  is_digit c || Ascii.eqb c "." || Ascii.eqb c "-".

Fixpoint keep (p : ascii -> bool) (s : string) : string :=
  match s with
  | String c r => if p c then String c (keep p r) else keep p r
  | EmptyString => EmptyString
  end.

Definition strip_non_price (s : string) : string := keep is_price_char s.

(** [str(z)] for a Python [int]. *)
Definition str_of_int (z : Z) : string := pretty z.

End PyStr.

(* ===================================================================== *)
(** ** Decimal literals, as [pd.to_numeric] reads them                    *)
(* ===================================================================== *)

Module Numeric.

(** What a text parses to: an integer literal or one with a decimal
    point. The distinction only decides the dtype of the column. *)
Inductive num := NInt (z : Z) | NFloat (q : Q).

Definition num_value (n : num) : Q :=
  match n with NInt z => inject_Z z | NFloat q => q end.

Definition digit_value (c : ascii) : Z := Z.of_nat (PyStr.code c - 48).

(** Longest prefix of digits, most significant first, and the rest. *)
Fixpoint span_digits (s : string) : list Z * string :=
  match s with
  | String c r =>
      if PyStr.is_digit c
      then let '(ds, rest) := span_digits r in (digit_value c :: ds, rest)
      else ([], s)
  | EmptyString => ([], EmptyString)
  end.

Definition digits_value (ds : list Z) : Z :=
  fold_left (fun acc d => 10 * acc + d)%Z ds 0%Z.

Fixpoint pow10 (n : nat) : positive :=
  match n with O => 1%positive | S k => (10 * pow10 k)%positive end.

Definition apply_sign (neg : bool) (z : Z) : Z := if neg then (- z)%Z else z.

(** An optional minus sign, digits, optionally a dot and digits, at
    least one digit overall, nothing else. The text handed to it by the
    price cleaning holds only digits, dots and minus signs. *)
Definition parse_unsigned (neg : bool) (s : string) : option num :=
  let '(ip, rest) := span_digits s in
  match rest with
  | EmptyString =>
      match ip with
      | [] => None
      | _ => Some (NInt (apply_sign neg (digits_value ip)))
      end
  | String c rest' =>
      if Ascii.eqb c "."
      then
        let '(fp, tail) := span_digits rest' in
        match tail with
        | EmptyString =>
            match (ip ++ fp)%list with
            | [] => None
            | ds => Some (NFloat (apply_sign neg (digits_value ds)
                                    # pow10 (length fp)))
            end
        | String _ _ => None
        end
      else None
  end.

Definition parse (s : string) : option num :=
  match s with
  | String c r =>
      if Ascii.eqb c "-" then parse_unsigned true r else parse_unsigned false s
  | EmptyString => None
  end.

End Numeric.


(* ===================================================================== *)
(** ** Exceptions                                                         *)
(* ===================================================================== *)

(** The Python exceptions the pipeline can meet. [NotASeries c] stands for
    the error raised by the Series operation applied to [df[c]] when the
    label [c] is carried by several columns, so that [df[c]] is a
    DataFrame ([AttributeError] on [.str] and [.dt], [ValueError] in
    [pd.to_datetime]). [NameError] is a reference to no object.
    [ValueError] is what [st.dataframe] raises for a table that has two
    columns of one label. *)
Inductive exn :=
| KeyError (label : string)
| NotASeries (label : string)
| TypeError
| AttributeError
| NameError
| ValueError.

Inductive result (A : Type) :=
| Ok (a : A)
| Raise (e : exn).
Arguments Ok {A} a.
Arguments Raise {A} e.

#[export] Instance result_ret : MRet result := fun A a => Ok a.
#[export] Instance result_bind : MBind result :=
  fun A B f m => match m with Ok a => f a | Raise e => Raise e end.

(* ===================================================================== *)
(** ** The part of pandas the pipeline uses                               *)
(* ===================================================================== *)

(** Nanoseconds since the epoch, and days since the epoch. *)
Definition Timestamp := Z.
Definition Date := Z.

Definition NS_PER_DAY : Z := 86400000000000.

(** [pd.to_datetime(d)] for a [datetime.date]: midnight of that day. *)
Definition midnight (d : Date) : Timestamp := (d * NS_PER_DAY)%Z.

(** [ts.date()] *)
Definition date_of (t : Timestamp) : Date := (t / NS_PER_DAY)%Z.

(** [ts.day_name()]; day 0 was a Thursday. *)
Definition day_name (t : Timestamp) : string :=
  match ((date_of t + 3) mod 7)%Z with
  | 0%Z => "Monday" | 1%Z => "Tuesday" | 2%Z => "Wednesday"
  | 3%Z => "Thursday" | 4%Z => "Friday" | 5%Z => "Saturday"
  | _ => "Sunday"
  end.

(** A Python object held by an object column. *)
Inductive obj :=
| OStr (s : string)
| OInt (z : Z)
| OFloat (q : Q)
| ONaN.

(** A column with its dtype: object, int64, float64 ([None] is NaN) or
    datetime64 ([None] is NaT). *)
Inductive Series :=
| SObject (xs : list obj)
| SInt (xs : list Z)
| SFloat (xs : list (option Q))
| SDatetime (xs : list (option Timestamp)).

(** Row labels and labelled columns; labels may repeat. *)
Record DataFrame := {
  index : list nat;
  columns : list (string * Series)
}.

(** What the model takes from the libraries without fixing it: how
    [pd.to_datetime(column, errors="coerce")] reads one cell of a column
    (pandas may infer one format for the whole column, hence the column
    as context), how a float and a timestamp print, and the order
    numpy's default [argsort] leaves its argument in (positions of the
    argument, ascending by value, ties in no promised order). *)
Class Backend := {
  parse_datetime : list obj -> obj -> option Timestamp;
  float_repr : Q -> string;
  datetime_repr : Timestamp -> string;
  argsort : list Q -> list nat
}.

Record BackendSpec (B : Backend) : Prop := {
  argsort_perm : forall l, Permutation (argsort l) (seq 0 (length l));
  argsort_sorted :
    forall l, Sorted Qle (map (fun i => nth i l 0%Q) (argsort l))
}.

Module Pandas.

Definition labels (df : DataFrame) : list string := map fst (columns df).

(** [c in df.columns] *)
Definition has_column (c : string) (df : DataFrame) : bool :=
  existsb (String.eqb c) (labels df).

(** [len(df)] *)
Definition len (df : DataFrame) : nat := length (index df).

(** [df.empty]: no rows or no columns. *)
Definition empty (df : DataFrame) : bool :=
  match index df, columns df with
  | [], _ => true
  | _, [] => true
  | _, _ => false
  end.

Definition named (c : string) (p : string * Series) : bool :=
  String.eqb c (fst p).

(** [df[c]] used as a Series. *)
Definition getitem (df : DataFrame) (c : string) : result Series :=
  match List.filter (named c) (columns df) with
  | [] => Raise (KeyError c)
  | [(_, s)] => Ok s
  | _ :: _ :: _ => Raise (NotASeries c)
  end.

(** [df[c] = s]: overwrite the column if the label exists, otherwise
    append it. *)
Definition setitem (df : DataFrame) (c : string) (s : Series) : DataFrame :=
  if has_column c df
  then {| index := index df;
          columns := map (fun p => if named c p then (c, s) else p)
                         (columns df) |}
  else {| index := index df; columns := (columns df ++ [(c, s)])%list |}.

(** [df.columns = [f(c) for c in df.columns]] *)
Definition map_labels (f : string -> string) (df : DataFrame) : DataFrame :=
  {| index := index df;
     columns := map (fun p => (f (fst p), snd p)) (columns df) |}.

(** [df.drop(columns=[c])] *)
Definition drop_column (c : string) (df : DataFrame) : DataFrame :=
  {| index := index df;
     columns := List.filter (fun p => negb (named c p)) (columns df) |}.

(** [df.rename(columns={old: new})] *)
Definition rename (old new : string) (df : DataFrame) : DataFrame :=
  map_labels (fun c => if String.eqb c old then new else c) df.

(** The cells of a column seen as Python objects. *)
Definition objects (s : Series) : list obj :=
  match s with
  | SObject xs => xs
  | SInt xs => map OInt xs
  | SFloat xs => map (fun x => match x with Some q => OFloat q | None => ONaN end) xs
  | SDatetime xs => map (fun x => match x with Some t => OInt t | None => ONaN end) xs
  end.

Definition series_len (s : Series) : nat :=
  match s with
  | SObject xs => length xs
  | SInt xs => length xs
  | SFloat xs => length xs
  | SDatetime xs => length xs
  end.

(** [s.notna()] *)
Definition notna (s : Series) : list bool :=
  match s with
  | SObject xs => map (fun o => match o with ONaN => false | _ => true end) xs
  | SInt xs => map (fun _ => true) xs
  | SFloat xs => map (fun x => match x with Some _ => true | None => false end) xs
  | SDatetime xs => map (fun x => match x with Some _ => true | None => false end) xs
  end.

(** Boolean indexing: keep the positions where the mask is [True]. *)
Fixpoint select {A} (mask : list bool) (xs : list A) : list A :=
  match mask, xs with
  | b :: m, x :: r => if b then x :: select m r else select m r
  | _, _ => []
  end.

Definition series_select (mask : list bool) (s : Series) : Series :=
  match s with
  | SObject xs => SObject (select mask xs)
  | SInt xs => SInt (select mask xs)
  | SFloat xs => SFloat (select mask xs)
  | SDatetime xs => SDatetime (select mask xs)
  end.

(** [df.loc[mask]] *)
Definition loc_mask (mask : list bool) (df : DataFrame) : DataFrame :=
  {| index := select mask (index df);
     columns := map (fun p => (fst p, series_select mask (snd p))) (columns df) |}.

Definition mask_and (m1 m2 : list bool) : list bool := zip_with andb m1 m2.

(** [df.dropna(subset=cs)]: keep the rows that are not null in any of
    the columns [cs]. *)
Fixpoint dropna_mask (df : DataFrame) (cs : list string) : result (list bool) :=
  match cs with
  | [] => Ok (map (fun _ => true) (index df))
  | c :: cs' =>
      s ← getitem df c;
      m ← dropna_mask df cs';
      Ok (mask_and (notna s) m)
  end.

Definition dropna (cs : list string) (df : DataFrame) : result DataFrame :=
  m ← dropna_mask df cs;
  Ok (loc_mask m df).

Section WithBackend.
Context {B : Backend}.

(** [str(o)] *)
Definition str (o : obj) : string :=
  match o with
  | OStr s => s
  | OInt z => PyStr.str_of_int z
  | OFloat q => float_repr q
  | ONaN => "nan"
  end.

(** [s.astype(str)] *)
Definition astype_str (s : Series) : Series :=
  match s with
  | SDatetime xs =>
      SObject (map (fun x => match x with
                             | Some t => OStr (datetime_repr t)
                             | None => OStr "NaT"
                             end) xs)
  | _ => SObject (map (fun o => OStr (str o)) (objects s))
  end.

(** [pd.to_datetime(s, errors="coerce")] *)
Definition to_datetime (s : Series) : Series :=
  match s with
  | SDatetime xs => SDatetime xs
  | _ => SDatetime (map (parse_datetime (objects s)) (objects s))
  end.

End WithBackend.

(** [s.str.f()]: the accessor exists on object columns only, and gives
    NaN where the cell is not text. *)
Definition str_map (f : string -> string) (s : Series) : result Series :=
  match s with
  | SObject xs =>
      Ok (SObject (map (fun o => match o with
                                 | OStr t => OStr (f t)
                                 | _ => ONaN
                                 end) xs))
  | _ => Raise AttributeError
  end.

Definition numeric_of_obj (o : obj) : option Numeric.num :=
  match o with
  | OStr s => Numeric.parse s
  | OInt z => Some (Numeric.NInt z)
  | OFloat q => Some (Numeric.NFloat q)
  | ONaN => None
  end.

Definition as_int (n : option Numeric.num) : option Z :=
  match n with Some (Numeric.NInt z) => Some z | _ => None end.

(** All cells integers: int64, otherwise float64 with NaN for the cells
    that did not parse. *)
Definition numeric_series (ns : list (option Numeric.num)) : Series :=
  match mapM as_int ns with
  | Some zs => SInt zs
  | None => SFloat (map (option_map Numeric.num_value) ns)
  end.

(** [pd.to_numeric(s, errors="coerce")] *)
Definition to_numeric (s : Series) : Series :=
  match s with
  | SObject xs => numeric_series (map numeric_of_obj xs)
  | SInt xs => SInt xs
  | SFloat xs => SFloat xs
  | SDatetime xs =>
      SInt (map (fun x => match x with
                          | Some t => t
                          | None => (- 9223372036854775808)%Z
                          end) xs)
  end.

(** The values of a numeric column, NaN as [None]; any other dtype has
    no numeric reading in this model. *)
Definition numeric_values (s : Series) : result (list (option Q)) :=
  match s with
  | SInt xs => Ok (map (fun z => Some (inject_Z z)) xs)
  | SFloat xs => Ok xs
  | _ => Raise TypeError
  end.

(** The keys of a text column, NaN as [None]; the pipeline groups on
    text columns only, other cells are a [TypeError] of the model. *)
Definition text_of_obj (o : obj) : result (option string) :=
  match o with
  | OStr s => Ok (Some s)
  | ONaN => Ok None
  | _ => Raise TypeError
  end.

Definition text_values (s : Series) : result (list (option string)) :=
  match s with
  | SObject xs => mapM text_of_obj xs
  | _ => Raise TypeError
  end.

(** [s.dt]: datetime columns only. *)
Definition dt (s : Series) : result (list (option Timestamp)) :=
  match s with
  | SDatetime xs => Ok xs
  | _ => Raise AttributeError
  end.

(** Sum of a column, NaN skipped. *)
Definition sum_skipna (xs : list (option Q)) : Q :=
  fold_right (fun x acc => match x with Some q => q + acc | None => acc end)%Q
             0%Q xs.

End Pandas.

(* ===================================================================== *)
(** ** Group-by aggregation and sorting                                   *)
(* ===================================================================== *)

(** One row of [groupby(key)["Price"].agg(["sum", "count"])]. *)
Record group (K : Type) := {
  gkey : K;
  gsum : Q;
  gcount : nat
}.
Arguments gkey {K} g.
Arguments gsum {K} g.
Arguments gcount {K} g.

Module GroupBy.
Section Keyed.
Context {K : Type} (cmp : K -> K -> comparison).

(** A group opened by its first row; a NaN price adds nothing to the
    sum and is not counted. *)
Definition open_group (k : K) (v : option Q) : group K :=
  {| gkey := k;
     gsum := match v with Some q => q | None => 0%Q end;
     gcount := match v with Some _ => 1 | None => 0 end |}.

Definition add_row (v : option Q) (g : group K) : group K :=
  {| gkey := gkey g;
     gsum := match v with Some q => (gsum g + q)%Q | None => gsum g end;
     gcount := match v with Some _ => S (gcount g) | None => gcount g end |}.

(** Groups are kept in ascending key order ([sort=True]). *)
Fixpoint upsert (k : K) (v : option Q) (gs : list (group K)) : list (group K) :=
  match gs with
  | [] => [open_group k v]
  | g :: rest =>
      match cmp k (gkey g) with
      | Eq => add_row v g :: rest
      | Lt => open_group k v :: g :: rest
      | Gt => g :: upsert k v rest
      end
  end.

(** Rows whose key is null are left out ([dropna=True]). *)
Fixpoint agg_from (acc : list (group K))
         (keys : list (option K)) (vals : list (option Q)) : list (group K) :=
  match keys, vals with
  | k :: ks, v :: vs =>
      agg_from (match k with Some k' => upsert k' v acc | None => acc end) ks vs
  | _, _ => acc
  end.

Definition agg (keys : list (option K)) (vals : list (option Q)) : list (group K) :=
  agg_from [] keys vals.

End Keyed.

(** [sum / count], NaN for a group without a price. *)
Definition mean {K} (g : group K) : option Q :=
  match gcount g with
  | O => None
  | S _ => Some (gsum g / inject_Z (Z.of_nat (gcount g)))%Q
  end.

End GroupBy.

Module Sorting.
Section WithBackend.
Context {B : Backend}.

(** [rows.iloc[idx]] *)
Fixpoint take {A} (idx : list nat) (rows : list A) : list A :=
  match idx with
  | [] => []
  | i :: rest =>
      match rows !! i with
      | Some x => x :: take rest rows
      | None => take rest rows
      end
  end.

(** The indexer of [sort_values(ascending=False)] on a column without
    NaN: pandas sorts the reversed column ascending and reverses the
    outcome. *)
Definition nargsort_desc (vals : list Q) : list nat :=
  rev (map (fun j => length vals - 1 - j) (argsort (rev vals))).

Definition sort_values_desc {A} (key : A -> Q) (rows : list A) : list A :=
  take (nargsort_desc (map key rows)) rows.

(** The indexer of [sort_values()] (ascending, NaN last): the positions
    that hold a number, in the order of the numbers, then the positions
    that hold NaN. *)
Definition nargsort_asc (vals : list (option Q)) : list nat :=
  let pos := seq 0 (length vals) in
  let holds_number i := match vals !! i with
                        | Some (Some _) => true
                        | _ => false
                        end in
  let non_nan_idx := List.filter holds_number pos in
  let nan_idx := List.filter (fun i => negb (holds_number i)) pos in
  (take (argsort (omap id vals)) non_nan_idx ++ nan_idx)%list.

Definition sort_values_asc {A} (key : A -> option Q) (rows : list A) : list A :=
  take (nargsort_asc (map key rows)) rows.

End WithBackend.
End Sorting.

(* ===================================================================== *)
(** ** Number formatting of the f-strings                                 *)
(* ===================================================================== *)

Module Format.

(** Nearest integer of a nonnegative rational, ties to even. *)
Definition round_half_even (q : Q) : Z :=
  let n := Qnum q in
  let d := Zpos (Qden q) in
  let fl := (n / d)%Z in
  let twice := (2 * (n mod d))%Z in
  if (twice <? d)%Z then fl
  else if (d <? twice)%Z then (fl + 1)%Z
  else if Z.even fl then fl else (fl + 1)%Z.

Fixpoint zeros (n : nat) : string :=
  match n with O => "" | S k => String "0" (zeros k) end.

Definition pad_zeros (width : nat) (s : string) : string :=
  zeros (width - String.length s) ++ s.

(** Commas between groups of three digits, counted from the right. *)
Fixpoint commas_rev (ds : list ascii) (n : nat) : list ascii :=
  match ds with
  | [] => []
  | d :: r =>
      match n, r with
      | 2, _ :: _ => d :: ","%char :: commas_rev r 0
      | _, _ => d :: commas_rev r (S n)
      end
  end.

Definition thousands (digits : string) : string :=
  string_of_list_ascii
    (rev (commas_rev (rev (list_ascii_of_string digits)) 0)).

(** [f"{q:.{prec}f}"], with [","] as thousands separator when [sep]. *)
Definition fixed (sep : bool) (prec : nat) (q : Q) : string :=
  let scale := Zpos (Numeric.pow10 prec) in
  let scaled := round_half_even (Qabs q * inject_Z scale) in
  let ip : string := pretty (scaled / scale)%Z in
  let fp : string := pretty (scaled mod scale)%Z in
  (if Qlt_le_dec q 0 then "-" else "")
  ++ (if sep then thousands ip else ip)
  ++ match prec with O => "" | S _ => "." ++ pad_zeros prec fp end.

(** NaN prints as [nan]. *)
Definition fixed_nan (prec : nat) (q : option Q) : string :=
  match q with Some v => fixed false prec v | None => "nan" end.

End Format.

(* ===================================================================== *)
(** ** Rows as the sheet delivers them                                    *)
(* ===================================================================== *)

(** A cell of [worksheet.get_all_records()]: text, or a number when the
    cell reads as one. *)
Inductive raw :=
| RStr (s : string)
| RInt (z : Z)
| RFloat (q : Q).

(** One record: a dict from column label to cell, in insertion order. A
    dict binds a label once; should the list repeat one, its first
    binding is the one that counts. *)
Definition record := list (string * raw).

Module Frame.

Fixpoint lookup_key (k : string) (r : record) : option raw :=
  match r with
  | [] => None
  | (k', v) :: rest => if String.eqb k k' then Some v else lookup_key k rest
  end.

(** Labels in order of first appearance. *)
Definition first_seen (ks : list string) : list string :=
  rev (remove_dups (rev ks)).

Definition keys (data : list record) : list string :=
  first_seen (concat (map (map fst) data)).

Definition is_int_cell (c : option raw) : bool :=
  match c with Some (RInt _) => true | _ => false end.

Definition is_number_or_missing (c : option raw) : bool :=
  match c with Some (RStr _) => false | _ => true end.

Definition int_of_cell (c : option raw) : Z :=
  match c with Some (RInt z) => z | _ => 0%Z end.

Definition float_of_cell (c : option raw) : option Q :=
  match c with
  | Some (RInt z) => Some (inject_Z z)
  | Some (RFloat q) => Some q
  | _ => None
  end.

Definition obj_of_cell (c : option raw) : obj :=
  match c with
  | Some (RStr s) => OStr s
  | Some (RInt z) => OInt z
  | Some (RFloat q) => OFloat q
  | None => ONaN
  end.

(** dtype inference: int64 when every cell is an integer, float64 when
    every cell is a number or missing (missing becomes NaN), object
    otherwise. Integers are not bounded to 64 bits here. *)
Definition infer (cells : list (option raw)) : Series :=
  if forallb is_int_cell cells then SInt (map int_of_cell cells)
  else if forallb is_number_or_missing cells then SFloat (map float_of_cell cells)
  else SObject (map obj_of_cell cells).

Definition column_of (data : list record) (k : string) : string * Series :=
  (k, infer (map (lookup_key k) data)).

(** [pd.DataFrame(data)] for a list of dicts. *)
Definition of_records (data : list record) : DataFrame :=
  {| index := seq 0 (length data);
     columns := map (column_of data) (keys data) |}.

End Frame.

(* ===================================================================== *)
(** ** [load_sales_dataframe]                                             *)
(* ===================================================================== *)

Section Loading.
Context {B : Backend}.

Import Pandas.

Definition all_NaT (df : DataFrame) : Series :=
  SDatetime (map (fun _ => None) (index df)).

Definition all_NaN (df : DataFrame) : Series :=
  SFloat (map (fun _ => None) (index df)).

Definition normalize_label (c : string) : string := PyStr.title (PyStr.strip c).

(** Lines 34-37. *)
Definition drop_timestamp_and_alias (df : DataFrame) : DataFrame :=
  let df := if has_column "Timestamp" df then drop_column "Timestamp" df else df in
  if negb (has_column "Barber Name" df) && has_column "Barber" df
  then rename "Barber" "Barber Name" df
  else df.

(** Lines 31-37. *)
Definition relabel (df : DataFrame) : DataFrame :=
  drop_timestamp_and_alias (map_labels normalize_label df).

(** Lines 40-43. *)
Definition parse_date_column (df : DataFrame) : result DataFrame :=
  if has_column "Date" df
  then s ← getitem df "Date"; Ok (setitem df "Date" (to_datetime s))
  else Ok (setitem df "Date" (all_NaT df)).

(** Lines 46-52. *)
Definition coerce_price_column (df : DataFrame) : result DataFrame :=
  if has_column "Price" df
  then
    s ← getitem df "Price";
    cleaned ← str_map PyStr.strip_non_price (astype_str s);
    let df := setitem df "Price" cleaned in
    s ← getitem df "Price";
    Ok (setitem df "Price" (to_numeric s))
  else Ok (setitem df "Price" (all_NaN df)).

(** Lines 55-57, one turn of the loop. *)
Definition normalize_text_column (df : DataFrame) (col : string) : result DataFrame :=
  if has_column col df
  then
    s ← getitem df col;
    stripped ← str_map PyStr.strip (astype_str s);
    Ok (setitem df col stripped)
  else Ok df.

Definition normalize_text_columns (df : DataFrame) : result DataFrame :=
  df ← normalize_text_column df "Barber Name";
  normalize_text_column df "Payment Method".

(** Lines 30-57: labels, date, price and text fields of a non-empty
    table. *)
Definition prepare (df : DataFrame) : result DataFrame :=
  let df := relabel df in
  df ← parse_date_column df;
  df ← coerce_price_column df;
  normalize_text_columns df.

(** Lines 30-60; line 59 keeps only the valid rows. *)
Definition clean (df : DataFrame) : result DataFrame :=
  df ← prepare df;
  dropna ["Date"; "Price"] df.

(** [load_sales_dataframe], from the records fetched from the sheet. *)
Definition load_sales_dataframe (data : list record) : result DataFrame :=
  let df := Frame.of_records data in
  if empty df then Ok df else clean df.

End Loading.

(* ===================================================================== *)
(** ** Objects and references                                             *)
(* ===================================================================== *)

(** The tables live in a store; a stage receives and returns references,
    as Python passes DataFrames. *)
Abbreviation Store := (gmap nat DataFrame).

Definition M (A : Type) : Type := Store -> result A * Store.

#[export] Instance M_ret : MRet M := fun A a σ => (Ok a, σ).
#[export] Instance M_bind : MBind M :=
  fun A B f m σ =>
    match m σ with
    | (Ok a, σ') => f a σ'
    | (Raise e, σ') => (Raise e, σ')
    end.

Definition lift {A} (r : result A) : M A := fun σ => (r, σ).

Definition deref (r : nat) : M DataFrame :=
  fun σ => match σ !! r with
           | Some df => (Ok df, σ)
           | None => (Raise NameError, σ)
           end.

(** In-place update of the object behind [r]. *)
Definition assign (r : nat) (df : DataFrame) : M unit :=
  fun σ => (Ok tt, <[r := df]> σ).

(** A new object. *)
Definition alloc (df : DataFrame) : M nat :=
  fun σ => let r := fresh (dom σ) in (Ok r, <[r := df]> σ).

(* ===================================================================== *)
(** ** [filter_by_period]                                                 *)
(* ===================================================================== *)

(** What the caller passes as a bound: a [datetime.date] (the widgets of
    [main]) or a [datetime] (the annotation). *)
Inductive bound :=
| OnDate (d : Date)
| OnDatetime (t : Timestamp).

(** [pd.to_datetime(bound)] *)
Definition to_timestamp (b : bound) : Timestamp :=
  match b with
  | OnDate d => midnight d
  | OnDatetime t => t
  end.

Module Period.
Import Pandas.

(** [df["Date"] >= lo] and [df["Date"] <= hi]; NaT compares false. *)
Definition ge_mask (ts : list (option Timestamp)) (lo : Timestamp) : list bool :=
  map (fun x => match x with Some t => (lo <=? t)%Z | None => false end) ts.

Definition le_mask (ts : list (option Timestamp)) (hi : Timestamp) : list bool :=
  map (fun x => match x with Some t => (t <=? hi)%Z | None => false end) ts.

(** Comparing a column with a Timestamp: datetime columns only. *)
Definition datetimes (s : Series) : result (list (option Timestamp)) :=
  match s with
  | SDatetime xs => Ok xs
  | _ => Raise TypeError
  end.

Definition period_mask (df : DataFrame) (start_date end_date : bound)
  : result (list bool) :=
  s1 ← getitem df "Date";
  t1 ← datetimes s1;
  s2 ← getitem df "Date";
  t2 ← datetimes s2;
  Ok (mask_and (ge_mask t1 (to_timestamp start_date))
               (le_mask t2 (to_timestamp end_date))).

(** The table [filter_by_period] builds. *)
Definition filtered (df : DataFrame) (start_date end_date : bound)
  : result DataFrame :=
  mask ← period_mask df start_date end_date;
  Ok (loc_mask mask df).

End Period.

(** [filter_by_period(df, mode, start_date, end_date)]: [df.loc[mask]] is a
    new object and [.copy()] another. *)
Definition filter_by_period (df : nat) (mode : string)
           (start_date end_date : bound) : M nat :=
  table ← deref df;
  mask ← lift (Period.period_mask table start_date end_date);
  selected ← alloc (Pandas.loc_mask mask table);
  view ← deref selected;
  alloc view.

(* ===================================================================== *)
(** ** [compute_summaries]                                                *)
(* ===================================================================== *)

(** The [results] dict: [by_barber] and [by_method] are keys that may be
    absent. *)
Record Summaries := {
  total_revenue : Q;
  num_transactions : nat;
  by_barber : option (list (group string));
  by_method : option (list (group string));
  by_day : list (Date * Q)
}.

Section Summarising.
Context {B : Backend}.
Import Pandas.

(** [df.groupby(col)["Price"].agg(["sum", "count"]).reset_index()] *)
Definition group_by_text (df : DataFrame) (col : string)
  : result (list (group string)) :=
  k ← getitem df col;
  p ← getitem df "Price";
  keys ← text_values k;
  vals ← numeric_values p;
  Ok (GroupBy.agg String.compare keys vals).

(** Lines 73-76 and 78-81. *)
Definition breakdown (df : DataFrame) (col : string)
  : result (option (list (group string))) :=
  if has_column col df
  then
    t ← group_by_text df col;
    Ok (Some (Sorting.sort_values_desc gsum t))
  else Ok None.

(** Line 83. *)
Definition revenue_by_day (df : DataFrame) : result (list (Date * Q)) :=
  d ← getitem df "Date";
  ts ← dt d;
  p ← getitem df "Price";
  vals ← numeric_values p;
  Ok (map (fun g => (gkey g, gsum g))
          (GroupBy.agg Z.compare (map (option_map date_of) ts) vals)).

Definition price_total (df : DataFrame) : result Q :=
  if empty df then Ok 0%Q
  else
    p ← getitem df "Price";
    vals ← numeric_values p;
    Ok (sum_skipna vals).

Definition compute_summaries (df : DataFrame) : result Summaries :=
  total ← price_total df;
  barber ← breakdown df "Barber Name";
  method ← breakdown df "Payment Method";
  days ← revenue_by_day df;
  Ok {| total_revenue := total;
        num_transactions := len df;
        by_barber := barber;
        by_method := method;
        by_day := days |}.

End Summarising.

(* ===================================================================== *)
(** ** [format_currency] and [ai_insights]                                *)
(* ===================================================================== *)

(** [f"OMR {value:,.2f}"] *)
Definition format_currency (value : Q) : string :=
  "OMR " ++ Format.fixed true 2 value.

(** The sentences [ai_insights] can append, with the values they print. *)
Inductive insight :=
| NoData
| TopPerformer (name : string) (revenue : Q) (cuts : nat)
| CashShare (share cash card : Q)
| DowTrend (slowest : string) (drop : option Q) (fastest : string).

(** The f-strings of lines 95, 101, 110 and 120. *)
Definition render (i : insight) : string :=
  match i with
  | NoData => "No data in the selected range."
  | TopPerformer name revenue cuts =>
      "Top performer: " ++ name ++ " with " ++ format_currency revenue
      ++ " across " ++ pretty cuts ++ " cuts."
  | CashShare share cash card =>
      "Cash share: " ++ Format.fixed false 1 share ++ "% (Cash "
      ++ format_currency cash ++ " vs Card " ++ format_currency card ++ ")."
  | DowTrend slowest drop fastest =>
      slowest ++ "s are " ++ Format.fixed_nan 0 drop ++ "% slower than "
      ++ fastest ++ "s on average."
  end.

Module Insights.

(** Python truth of a number. *)
Definition truthy (q : Q) : bool := negb (Qeq_bool q 0).

(** Lines 98-102. *)
Definition top_performer (s : Summaries) : list insight :=
  match by_barber s with
  | Some (top_row :: _) =>
      [TopPerformer (gkey top_row) (gsum top_row) (gcount top_row)]
  | _ => []
  end.

(** [methods["revenue"].get("Cash", 0)] *)
Definition cash_of (methods : list (group string)) : Q :=
  match List.find (fun g => String.eqb (gkey g) "Cash") methods with
  | Some g => gsum g
  | None => 0%Q
  end.

(** [methods["revenue"].sum()] *)
Definition revenue_sum {K} (methods : list (group K)) : Q :=
  fold_right (fun g acc => gsum g + acc)%Q 0%Q methods.

Definition card_of (methods : list (group string)) : Q :=
  (revenue_sum methods - cash_of methods)%Q.

Definition share_of (cash card : Q) : Q :=
  if truthy (cash + card) then (cash / (cash + card) * 100)%Q else 0%Q.

(** Lines 104-110. *)
Definition cash_share (s : Summaries) : list insight :=
  match by_method s with
  | Some (g :: rest) =>
      let methods := g :: rest in
      let cash := cash_of methods in
      let card := card_of methods in
      if truthy cash || truthy card
      then [CashShare (share_of cash card) cash card]
      else []
  | _ => []
  end.

(** [df["Date"].dt.day_name()] *)
Definition day_names (ts : list (option Timestamp)) : Series :=
  SObject (map (fun x => match x with
                         | Some t => OStr (day_name t)
                         | None => ONaN
                         end) ts).

Definition positive_mean (m : option Q) : bool :=
  match m with
  | Some q => if Qlt_le_dec 0 q then true else false
  | None => false
  end.

(** [(1 - lo / hi) * 100], NaN when an operand is. *)
Definition drop_of (lo hi : option Q) : option Q :=
  match lo, hi with
  | Some a, Some b => Some ((1 - a / b) * 100)%Q
  | _, _ => None
  end.

(** Lines 115-120, on the sorted means. *)
Definition trend (by_dow : list (group string)) : list insight :=
  match by_dow, last by_dow with
  | first :: _, Some final =>
      if positive_mean (GroupBy.mean final)
      then [DowTrend (gkey first)
                     (drop_of (GroupBy.mean first) (GroupBy.mean final))
                     (gkey final)]
      else []
  | _, _ => []
  end.

End Insights.

Section Insighting.
Context {B : Backend}.
Import Pandas.

(** Line 114: [df.groupby("dow")["Price"].mean().sort_values()] *)
Definition mean_by_dow (df : DataFrame) : result (list (group string)) :=
  t ← group_by_text df "dow";
  Ok (Sorting.sort_values_asc GroupBy.mean t).

(** The body of [ai_insights] on the table behind [df]; line 113 writes
    the [dow] column into that very table. *)
Definition insights_of (df : nat) (summaries : Summaries) : M (list insight) :=
  table ← deref df;
  if empty table then mret [NoData]
  else
    let insights := (Insights.top_performer summaries
                     ++ Insights.cash_share summaries)%list in
    d ← lift (getitem table "Date");
    ts ← lift (dt d);
    _ ← assign df (setitem table "dow" (Insights.day_names ts));
    table ← deref df;
    by_dow ← lift (mean_by_dow table);
    mret (insights ++ Insights.trend by_dow)%list.

Definition ai_insights (df : nat) (summaries : Summaries) : M (list string) :=
  insights ← insights_of df summaries;
  mret (map render insights).

(** Lines 180-203 of [main]: what is computed for the table of the
    session once one is loaded. *)
Definition dashboard (session : nat) (mode : string)
           (start_date end_date : bound)
  : M (option (Summaries * list string)) :=
  loaded ← deref session;
  if empty loaded then mret None
  else
    filtered ← filter_by_period session mode start_date end_date;
    table ← deref filtered;
    summaries ← lift (compute_summaries table);
    tips ← ai_insights filtered summaries;
    mret (Some (summaries, tips)).

End Insighting.

(* ===================================================================== *)
(** ** A concrete backend                                                 *)
(* ===================================================================== *)

(** One admissible choice of the library functions, used to run the
    pipeline on concrete tables: ISO dates ([YYYY-MM-DD], optionally
    followed by [HH:MM] or [HH:MM:SS]), floats printed by their shortest
    exact decimal expansion, and a stable insertion sort. *)
Module Sample.

Fixpoint split_on (sep : ascii) (s : string) : list string :=
  match s with
  | EmptyString => [EmptyString]
  | String c r =>
      if Ascii.eqb c sep then EmptyString :: split_on sep r
      else match split_on sep r with
           | w :: ws => String c w :: ws
           | [] => [String c EmptyString]
           end
  end.

Definition number (s : string) : option Z :=
  match Numeric.span_digits s with
  | (d :: ds, EmptyString) => Some (Numeric.digits_value (d :: ds))
  | _ => None
  end.

Definition is_leap (y : Z) : bool :=
  ((y mod 4 =? 0) && negb (y mod 100 =? 0) || (y mod 400 =? 0))%Z.

Definition days_in_month (y m : Z) : Z :=
  match m with
  | 2%Z => if is_leap y then 29%Z else 28%Z
  | 4%Z | 6%Z | 9%Z | 11%Z => 30%Z
  | _ => 31%Z
  end.

(** Days since 1970-01-01 of a date of the proleptic Gregorian
    calendar. *)
Definition days_from_civil (y m d : Z) : Date :=
  let y' := (if m <=? 2 then y - 1 else y)%Z in
  let era := (y' / 400)%Z in
  let yoe := (y' - era * 400)%Z in
  let mp := ((m + 9) mod 12)%Z in
  let doy := ((153 * mp + 2) / 5 + d - 1)%Z in
  let doe := (yoe * 365 + yoe / 4 - yoe / 100 + doy)%Z in
  (era * 146097 + doe - 719468)%Z.

Definition civil_from_days (z : Date) : Z * Z * Z :=
  let z := (z + 719468)%Z in
  let era := (z / 146097)%Z in
  let doe := (z - era * 146097)%Z in
  let yoe := ((doe - doe / 1460 + doe / 36524 - doe / 146096) / 365)%Z in
  let doy := (doe - (365 * yoe + yoe / 4 - yoe / 100))%Z in
  let mp := ((5 * doy + 2) / 153)%Z in
  let d := (doy - (153 * mp + 2) / 5 + 1)%Z in
  let m := (if mp <? 10 then mp + 3 else mp - 9)%Z in
  let y := (yoe + era * 400 + (if m <=? 2 then 1 else 0))%Z in
  (y, m, d).

Definition parse_day (s : string) : option Date :=
  match map number (split_on "-" s) with
  | [Some y; Some m; Some d] =>
      if ((1 <=? m) && (m <=? 12) && (1 <=? d) && (d <=? days_in_month y m))%Z
      then Some (days_from_civil y m d)
      else None
  | _ => None
  end.

Definition NS_PER_SECOND : Z := 1000000000.

Definition parse_clock (s : string) : option Z :=
  let in_range h m sec :=
    ((h <? 24) && (m <? 60) && (sec <? 60))%Z in
  match map number (split_on ":" s) with
  | [Some h; Some m] =>
      if in_range h m 0%Z
      then Some ((h * 3600 + m * 60) * NS_PER_SECOND)%Z else None
  | [Some h; Some m; Some sec] =>
      if in_range h m sec
      then Some ((h * 3600 + m * 60 + sec) * NS_PER_SECOND)%Z else None
  | _ => None
  end.

Definition parse_iso (s : string) : option Timestamp :=
  match split_on " " s with
  | [day] => d ← parse_day day; Some (midnight d)
  | [day; clock] =>
      d ← parse_day day;
      ns ← parse_clock clock;
      Some (midnight d + ns)%Z
  | _ => None
  end.

Definition parse_cell (column : list obj) (o : obj) : option Timestamp :=
  match o with
  | OStr s => parse_iso s
  | _ => None
  end.

Definition two_digits (z : Z) : string := Format.pad_zeros 2 (pretty z).

Definition print_timestamp (t : Timestamp) : string :=
  let '(y, m, d) := civil_from_days (date_of t) in
  let secs := ((t mod NS_PER_DAY) / NS_PER_SECOND)%Z in
  Format.pad_zeros 4 (pretty y) ++ "-" ++ two_digits m ++ "-" ++ two_digits d
  ++ " " ++ two_digits (secs / 3600) ++ ":" ++ two_digits (secs / 60 mod 60)
  ++ ":" ++ two_digits (secs mod 60).

(** The least number of decimals, from one up, that writes [q]
    exactly; seventeen when there is none below. *)
Fixpoint decimals_from (fuel prec : nat) (q : Q) : nat :=
  match fuel with
  | O => prec
  | S k =>
      if ((Qnum q * Zpos (Numeric.pow10 prec)) mod Zpos (Qden q) =? 0)%Z
      then prec
      else decimals_from k (S prec) q
  end.

Definition print_float (q : Q) : string :=
  Format.fixed false (decimals_from 16 1 q) q.

(** Insertion of position [i] behind every position whose value is not
    larger. *)
Fixpoint insert_pos (vals : list Q) (i : nat) (sorted : list nat) : list nat :=
  match sorted with
  | [] => [i]
  | j :: rest =>
      if Qle_bool (nth j vals 0%Q) (nth i vals 0%Q)
      then j :: insert_pos vals i rest
      else i :: j :: rest
  end.

Definition insertion_argsort (vals : list Q) : list nat :=
  fold_left (fun acc i => insert_pos vals i acc) (seq 0 (length vals)) [].

(** Position [a] holds a value not larger than position [b] does. *)
Definition value_le (vals : list Q) (a b : nat) : Prop :=
  (nth a vals 0 <= nth b vals 0)%Q.

Definition backend : Backend :=
  {| parse_datetime := parse_cell;
     float_repr := print_float;
     datetime_repr := print_timestamp;
     argsort := insertion_argsort |}.

End Sample.

(* ===================================================================== *)
(** ** Vocabulary of the statements                                       *)
(* ===================================================================== *)

Module Vocabulary.
Import Pandas.

(** Wherever [m] is true, [n] is. *)
Definition mask_le (m n : list bool) : Prop :=
  forall i, m !! i = Some true -> n !! i = Some true.

(** No column carrying the label has a null cell. *)
Definition no_nulls (df : DataFrame) (c : string) : Prop :=
  forall s, In (c, s) (columns df) -> Forall (eq true) (notna s).

(** [df'] is [df] but for the columns labelled [c]. *)
Definition same_but (c : string) (df df' : DataFrame) : Prop :=
  index df' = index df
  /\ forall c', c' <> c ->
       getitem df' c' = getitem df c' /\ has_column c' df' = has_column c' df.

(** The text [astype(str)] gives for each cell. *)
Definition texts `{Backend} (s : Series) : list string :=
  match s with
  | SDatetime xs =>
      map (fun x => match x with
                    | Some t => datetime_repr t
                    | None => "NaT"
                    end) xs
  | _ => map str (objects s)
  end.

Definition is_datetime (s : Series) : Prop := exists ts, s = SDatetime ts.

Definition is_numeric (s : Series) : Prop :=
  (exists zs, s = SInt zs) \/ (exists qs, s = SFloat qs).

Definition is_text (s : Series) : Prop := exists ts, s = SObject (map OStr ts).

(** The cleaned text of the price cells. *)
Definition cleaned_prices `{Backend} (s : Series) : list obj :=
  map (fun t => OStr (PyStr.strip_non_price t)) (texts s).

(** The trimmed text of the cells of a text field. *)
Definition stripped_text `{Backend} (s : Series) : Series :=
  SObject (map (fun t => OStr (PyStr.strip t)) (texts s)).

(** The cleaned text of the price of each record, as line 48 leaves
    it. *)
Definition price_texts `{Backend} (data : list record) : list string :=
  match getitem (relabel (Frame.of_records data)) "Price" with
  | Ok s0 => map PyStr.strip_non_price (texts s0)
  | Raise _ => []
  end.

(** No leading minus sign. *)
Definition unsigned (t : string) : Prop := forall r, t <> String "-" r.

Definition nonnegative (v : option Q) : Prop :=
  forall q, v = Some q -> (0 <= q)%Q.

(** The values of the [Price] column, as far as the table has one. *)
Definition prices_are (df : DataFrame) (vals : list (option Q)) : Prop :=
  exists p, getitem df "Price" = Ok p /\ numeric_values p = Ok vals.

(** What a cell adds to a sum that skips NaN. *)
Definition price_of (v : option Q) : Q :=
  match v with Some q => q | None => 0%Q end.

(** Every column is as long as the index. *)
Definition well_formed (df : DataFrame) : Prop :=
  Forall (fun p => series_len (snd p) = length (index df)) (columns df).

(** The column [col] is text and holds no null: its cells are [names]. *)
Definition names_are (df : DataFrame) (col : string) (names : list string) : Prop :=
  exists k, getitem df col = Ok k /\ text_values k = Ok (map Some names).

(** Descending by revenue, and ascending by label. *)
Definition revenue_ge (a b : group string) : Prop := (gsum b <= gsum a)%Q.

Definition label_lt (a b : group string) : Prop :=
  String.compare (gkey a) (gkey b) = Lt.

(** A table as the pipeline hands it on: columns as long as the index,
    a datetime [Date], a numeric [Price], and text in the two name
    columns when they exist. *)
Definition transaction_table (df : DataFrame) : Prop :=
  well_formed df
  /\ (exists d, getitem df "Date" = Ok d /\ is_datetime d)
  /\ (exists p, getitem df "Price" = Ok p /\ is_numeric p)
  /\ (forall col, col = "Barber Name" \/ col = "Payment Method" ->
        has_column col df = true ->
        exists k, getitem df col = Ok k /\ is_text k).

(** The breakdown an empty table gets for a name column. *)
Definition empty_breakdown (df : DataFrame) (col : string)
  : option (list (group string)) :=
  if has_column col df then Some [] else None.

(** Position of the first cell equal to [name]. *)
Fixpoint first_seen_at (name : string) (names : list string) : nat :=
  match names with
  | [] => 0
  | n :: rest => if String.eqb name n then 0 else S (first_seen_at name rest)
  end.

(** Of two groups with equal revenue, the one whose label appears first
    in the column comes first. *)
Definition ties_by_first_seen (names : list string) (t : list (group string))
  : Prop :=
  forall i j a b,
    i < j -> t !! i = Some a -> t !! j = Some b -> (gsum a == gsum b)%Q ->
    first_seen_at (gkey a) names < first_seen_at (gkey b) names.

(** The groups of every label other than "Cash". *)
Definition not_cash (g : group string) : bool :=
  negb (String.eqb (gkey g) "Cash").

(** The row test of [filter_by_period], on time stamps. *)
Definition in_window (lo hi : Timestamp) (x : option Timestamp) : bool :=
  match x with
  | Some t => (lo <=? t)%Z && (t <=? hi)%Z
  | None => false
  end.

(** The row test on calendar dates, the time of day left aside. *)
Definition on_dates (first last : Date) (x : option Timestamp) : bool :=
  match x with
  | Some t => (first <=? date_of t)%Z && (date_of t <=? last)%Z
  | None => false
  end.

(** A time stamp without a time of day. *)
Definition date_only (x : option Timestamp) : Prop :=
  forall t, x = Some t -> t = midnight (date_of t).

(** At most one column carries the label [c]. *)
Definition single (c : string) (df : DataFrame) : Prop :=
  has_column c df = true -> exists s, getitem df c = Ok s.

(** The cells of the column [col], each with the label of its row. *)
Definition cells (df : DataFrame) (col : string) : list (nat * obj) :=
  match getitem df col with
  | Ok s => zip (index df) (objects s)
  | Raise _ => []
  end.

(** The record has no value under a label that ends up as [col]: none
    of its labels normalises to [col], nor to "Barber" when [col] is
    the barber column that "Barber" is an alias of. *)
Definition lacks (rec : record) (col : string) : Prop :=
  forall k v, In (k, v) rec ->
    normalize_label k <> col
    /\ (col = "Barber Name" -> normalize_label k <> "Barber").

End Vocabulary.

(* ===================================================================== *)
(** ** Sample sheets and tables                                           *)
(* ===================================================================== *)

Module Examples.

(** 2025-07-01, a Tuesday, and the day after. *)
Definition july1 : Date := 20270%Z.
Definition july2 : Date := 20271%Z.

Definition at_clock (d : Date) (h m : Z) : Timestamp :=
  (midnight d + (h * 3600 + m * 60) * Sample.NS_PER_SECOND)%Z.

Definition sale (date price barber method : raw) : record :=
  [("Date", date); ("Price", price); ("Barber Name", barber);
   ("Payment Method", method)].

Definition table (dates : list (option Timestamp)) (prices : Series)
           (barbers methods : list string) : DataFrame :=
  {| index := seq 0 (length dates);
     columns := [("Date", SDatetime dates); ("Price", prices);
                 ("Barber Name", SObject (map OStr barbers));
                 ("Payment Method", SObject (map OStr methods))] |}.

(** Two sales of one day, the barber column under its short label. *)
Definition plain_sheet : list record :=
  [ [("Date", RStr "2025-07-01"); ("Price", RStr "$10.00");
     ("Barber", RStr "Sam"); ("Payment Method", RStr "Cash")];
    [("Date", RStr "2025-07-01"); ("Price", RInt 15);
     ("Barber", RStr "Sam"); ("Payment Method", RStr "Card")] ].

Definition plain_table : DataFrame :=
  table [Some (midnight july1); Some (midnight july1)]
        (SFloat [Some (1000 # 100); Some (15 # 1)])
        ["Sam"; "Sam"] ["Cash"; "Card"].

Definition plain_summaries : Summaries :=
  {| total_revenue := 2500 # 100;
     num_transactions := 2;
     by_barber := Some [ {| gkey := "Sam"; gsum := 2500 # 100; gcount := 2 |} ];
     by_method := Some [ {| gkey := "Card"; gsum := 15 # 1; gcount := 1 |};
                         {| gkey := "Cash"; gsum := 1000 # 100; gcount := 1 |} ];
     by_day := [(july1, 2500 # 100)] |}.

(** The table of [plain_sheet] once [ai_insights] has run on it. *)
Definition plain_table_after : DataFrame :=
  {| index := index plain_table;
     columns := (columns plain_table
                 ++ [("dow", SObject [OStr "Tuesday"; OStr "Tuesday"])])%list |}.

(** A sale, a refund, and a row without a date. *)
Definition refund_sheet : list record :=
  [ sale (RStr "2025-07-01") (RStr "$10.00") (RStr "Sam") (RStr "Cash");
    sale (RStr "2025-07-01") (RStr "-5") (RStr "Sam") (RStr "Card");
    sale (RStr "") (RStr "12") (RStr "Ali") (RStr "Cash") ].

Definition refund_table : DataFrame :=
  table [Some (midnight july1); Some (midnight july1)]
        (SFloat [Some (1000 # 100); Some (-5 # 1)])
        ["Sam"; "Sam"] ["Cash"; "Card"].

(** A cash sale undone by a card refund of the same amount. *)
Definition offset_sheet : list record :=
  [ sale (RStr "2025-07-01") (RStr "5") (RStr "Sam") (RStr "Cash");
    sale (RStr "2025-07-01") (RStr "-5") (RStr "Sam") (RStr "Card") ].

Definition offset_table : DataFrame :=
  table [Some (midnight july1); Some (midnight july1)]
        (SInt [5; -5]%Z) ["Sam"; "Sam"] ["Cash"; "Card"].

Definition offset_methods : list (group string) :=
  [ {| gkey := "Cash"; gsum := 5 # 1; gcount := 1 |};
    {| gkey := "Card"; gsum := -5 # 1; gcount := 1 |} ].

Definition offset_summaries : Summaries :=
  {| total_revenue := 0 # 1;
     num_transactions := 2;
     by_barber := Some [ {| gkey := "Sam"; gsum := 0 # 1; gcount := 2 |} ];
     by_method := Some offset_methods;
     by_day := [(july1, 0 # 1)] |}.

(** Two barbers with equal revenue, Zed entered first. *)
Definition tie_sheet : list record :=
  [ sale (RStr "2025-07-01") (RStr "10") (RStr "Zed") (RStr "Cash");
    sale (RStr "2025-07-01") (RStr "10") (RStr "Amy") (RStr "Card") ].

Definition tie_table : DataFrame :=
  table [Some (midnight july1); Some (midnight july1)]
        (SInt [10; 10]%Z) ["Zed"; "Amy"] ["Cash"; "Card"].

Definition tie_breakdown : list (group string) :=
  [ {| gkey := "Amy"; gsum := 10 # 1; gcount := 1 |};
    {| gkey := "Zed"; gsum := 10 # 1; gcount := 1 |} ].

Definition tie_summaries : Summaries :=
  {| total_revenue := 20 # 1;
     num_transactions := 2;
     by_barber := Some tie_breakdown;
     by_method := Some [ {| gkey := "Card"; gsum := 10 # 1; gcount := 1 |};
                         {| gkey := "Cash"; gsum := 10 # 1; gcount := 1 |} ];
     by_day := [(july1, 20 # 1)] |}.

(** The second record has no barber at all. *)
Definition gap_sheet : list record :=
  [ sale (RStr "2025-07-01") (RStr "10") (RStr "Sam") (RStr "Cash");
    [("Date", RStr "2025-07-02"); ("Price", RInt 15);
     ("Payment Method", RStr "Card")] ].

Definition gap_table : DataFrame :=
  table [Some (midnight july1); Some (midnight july2)]
        (SInt [10; 15]%Z) ["Sam"; "nan"] ["Cash"; "Card"].

Definition gap_summaries : Summaries :=
  {| total_revenue := 25 # 1;
     num_transactions := 2;
     by_barber := Some [ {| gkey := "nan"; gsum := 15 # 1; gcount := 1 |};
                         {| gkey := "Sam"; gsum := 10 # 1; gcount := 1 |} ];
     by_method := Some [ {| gkey := "Card"; gsum := 15 # 1; gcount := 1 |};
                         {| gkey := "Cash"; gsum := 10 # 1; gcount := 1 |} ];
     by_day := [(july1, 10 # 1); (july2, 15 # 1)] |}.

Definition gap_insights : list insight :=
  [ TopPerformer "nan" (15 # 1) 1;
    CashShare (1000 # 25) (10 # 1) (15 # 1);
    DowTrend "Tuesday" (Some (500 # 15)) "Wednesday" ].

(** One sale entered with its time, half past two in the afternoon. *)
Definition afternoon_sheet : list record :=
  [ sale (RStr "2025-07-01 14:30") (RInt 10) (RStr "Sam") (RStr "Cash") ].

Definition afternoon_table : DataFrame :=
  table [Some (at_clock july1 14 30)] (SInt [10]%Z) ["Sam"] ["Cash"].

(** A transaction table without rows. *)
Definition empty_table : DataFrame := table [] (SInt []) [] [].

Definition empty_summaries : Summaries :=
  {| total_revenue := 0;
     num_transactions := 0;
     by_barber := Some [];
     by_method := Some [];
     by_day := [] |}.

End Examples.

From Stdlib Require Import Lqa.

(* ===================================================================== *)
(** ** [main]: one run of the script                                      *)
(* ===================================================================== *)

Module Main.
Import Pandas.

(** What the sidebar hands to one run of the script: the sheet id typed
    in, the period mode, the value of the first (in Daily mode the only)
    date input and of the second one, and whether "Load Data" was
    pressed. *)
Record Sidebar := {
  sheet_id : string;
  mode : string;
  first_date : Date;
  second_date : Date;
  load_btn : bool
}.

(** Lines 149-163: [start_date] and [end_date]. Daily has one date
    input and makes [end_date] the same object. *)
Definition period (ui : Sidebar) : Date * Date :=
  if String.eqb (mode ui) "Daily"
  then (first_date ui, first_date ui)
  else (first_date ui, second_date ui).

(** [d.replace(day=day)] for a [datetime.date]. *)
Definition replace_day (d : Date) (day : Z) : Date :=
  let '(y, m, _) := Sample.civil_from_days d in Sample.days_from_civil y m day.

(** Lines 146-163: the values the date inputs have as long as they are
    left alone (Daily has one input only). *)
Definition default_dates (mode : string) (today : Date) : Date * Date :=
  let default_start := (today - 6)%Z in
  if String.eqb mode "Daily" then (today, today)
  else if String.eqb mode "Weekly" then (default_start, today)
  else (replace_day default_start 1, today).

(** The sidebar as it comes up on the day [today]. *)
Definition default_sidebar (id mode : string) (today : Date) (pressed : bool)
  : Sidebar :=
  {| sheet_id := id;
     mode := mode;
     first_date := (default_dates mode today).1;
     second_date := (default_dates mode today).2;
     load_btn := pressed |}.

Inductive notice :=
| NeedsSheetId
| LoadFailed.

(** [pd.DataFrame()] *)
Definition no_table : DataFrame := {| index := []; columns := [] |}.

Section WithBackend.
Context {B : Backend}.

(** Lines 168-177. [fetched] stands for lines 22-24: the records of the
    sheet, or [None] when getting them raises. [st.session_state.df] is
    a reference once something was stored under it. *)
Definition load (ui : Sidebar) (fetched : option (list record))
           (session : option nat) : M (option nat * list notice) :=
  if load_btn ui
  then
    if String.eqb (sheet_id ui) ""
    then mret (session, [NeedsSheetId])
    else
      match fetched with
      | Some data =>
          match load_sales_dataframe data with
          | Ok df => r ← alloc df; mret (Some r, [])
          | Raise _ => r ← alloc no_table; mret (Some r, [LoadFailed])
          end
      | None => r ← alloc no_table; mret (Some r, [LoadFailed])
      end
  else mret (session, []).

(** Line 190. *)
Definition avg_ticket (s : Summaries) : Q :=
  match num_transactions s with
  | O => 0
  | S _ => total_revenue s / inject_Z (Z.of_nat (num_transactions s))
  end.

(** The three metrics of lines 187-191, as shown. *)
Record Metrics := {
  shown_total : string;
  shown_count : string;
  shown_avg : string
}.

Definition metrics (s : Summaries) : Metrics :=
  {| shown_total := format_currency (total_revenue s);
     shown_count := pretty (num_transactions s);
     shown_avg := format_currency (avg_ticket s) |}.

(** What lines 180-203 put on the page. *)
Record Page := {
  summaries : Summaries;
  cards : Metrics;
  tips : list string
}.

(** [st.dataframe(df)]: the table is sent to the browser as an Arrow
    table, and Arrow takes no two columns of one label. *)
Definition st_dataframe (df : DataFrame) : result unit :=
  if bool_decide (NoDup (labels df)) then Ok tt else Raise ValueError.

(** Lines 180-205; [None] is the note of line 205. The tables of lines
    196 and 199 have the labels [compute_summaries] gives them, which
    differ, so that showing them does not raise. *)
Definition show (ui : Sidebar) (session : option nat) : M (option Page) :=
  match session with
  | None => mret None
  | Some df =>
      loaded ← deref df;
      if empty loaded then mret None
      else
        filtered ← filter_by_period df (mode ui) (OnDate (period ui).1)
                                    (OnDate (period ui).2);
        table ← deref filtered;
        s ← lift (compute_summaries table);
        _ ← lift (st_dataframe table);
        sentences ← ai_insights filtered s;
        mret (Some {| summaries := s; cards := metrics s; tips := sentences |})
  end.

(** One run of [main]: the session state it leaves, the notices of the
    loading step, and the page. *)
Definition main (ui : Sidebar) (fetched : option (list record))
           (session : option nat)
  : M (option nat * list notice * option Page) :=
  loaded ← load ui fetched session;
  page ← show ui loaded.1;
  mret (loaded.1, loaded.2, page).

End WithBackend.
End Main.

(* ===================================================================== *)
(** ** The script [las.py]                                                *)
(* ===================================================================== *)

Module Las.
Import Pandas.

Definition head_series (n : nat) (s : Series) : Series :=
  match s with
  | SObject xs => SObject (firstn n xs)
  | SInt xs => SInt (firstn n xs)
  | SFloat xs => SFloat (firstn n xs)
  | SDatetime xs => SDatetime (firstn n xs)
  end.

(** [df.head(n)] *)
Definition head (n : nat) (df : DataFrame) : DataFrame :=
  {| index := firstn n (index df);
     columns := map (fun p => (fst p, head_series n (snd p))) (columns df) |}.

Section WithBackend.
Context {B : Backend}.

(** Lines 31-34, from the records of line 28. The label is looked up as
    it stands in the sheet. *)
Definition df (data : list record) : result DataFrame :=
  let frame := Frame.of_records data in
  s ← getitem frame "Date";
  Ok (setitem frame "Date" (to_datetime s)).

(** Line 37: the rows that are printed. *)
Definition printed (data : list record) : result DataFrame :=
  t ← df data;
  Ok (head 5 t).

End WithBackend.
End Las.

(* ===================================================================== *)
(** ** Further vocabulary                                                 *)
(* ===================================================================== *)

Module Terms.
Import Pandas Vocabulary.

(** The date of each record as line 41 reads it: NaT throughout when no
    column ends up labelled [Date]. *)
Definition dates `{Backend} (data : list record) : list (option Timestamp) :=
  match getitem (relabel (Frame.of_records data)) "Date" with
  | Ok s => match to_datetime s with SDatetime ts => ts | _ => [] end
  | Raise _ => map (fun _ => None) data
  end.

(** The record at position [i] has a date that parses and a price that,
    once cleaned, reads as a number. *)
Definition valid `{Backend} (data : list record) (i : nat) : bool :=
  match dates data !! i, price_texts data !! i with
  | Some (Some _), Some t =>
      match Numeric.parse t with Some _ => true | None => false end
  | _, _ => false
  end.

Definition starts_with_space (s : string) : bool :=
  match s with
  | String c _ => PyStr.is_space c
  | EmptyString => false
  end.

Fixpoint ends_with_space (s : string) : bool :=
  match s with
  | String c EmptyString => PyStr.is_space c
  | String _ r => ends_with_space r
  | EmptyString => false
  end.

(** Text without white space at either end. *)
Definition trimmed (s : string) : Prop :=
  starts_with_space s = false /\ ends_with_space s = false.

(** The four labels the pipeline reads. *)
Definition read_labels : list string :=
  ["Date"; "Price"; "Barber Name"; "Payment Method"].

(** The prices of the rows whose key is [k], in row order. *)
Fixpoint prices_of {K} (same : K -> K -> bool) (k : K)
         (keys : list (option K)) (vals : list (option Q)) : list (option Q) :=
  match keys, vals with
  | k' :: ks, v :: vs =>
      match k' with
      | Some k'' =>
          if same k k'' then v :: prices_of same k ks vs
          else prices_of same k ks vs
      | None => prices_of same k ks vs
      end
  | _, _ => []
  end.

(** How many cells hold a price. *)
Definition priced (vals : list (option Q)) : nat :=
  length (List.filter (fun v => match v with Some _ => true | None => false end) vals).

(** [count] added up over the groups. *)
Definition count_sum {K} (t : list (group K)) : nat :=
  fold_right (fun g acc => gcount g + acc) 0 t.



(** A table that was loaded from a sheet or is what a failed load
    leaves: without rows or columns, or a transaction table that has no
    column labelled [dow]. *)
Definition presentable (df : DataFrame) : Prop :=
  empty df = true
  \/ (transaction_table df /\ has_column "dow" df = false).

(** The time stamp is midnight of the day [d]. *)
Definition at_midnight (d : Date) (x : option Timestamp) : bool :=
  match x with
  | Some t => (t =? midnight d)%Z
  | None => false
  end.

(** Year and month of a day, and its day of the month. *)
Definition month_of (d : Date) : Z * Z :=
  let '(y, m, _) := Sample.civil_from_days d in (y, m).

Definition day_of_month (d : Date) : Z :=
  let '(_, _, day) := Sample.civil_from_days d in day.

(** The amount a currency text stands for once the price cleaning of
    line 48 and [pd.to_numeric] have read it. *)
Definition read_amount (s : string) : option Q :=
  option_map Numeric.num_value (Numeric.parse (PyStr.strip_non_price s)).

End Terms.

(* ===================================================================== *)
(** ** Further sample sheets                                              *)
(* ===================================================================== *)

Module Sheets.
Import Examples.

(** A sheet as a form fills it: a form time stamp, headers in another
    case and with blanks around them, a column the pipeline does not
    read, an amount with currency and separator. The second record has
    no date that parses, the third no price. *)
Definition form_sheet : list record :=
  [ [("Timestamp", RStr "7/1/2025 10:00:00"); (" date ", RStr "2025-07-01");
     ("PRICE", RStr "OMR 1,250.50"); ("barber", RStr "  Sam ");
     ("payment method", RStr "Cash "); ("service", RStr "Cut")];
    [("Timestamp", RStr "7/1/2025 11:00:00"); (" date ", RStr "yesterday");
     ("PRICE", RStr "12"); ("barber", RStr "Ali");
     ("payment method", RStr "Card"); ("service", RStr "Shave")];
    [("Timestamp", RStr "7/2/2025 09:30:00"); (" date ", RStr "2025-07-02");
     ("PRICE", RStr "free"); ("barber", RStr "Ali");
     ("payment method", RStr "Cash"); ("service", RStr "Cut")] ].

Definition form_table : DataFrame :=
  {| index := [0];
     columns := [("Date", SDatetime [Some (midnight july1)]);
                 ("Price", SFloat [Some (125050 # 100)]);
                 ("Barber Name", SObject [OStr "Sam"]);
                 ("Payment Method", SObject [OStr "Cash"]);
                 ("Service", SObject [OStr "Cut"])] |}.

(** Two headers that both normalise to [Date]. *)
Definition doubled_sheet : list record :=
  [ [("Date", RStr "2025-07-01"); ("date ", RStr "2025-07-01");
     ("Price", RInt 10)] ].

(** Two headers that both normalise to [Service], a label the pipeline
    does not read. *)
Definition twice_served_sheet : list record :=
  [ [("Date", RStr "2025-07-01"); ("Price", RInt 10);
     ("Service", RStr "Cut"); ("service ", RStr "Shave")] ].

Definition twice_served_table : DataFrame :=
  {| index := [0];
     columns := [("Date", SDatetime [Some (midnight july1)]);
                 ("Price", SInt [10]%Z);
                 ("Service", SObject [OStr "Cut"]);
                 ("Service", SObject [OStr "Shave"])] |}.

(** The table of [gap_sheet] without its first row. *)
Definition second_row : DataFrame :=
  {| index := [1];
     columns := [("Date", SDatetime [Some (midnight july2)]);
                 ("Price", SInt [15]%Z);
                 ("Barber Name", SObject [OStr "nan"]);
                 ("Payment Method", SObject [OStr "Card"])] |}.

(** The sidebar in Daily mode on the first of July, "Load Data" pressed
    or not. *)
Definition daily (pressed : bool) : Main.Sidebar :=
  {| Main.sheet_id := "sheet";
     Main.mode := "Daily";
     Main.first_date := july1;
     Main.second_date := july2;
     Main.load_btn := pressed |}.

End Sheets.

From Stdlib Require SpecFloat.

(* ===================================================================== *)
(** ** Sums as the machine takes them                                     *)
(* ===================================================================== *)

(** [compute_summaries] and [Insights] above add prices as exact
    rationals. pandas adds them as the column holds them: an int64
    column in 64-bit integers that wrap around, a float64 column in
    binary64 with every sum rounded to the nearest double, and not in
    one order: [Series.sum] is numpy's pairwise sum, the sum of a group
    is a compensated (Kahan) sum. This part embeds the sums of lines 70,
    74 to 84 and the arithmetic of lines 104 to 110 with those numbers. *)

Module Float64.
Import SpecFloat.

(** IEEE 754 binary64, as the Standard Library specifies it. *)
Definition float : Type := spec_float.
Definition prec : Z := 53.
Definition emax : Z := 1024.

Definition zero : float := S754_zero false.
Definition nan : float := S754_nan.

Definition add : float -> float -> float := SFadd prec emax.
Definition sub : float -> float -> float := SFsub prec emax.
Definition mul : float -> float -> float := SFmul prec emax.
Definition div : float -> float -> float := SFdiv prec emax.

(** [float(n)] of an integer: the nearest double, ties to even. *)
Definition of_Z (z : Z) : float := binary_normalize prec emax z 0 false.

(** The double nearest to a rational, ties to even. *)
Definition of_Q (q : Q) : float :=
  match Qnum q with
  | Z0 => zero
  | Zpos n =>
      let '(m, e, l) :=
        SFdiv_core_binary prec emax (Zpos n) 0 (Zpos (Qden q)) 0 in
      binary_round_aux prec emax false m e l
  | Zneg n =>
      let '(m, e, l) :=
        SFdiv_core_binary prec emax (Zpos n) 0 (Zpos (Qden q)) 0 in
      binary_round_aux prec emax true m e l
  end.

Definition is_nan (f : float) : bool :=
  match f with S754_nan => true | _ => false end.

(** Python truth of a float: anything but a zero, NaN included. *)
Definition nonzero (f : float) : bool :=
  match f with S754_zero _ => false | _ => true end.

(** Greater than zero. *)
Definition positive (f : float) : bool :=
  match f with
  | S754_finite false _ _ | S754_infinity false => true
  | _ => false
  end.

(** The rational a finite double stands for. *)
Definition exact (f : float) : Q :=
  match f with
  | S754_finite s m e =>
      let n := if s then Zneg m else Zpos m in
      match e with
      | Z0 => inject_Z n
      | Zpos p => inject_Z (n * 2 ^ Zpos p)
      | Zneg p => n # (2 ^ p)
      end
  | _ => 0
  end.

(** A rational that orders the doubles other than NaN as they are
    ordered: the infinities lie beyond every finite double. *)
Definition order_key (f : float) : Q :=
  match f with
  | S754_infinity false => inject_Z (2 ^ 1024)
  | S754_infinity true => inject_Z (- 2 ^ 1024)
  | _ => exact f
  end.

End Float64.

Module Int64.

(** The 64-bit two's complement integer that a result wraps around to. *)
Definition wrap (z : Z) : Z := ((z + 2 ^ 63) mod 2 ^ 64 - 2 ^ 63)%Z.

Definition sum (zs : list Z) : Z :=
  fold_left (fun acc z => wrap (acc + z)) zs 0%Z.

End Int64.

Module Machine.
Import Pandas.

(** A number as Python holds it: an integer ([np.int64], or the [int]
    0 of line 106) or a double. *)
Inductive scalar :=
| IntVal (z : Z)
| FloatVal (f : Float64.float).

(** [float(x)] *)
Definition to_float (x : scalar) : Float64.float :=
  match x with
  | IntVal z => Float64.of_Z z
  | FloatVal f => f
  end.

(** Python truth of a number. *)
Definition truthy (x : scalar) : bool :=
  match x with
  | IntVal z => negb (z =? 0)%Z
  | FloatVal f => Float64.nonzero f
  end.

(** [a - b]: in int64 when both are integers, in float64 otherwise. *)
Definition minus (a b : scalar) : scalar :=
  match a, b with
  | IntVal x, IntVal y => IntVal (Int64.wrap (x - y))
  | _, _ => FloatVal (Float64.sub (to_float a) (to_float b))
  end.

(** The cells of a numeric column. *)
Inductive column :=
| Int64s (zs : list Z)
| Float64s (fs : list Float64.float).

(** A float64 cell holds the double nearest to the number that was
    read (as [pd.to_numeric] reads a decimal of up to 15 digits), NaN
    for a missing one. *)
Definition cell (v : option Q) : Float64.float :=
  match v with
  | Some q => Float64.of_Q q
  | None => Float64.nan
  end.

Definition cells (s : Series) : result column :=
  match s with
  | SInt zs => Ok (Int64s zs)
  | SFloat qs => Ok (Float64s (map cell qs))
  | _ => Raise TypeError
  end.

(** numpy's sum of a float64 array: fewer than 8 numbers are added
    from the left; up to 128 are added into 8 accumulators, which are
    then combined in pairs, the rest following from the left; longer
    arrays are halved. *)
Fixpoint blocks (fuel : nat) (r xs : list Float64.float)
  : list Float64.float * list Float64.float :=
  match fuel with
  | O => (r, xs)
  | S fuel' =>
      if (8 <=? length xs)%nat
      then blocks fuel' (zip_with Float64.add r (firstn 8 xs)) (skipn 8 xs)
      else (r, xs)
  end.

Definition combine8 (r : list Float64.float) : Float64.float :=
  match r with
  | [r0; r1; r2; r3; r4; r5; r6; r7] =>
      Float64.add
        (Float64.add (Float64.add r0 r1) (Float64.add r2 r3))
        (Float64.add (Float64.add r4 r5) (Float64.add r6 r7))
  | _ => Float64.zero
  end.

Definition unrolled (xs : list Float64.float) : Float64.float :=
  let '(r, rest) := blocks (length xs) (firstn 8 xs) (skipn 8 xs) in
  fold_left Float64.add rest (combine8 r).

Fixpoint pairwise (fuel : nat) (xs : list Float64.float) : Float64.float :=
  let n := length xs in
  if (n <? 8)%nat then fold_left Float64.add xs Float64.zero
  else if (n <=? 128)%nat then unrolled xs
  else
    match fuel with
    | O => Float64.zero
    | S fuel' =>
        let n2 := (n / 2 - (n / 2) mod 8)%nat in
        Float64.add (pairwise fuel' (firstn n2 xs))
                    (pairwise fuel' (skipn n2 xs))
    end.

Definition np_sum (xs : list Float64.float) : Float64.float :=
  Float64.add Float64.zero (pairwise (length xs) xs).

(** [Series.sum()]: NaN counts as 0. *)
Definition series_sum (c : column) : scalar :=
  match c with
  | Int64s zs => IntVal (Int64.sum zs)
  | Float64s fs =>
      FloatVal (np_sum (map (fun f => if Float64.is_nan f then Float64.zero
                                      else f) fs))
  end.

(** One step of the compensated sum of [groupby(...).sum()]: the running
    sum and the error it carries. *)
Definition kahan_step (state : Float64.float * Float64.float)
           (val : Float64.float) : Float64.float * Float64.float :=
  let '(sumx, compensation) := state in
  let y := Float64.sub val compensation in
  let t := Float64.add sumx y in
  let c := Float64.sub (Float64.sub t sumx) y in
  (t, if Float64.is_nan c then Float64.zero else c).

Definition kahan (fs : list Float64.float) : Float64.float :=
  fst (fold_left kahan_step
                 (List.filter (fun f => negb (Float64.is_nan f)) fs)
                 (Float64.zero, Float64.zero)).

(** The cells of the rows whose key is [k], in row order. *)
Fixpoint rows_of {K V} (same : K -> K -> bool) (k : K)
         (keys : list (option K)) (vals : list V) : list V :=
  match keys, vals with
  | k' :: ks, v :: vs =>
      match k' with
      | Some k'' =>
          if same k k'' then v :: rows_of same k ks vs
          else rows_of same k ks vs
      | None => rows_of same k ks vs
      end
  | _, _ => []
  end.

(** One row of a grouped table, and the table with the dtype of its
    [revenue] column. *)
Record row (K V : Type) := {
  label : K;
  revenue : V;
  transactions : nat
}.
Arguments label {K V} r.
Arguments revenue {K V} r.
Arguments transactions {K V} r.

Inductive table (K : Type) :=
| IntTable (rows : list (row K Z))
| FloatTable (rows : list (row K Float64.float)).
Arguments IntTable {K} rows.
Arguments FloatTable {K} rows.

(** [groupby(key)["Price"].agg(["sum", "count"])]: one row for each key,
    in ascending order of the keys, with the number of its prices; its
    sum is the int64 sum or the compensated float64 sum of the cells of
    its rows, taken in row order. *)
Definition groups {K} (cmp : K -> K -> comparison) (same : K -> K -> bool)
           (keys : list (option K)) (vals : list (option Q)) (c : column)
  : table K :=
  let gs := GroupBy.agg cmp keys vals in
  match c with
  | Int64s zs =>
      IntTable (map (fun g => {| label := gkey g;
                                 revenue := Int64.sum (rows_of same (gkey g) keys zs);
                                 transactions := gcount g |}) gs)
  | Float64s fs =>
      FloatTable (map (fun g => {| label := gkey g;
                                   revenue := kahan (rows_of same (gkey g) keys fs);
                                   transactions := gcount g |}) gs)
  end.

(** The [revenue] column of a grouped table. *)
Definition revenues {K} (t : table K) : column :=
  match t with
  | IntTable rows => Int64s (map revenue rows)
  | FloatTable rows => Float64s (map revenue rows)
  end.

Definition labels_of {K} (t : table K) : list K :=
  match t with
  | IntTable rows => map label rows
  | FloatTable rows => map label rows
  end.

Section WithBackend.
Context {B : Backend}.

(** The indexer of [sort_values(ascending=False)] on a float64 column:
    the doubles in descending order, NaN after them. *)
Definition nargsort_floats_desc (fs : list Float64.float) : list nat :=
  let pos := seq 0 (length fs) in
  let is_nan_at i := match fs !! i with
                     | Some f => Float64.is_nan f
                     | None => false
                     end in
  let non_nan_idx := List.filter (fun i => negb (is_nan_at i)) pos in
  let nan_idx := List.filter is_nan_at pos in
  let non_nans := List.filter (fun f => negb (Float64.is_nan f)) fs in
  (Sorting.take (Sorting.nargsort_desc (map Float64.order_key non_nans))
                non_nan_idx ++ nan_idx)%list.

(** [t.sort_values("revenue", ascending=False)] *)
Definition sort_by_revenue {K} (t : table K) : table K :=
  match t with
  | IntTable rows =>
      IntTable (Sorting.sort_values_desc (fun r => inject_Z (revenue r)) rows)
  | FloatTable rows =>
      FloatTable (Sorting.take (nargsort_floats_desc (map revenue rows)) rows)
  end.

(** Lines 73-76 and 78-81. *)
Definition grouped (df : DataFrame) (col : string)
  : result (option (table string)) :=
  if has_column col df
  then
    k ← getitem df col;
    p ← getitem df "Price";
    keys ← text_values k;
    vals ← numeric_values p;
    c ← cells p;
    Ok (Some (sort_by_revenue (groups String.compare String.eqb keys vals c)))
  else Ok None.

(** Line 83: the days in ascending order, not sorted by revenue. *)
Definition grouped_by_day (df : DataFrame) : result (table Date) :=
  d ← getitem df "Date";
  ts ← dt d;
  p ← getitem df "Price";
  vals ← numeric_values p;
  c ← cells p;
  Ok (groups Z.compare Z.eqb (map (option_map date_of) ts) vals c).

(** Line 70. *)
Definition total (df : DataFrame) : result Float64.float :=
  if empty df then Ok Float64.zero
  else
    p ← getitem df "Price";
    c ← cells p;
    Ok (to_float (series_sum c)).

End WithBackend.

(** [methods["revenue"].get("Cash", 0)] *)
Definition cash_of (methods : table string) : scalar :=
  match methods with
  | IntTable rows =>
      match List.find (fun r => String.eqb (label r) "Cash") rows with
      | Some r => IntVal (revenue r)
      | None => IntVal 0
      end
  | FloatTable rows =>
      match List.find (fun r => String.eqb (label r) "Cash") rows with
      | Some r => FloatVal (revenue r)
      | None => IntVal 0
      end
  end.

(** Line 107. *)
Definition card_of (methods : table string) : Float64.float :=
  to_float (minus (series_sum (revenues methods)) (cash_of methods)).

(** Line 109: a double, or the [int] 0. *)
Definition share_of (cash : scalar) (card : Float64.float) : scalar :=
  let both := Float64.add (to_float cash) card in
  if Float64.nonzero both
  then FloatVal (Float64.mul (Float64.div (to_float cash) both)
                             (Float64.of_Z 100))
  else IntVal 0.

(** What the sentence of line 110 prints. *)
Record cash_line := {
  share : scalar;
  cash : scalar;
  card : Float64.float
}.

(** Lines 104-110: the sentence that is appended, if one is. *)
Definition cash_share (by_method : option (table string)) : option cash_line :=
  match by_method with
  | Some methods =>
      match labels_of methods with
      | [] => None
      | _ :: _ =>
          let cash := cash_of methods in
          let card := card_of methods in
          if truthy cash || Float64.nonzero card
          then Some {| share := share_of cash card; cash := cash; card := card |}
          else None
      end
  | None => None
  end.


(** The rows of every label other than "Cash". *)
Definition not_cash {V} (r : row string V) : bool :=
  negb (String.eqb (label r) "Cash").

(** Integers added up as numbers, and their absolute values. *)
Definition plain_sum (zs : list Z) : Z := fold_right Z.add 0%Z zs.

Definition abs_sum (zs : list Z) : Z :=
  fold_right (fun z acc => (Z.abs z + acc)%Z) 0%Z zs.

(** A number under a format that ends in [f]. *)
Definition fixed (commas : bool) (digits : nat) (x : scalar) : string :=
  match to_float x with
  | SpecFloat.S754_nan => "nan"
  | SpecFloat.S754_infinity false => "inf"
  | SpecFloat.S754_infinity true => "-inf"
  | SpecFloat.S754_zero true => "-" ++ Format.fixed commas digits 0
  | f => Format.fixed commas digits (Float64.exact f)
  end.

(** The f-string of line 110. *)
Definition render_cash_line (l : cash_line) : string :=
  "Cash share: " ++ fixed false 1 (share l) ++ "% (Cash OMR "
  ++ fixed true 2 (cash l) ++ " vs Card OMR "
  ++ fixed true 2 (FloatVal (card l)) ++ ").".

End Machine.

(** Three sales of one barber at fractions of a rial, two in cash and
    one refund by card; and the same three all by card. *)
Module Cents.
Import Examples.


Definition cents_table : DataFrame :=
  table [Some (midnight july1); Some (midnight july1); Some (midnight july1)]
        (SFloat [Some (1 # 10); Some (2 # 10); Some (-3 # 10)])
        ["Sam"; "Sam"; "Sam"] ["Cash"; "Cash"; "Card"].

Definition card_sheet : list record :=
  [ sale (RStr "2025-07-01") (RStr "0.1") (RStr "Sam") (RStr "Card");
    sale (RStr "2025-07-01") (RStr "0.2") (RStr "Sam") (RStr "Card");
    sale (RStr "2025-07-01") (RStr "-0.3") (RStr "Sam") (RStr "Card") ].

Definition card_table : DataFrame :=
  table [Some (midnight july1); Some (midnight july1); Some (midnight july1)]
        (SFloat [Some (1 # 10); Some (2 # 10); Some (-3 # 10)])
        ["Sam"; "Sam"; "Sam"] ["Card"; "Card"; "Card"].

Definition last_place : Float64.float :=
  SpecFloat.S754_finite false 4503599627370496 (-106).

End Cents.
Example strip_ex : PyStr.strip "  Barber Name " = "Barber Name".
Proof. reflexivity. Qed.
Example title_ex : PyStr.title "bARBER name" = "Barber Name".
Proof. reflexivity. Qed.
Example clean_ex : PyStr.strip_non_price "$1,234.50" = "1234.50".
Proof. reflexivity. Qed.
Example parse_ex1 : Numeric.parse "1234.50" = Some (Numeric.NFloat (123450 # 100)).
Proof. reflexivity. Qed.
Example parse_ex2 : Numeric.parse "-5" = Some (Numeric.NInt (-5)).
Proof. reflexivity. Qed.
Example parse_ex3 : Numeric.parse "" = None /\ Numeric.parse "-" = None
                    /\ Numeric.parse "." = None /\ Numeric.parse "1.2.3" = None
                    /\ Numeric.parse "5-" = None.
Proof. repeat split; reflexivity. Qed.
Example str_ex : PyStr.str_of_int (-15) = "-15" /\ PyStr.str_of_int 0 = "0".
Proof. split; vm_compute; reflexivity. Qed.

(* ===================================================================== *)
(** * Properties                                                          *)
(* ===================================================================== *)

(** ** Running a computation that may raise *)

Lemma bind_Ok {A C} (m : result A) (f : A -> result C) (c : C) :
  m ≫= f = Ok c -> exists a, m = Ok a /\ f a = Ok c.
Proof. destruct m as [a|e]; simpl; [eauto | discriminate]. Qed.

Ltac inv_bind H :=
  let a := fresh "x" in
  let Ha := fresh "E" in
  apply bind_Ok in H; destruct H as (a & Ha & H); simpl in H.

Ltac inv_Ok H := injection H as H; try subst.

(** ** Columns of a table *)

Module PandasFacts.
Import Pandas.

Lemma named_iff c p : named c p = true <-> c = fst p.
Proof. unfold named. apply String.eqb_eq. Qed.

Lemma named_false c p : named c p = false <-> c <> fst p.
Proof. unfold named. apply String.eqb_neq. Qed.

Lemma has_column_true c df :
  has_column c df = true <-> exists s, In (c, s) (columns df).
Proof.
  unfold has_column, labels. rewrite existsb_exists. split.
  - intros (l & Hin & Heq). apply String.eqb_eq in Heq. subst l.
    apply in_map_iff in Hin as ([l s] & Hl & Hin). simpl in Hl. subst l. eauto.
  - intros (s & Hin). exists c. split; [| apply String.eqb_refl].
    apply in_map_iff. exists (c, s). auto.
Qed.

Lemma has_column_filter c df :
  has_column c df = false <-> List.filter (named c) (columns df) = [].
Proof.
  unfold has_column, labels. induction (columns df) as [|[l s] cols IH]; simpl.
  - tauto.
  - unfold named at 1. simpl. destruct (String.eqb c l); simpl.
    + split; discriminate.
    + exact IH.
Qed.

Lemma getitem_has_column df c s : getitem df c = Ok s -> has_column c df = true.
Proof.
  unfold getitem. intros H. destruct (has_column c df) eqn:E; [reflexivity|].
  apply has_column_filter in E. rewrite E in H. discriminate.
Qed.

Lemma getitem_In df c s : getitem df c = Ok s -> In (c, s) (columns df).
Proof.
  unfold getitem. intros H.
  destruct (List.filter (named c) (columns df)) as [|[l s0] [|? ?]] eqn:E;
    try discriminate.
  inv_Ok H.
  assert (Hin : In (l, s) (List.filter (named c) (columns df)))
    by (rewrite E; left; reflexivity).
  apply filter_In in Hin as [Hin Hn]. apply named_iff in Hn. simpl in Hn.
  subst l. exact Hin.
Qed.

(** A uniquely labelled column is the only column of its label. *)
Lemma getitem_unique df c s s' :
  getitem df c = Ok s -> In (c, s') (columns df) -> s' = s.
Proof.
  unfold getitem. intros H Hin.
  destruct (List.filter (named c) (columns df)) as [|[l s0] [|? ?]] eqn:E;
    try discriminate.
  inv_Ok H.
  assert (Hf : In (c, s') (List.filter (named c) (columns df))).
  { apply filter_In. split; [exact Hin | apply String.eqb_refl]. }
  rewrite E in Hf. destruct Hf as [Hf | []]. congruence.
Qed.

Lemma filter_named_setitem_same c s cols :
  List.filter (named c) (map (fun p => if named c p then (c, s) else p) cols)
  = map (fun _ => (c, s)) (List.filter (named c) cols).
Proof.
  induction cols as [|p cols IH]; simpl; [reflexivity|].
  destruct (named c p) eqn:E; simpl.
  - unfold named at 1. simpl. rewrite String.eqb_refl. simpl. now rewrite IH.
  - rewrite E. exact IH.
Qed.

Lemma filter_named_setitem_other c c' s cols :
  c <> c' ->
  List.filter (named c) (map (fun p => if named c' p then (c', s) else p) cols)
  = List.filter (named c) cols.
Proof.
  intros Hne. induction cols as [|p cols IH]; simpl; [reflexivity|].
  destruct (named c' p) eqn:E; simpl.
  - apply named_iff in E.
    assert (H1 : named c (c', s) = false) by (apply named_false; exact Hne).
    assert (H2 : named c p = false) by (apply named_false; congruence).
    rewrite H1, H2. exact IH.
  - now rewrite IH.
Qed.

Lemma getitem_setitem_other df c c' s :
  c <> c' -> getitem (setitem df c' s) c = getitem df c.
Proof.
  intros Hne. unfold getitem, setitem.
  destruct (has_column c' df); simpl.
  - now rewrite filter_named_setitem_other.
  - rewrite List.filter_app. simpl.
    assert (H1 : named c (c', s) = false) by (apply named_false; exact Hne).
    rewrite H1. now rewrite app_nil_r.
Qed.

Lemma getitem_setitem_new df c s :
  has_column c df = false -> getitem (setitem df c s) c = Ok s.
Proof.
  intros Hno. unfold getitem, setitem. rewrite Hno. simpl.
  rewrite List.filter_app. apply has_column_filter in Hno. rewrite Hno. simpl.
  unfold named. simpl. now rewrite String.eqb_refl.
Qed.

Lemma getitem_setitem_same df c s0 s :
  getitem df c = Ok s0 -> getitem (setitem df c s) c = Ok s.
Proof.
  intros Hget. unfold setitem. rewrite (getitem_has_column _ _ _ Hget).
  unfold getitem in *. simpl. rewrite filter_named_setitem_same.
  destruct (List.filter (named c) (columns df)) as [|[l s1] [|? ?]];
    try discriminate.
  reflexivity.
Qed.

Lemma index_setitem df c s : index (setitem df c s) = index df.
Proof. unfold setitem. destruct (has_column c df); reflexivity. Qed.

Lemma has_column_setitem_other df c c' s :
  c <> c' -> has_column c (setitem df c' s) = has_column c df.
Proof.
  intros Hne.
  destruct (has_column c df) eqn:E.
  - apply not_false_iff_true. intros H. apply has_column_filter in H.
    apply not_false_iff_true in E. apply E. apply has_column_filter.
    unfold setitem in H. destruct (has_column c' df); simpl in H.
    + now rewrite filter_named_setitem_other in H.
    + rewrite List.filter_app in H. apply app_eq_nil in H. tauto.
  - apply has_column_filter. apply has_column_filter in E.
    unfold setitem. destruct (has_column c' df); simpl.
    + now rewrite filter_named_setitem_other.
    + rewrite List.filter_app, E. simpl.
      assert (H1 : named c (c', s) = false) by (apply named_false; exact Hne).
      now rewrite H1.
Qed.

Lemma has_column_setitem_same df c s : has_column c (setitem df c s) = true.
Proof.
  destruct (has_column c df) eqn:E.
  - apply has_column_true in E as [s0 Hin]. apply has_column_true. exists s.
    unfold setitem.
    assert (E' : has_column c df = true) by (apply has_column_true; eauto).
    rewrite E'. simpl. apply in_map_iff. exists (c, s0). split; [|exact Hin].
    unfold named. simpl. now rewrite String.eqb_refl.
  - apply has_column_true. exists s. unfold setitem. rewrite E. simpl.
    apply in_or_app. right. left. reflexivity.
Qed.

End PandasFacts.

(** ** Boolean masks and [dropna] *)

Module MaskFacts.
Import Pandas PandasFacts Vocabulary.


Lemma mask_le_trans m n k : mask_le m n -> mask_le n k -> mask_le m k.
Proof. unfold mask_le. auto. Qed.

Lemma mask_and_le_l m n : mask_le (mask_and m n) m.
Proof.
  unfold mask_le, mask_and. intros i H.
  apply lookup_zip_with_Some in H as (a & b & Hab & Ha & Hb).
  symmetry in Hab. apply andb_true_iff in Hab as [-> ->]. exact Ha.
Qed.

Lemma mask_and_le_r m n : mask_le (mask_and m n) n.
Proof.
  unfold mask_le, mask_and. intros i H.
  apply lookup_zip_with_Some in H as (a & b & Hab & Ha & Hb).
  symmetry in Hab. apply andb_true_iff in Hab as [-> ->]. exact Hb.
Qed.

Lemma select_all_true m n :
  mask_le m n -> Forall (eq true) (select m n).
Proof.
  revert n. induction m as [|b m IH]; intros n Hle; simpl.
  - constructor.
  - destruct n as [|x n]; [constructor|].
    assert (Hle' : mask_le m n) by (intros i Hi; exact (Hle (S i) Hi)).
    destruct b.
    + constructor; [| apply IH; exact Hle'].
      specialize (Hle 0 eq_refl). simpl in Hle. congruence.
    + apply IH. exact Hle'.
Qed.

Lemma select_map {A C} (f : A -> C) m xs :
  select m (map f xs) = map f (select m xs).
Proof.
  revert xs. induction m as [|b m IH]; intros [|x xs]; simpl; try reflexivity.
  destruct b; simpl; now rewrite IH.
Qed.

Lemma notna_select m s : notna (series_select m s) = select m (notna s).
Proof. destruct s; simpl; now rewrite select_map. Qed.

Lemma columns_loc_mask m df c s' :
  In (c, s') (columns (loc_mask m df)) ->
  exists s, In (c, s) (columns df) /\ s' = series_select m s.
Proof.
  unfold loc_mask. simpl. intros H.
  apply in_map_iff in H as ([l s] & Heq & Hin). simpl in Heq.
  inversion Heq; subst. eauto.
Qed.

Lemma getitem_loc_mask m df c s :
  getitem df c = Ok s -> getitem (loc_mask m df) c = Ok (series_select m s).
Proof.
  unfold getitem, loc_mask. simpl.
  assert (H : forall cols,
    List.filter (named c) (map (fun p => (fst p, series_select m (snd p))) cols)
    = map (fun p => (fst p, series_select m (snd p))) (List.filter (named c) cols)).
  { induction cols as [|p cols IH]; simpl; [reflexivity|].
    change (named c (fst p, series_select m (snd p))) with (named c p).
    destruct (named c p); simpl; now rewrite IH. }
  rewrite H.
  destruct (List.filter (named c) (columns df)) as [|[l s1] [|? ?]];
    simpl; try discriminate.
  intros E. now inv_Ok E.
Qed.

Lemma dropna_mask_le df cs m c s :
  dropna_mask df cs = Ok m -> In c cs -> getitem df c = Ok s ->
  mask_le m (notna s).
Proof.
  revert m. induction cs as [|c0 cs IH]; intros m Hm Hin Hget; [destruct Hin|].
  simpl in Hm. inv_bind Hm. inv_bind Hm. inv_Ok Hm.
  destruct Hin as [-> | Hin].
  - rewrite Hget in E. inv_Ok E. apply mask_and_le_l.
  - eapply mask_le_trans; [apply mask_and_le_r | eauto].
Qed.


Lemma dropna_no_nulls cs df out c :
  dropna cs df = Ok out -> In c cs -> no_nulls out c.
Proof.
  unfold dropna. intros H Hin s' Hs'. inv_bind H. inv_Ok H.
  apply columns_loc_mask in Hs' as (s & Hs & ->).
  rewrite notna_select. apply select_all_true.
  assert (Hget : exists s0, getitem df c = Ok s0).
  { clear -E Hin. revert x E. induction cs as [|c0 cs IH]; [destruct Hin|].
    intros m Hm. simpl in Hm. inv_bind Hm. inv_bind Hm.
    destruct Hin as [-> | Hin]; eauto. }
  destruct Hget as [s0 Hget].
  rewrite (getitem_unique _ _ _ _ Hget Hs).
  eapply dropna_mask_le; eauto.
Qed.

End MaskFacts.

(** ** The steps of [load_sales_dataframe] *)

Module LoadFacts.
Import Pandas PandasFacts MaskFacts Vocabulary.


Lemma same_but_refl c df : same_but c df df.
Proof. split; auto. Qed.

Lemma same_but_trans c df1 df2 df3 :
  same_but c df1 df2 -> same_but c df2 df3 -> same_but c df1 df3.
Proof.
  intros [I1 H1] [I2 H2]. split; [congruence|].
  intros c' Hne. destruct (H1 c' Hne), (H2 c' Hne). split; congruence.
Qed.

Lemma same_but_setitem c df s : same_but c df (setitem df c s).
Proof.
  split; [apply index_setitem|]. intros c' Hne. split.
  - now apply getitem_setitem_other.
  - now apply has_column_setitem_other.
Qed.


Lemma astype_str_texts `{Backend} s : astype_str s = SObject (map OStr (texts s)).
Proof.
  destruct s; simpl; rewrite ?map_map; try reflexivity.
  f_equal. apply map_ext. intros [t|]; reflexivity.
Qed.

Lemma str_map_astype `{Backend} f s :
  str_map f (astype_str s) = Ok (SObject (map (fun t => OStr (f t)) (texts s))).
Proof. rewrite astype_str_texts. simpl. now rewrite map_map. Qed.


Lemma to_datetime_is_datetime `{Backend} s : is_datetime (to_datetime s).
Proof. destruct s; simpl; eexists; reflexivity. Qed.

Lemma numeric_series_is_numeric ns : is_numeric (numeric_series ns).
Proof.
  unfold numeric_series. destruct (mapM as_int ns); [left | right]; eauto.
Qed.

Section Steps.
Context {B : Backend}.

Lemma parse_date_column_Ok df df1 :
  parse_date_column df = Ok df1 ->
  same_but "Date" df df1
  /\ exists s, getitem df1 "Date" = Ok s /\ is_datetime s.
Proof.
  unfold parse_date_column. destruct (has_column "Date" df) eqn:E; intros H.
  - inv_bind H. inv_Ok H. split; [apply same_but_setitem|].
    eexists. split; [eapply getitem_setitem_same; eauto|].
    apply to_datetime_is_datetime.
  - inv_Ok H. split; [apply same_but_setitem|].
    eexists. split; [now apply getitem_setitem_new|].
    eexists; reflexivity.
Qed.


Lemma coerce_price_column_Ok df df2 :
  coerce_price_column df = Ok df2 ->
  same_but "Price" df df2
  /\ exists s, getitem df2 "Price" = Ok s /\ is_numeric s
     /\ (has_column "Price" df = true ->
         exists s0, getitem df "Price" = Ok s0
                    /\ s = to_numeric (SObject (cleaned_prices s0)))
     /\ (has_column "Price" df = false -> s = all_NaN df).
Proof.
  unfold coerce_price_column. destruct (has_column "Price" df) eqn:E; intros H.
  - inv_bind H. rewrite str_map_astype in H. simpl in H.
    erewrite getitem_setitem_same in H by eauto. simpl in H. inv_Ok H.
    split.
    + eapply same_but_trans; apply same_but_setitem.
    + eexists. split; [|split; [|split]].
      * eapply getitem_setitem_same. eapply getitem_setitem_same. eauto.
      * apply numeric_series_is_numeric.
      * intros _. eexists. split; [eassumption | reflexivity].
      * discriminate.
  - inv_Ok H. split; [apply same_but_setitem|].
    eexists. split; [now apply getitem_setitem_new|]. split; [|split].
    + right. eexists; reflexivity.
    + discriminate.
    + reflexivity.
Qed.


Lemma normalize_text_column_Ok df col df' :
  normalize_text_column df col = Ok df' ->
  same_but col df df'
  /\ has_column col df' = has_column col df
  /\ (has_column col df = true ->
      exists s0, getitem df col = Ok s0
                 /\ getitem df' col = Ok (stripped_text s0)).
Proof.
  unfold normalize_text_column. destruct (has_column col df) eqn:E; intros H.
  - inv_bind H. rewrite str_map_astype in H. simpl in H. inv_Ok H.
    split; [apply same_but_setitem|]. split.
    + apply has_column_setitem_same.
    + intros _. eexists. split; [eauto|].
      eapply getitem_setitem_same; eauto.
  - inv_Ok H. split; [apply same_but_refl|]. split; [exact E|].
    discriminate.
Qed.

End Steps.

End LoadFacts.

Module PrepareFacts.
Import Pandas PandasFacts MaskFacts LoadFacts Vocabulary.

Section Prepare.
Context {B : Backend}.

Lemma normalize_text_columns_Ok df df' :
  normalize_text_columns df = Ok df' ->
  index df' = index df
  /\ (forall c, c <> "Barber Name" -> c <> "Payment Method" ->
        getitem df' c = getitem df c)
  /\ (forall col, col = "Barber Name" \/ col = "Payment Method" ->
        has_column col df' = has_column col df
        /\ (has_column col df = true ->
            exists s0, getitem df col = Ok s0
                       /\ getitem df' col = Ok (stripped_text s0))).
Proof.
  unfold normalize_text_columns. intros H. inv_bind H.
  apply normalize_text_column_Ok in E as ([I1 S1] & H1 & G1).
  apply normalize_text_column_Ok in H as ([I2 S2] & H2 & G2).
  assert (Hne : "Barber Name" <> "Payment Method") by discriminate.
  assert (Hne' : "Payment Method" <> "Barber Name") by discriminate.
  split; [congruence|]. split.
  - intros c Hb Hp. destruct (S1 c Hb), (S2 c Hp). congruence.
  - intros col [-> | ->].
    + destruct (S2 _ Hne) as [Hg Hh]. split; [congruence|].
      intros Hc. destruct (G1 Hc) as (s0 & Hs0 & Hs1).
      exists s0. split; [exact Hs0 | congruence].
    + destruct (S1 _ Hne') as [Hg Hh]. split; [congruence|].
      intros Hc. rewrite <- Hh in Hc. destruct (G2 Hc) as (s0 & Hs0 & Hs1).
      exists s0. split; [congruence | exact Hs1].
Qed.

Lemma prepare_Ok df df' :
  prepare df = Ok df' ->
  index df' = index (relabel df)
  /\ (exists d, getitem df' "Date" = Ok d /\ is_datetime d)
  /\ (exists p, getitem df' "Price" = Ok p /\ is_numeric p
        /\ (has_column "Price" (relabel df) = true ->
            exists s0, getitem (relabel df) "Price" = Ok s0
                       /\ p = to_numeric (SObject (cleaned_prices s0)))
        /\ (has_column "Price" (relabel df) = false ->
            exists l : list nat, p = SFloat (map (fun _ => None) l)))
  /\ (forall col, col = "Barber Name" \/ col = "Payment Method" ->
        has_column col df' = has_column col (relabel df)
        /\ (has_column col (relabel df) = true ->
            exists s0, getitem (relabel df) col = Ok s0
                       /\ getitem df' col = Ok (stripped_text s0))).
Proof.
  unfold prepare. intros H. simpl in H.
  inv_bind H. inv_bind H.
  apply parse_date_column_Ok in E as ([I1 S1] & d & Hd & Hdt).
  apply coerce_price_column_Ok in E0 as ([I2 S2] & p & Hp & Hnum & Hsrc & Hnone).
  apply normalize_text_columns_Ok in H as (I3 & S3 & T3).
  split; [congruence|]. split; [|split].
  - exists d. split; [|exact Hdt].
    rewrite S3 by discriminate.
    destruct (S2 "Date") as [-> _]; [discriminate | exact Hd].
  - exists p. destruct (S1 "Price") as [Hg Hh]; [discriminate|].
    split; [|split; [exact Hnum|split]].
    + rewrite S3 by discriminate. exact Hp.
    + intros Hc. rewrite <- Hh in Hc. destruct (Hsrc Hc) as (s0 & Hs0 & ->).
      exists s0. split; [congruence | reflexivity].
    + intros Hc. rewrite <- Hh in Hc. apply Hnone in Hc. eauto.
  - intros col Hcol. destruct (T3 col Hcol) as [Hh Hg].
    assert (Hd' : col <> "Date") by (destruct Hcol; subst; discriminate).
    assert (Hp' : col <> "Price") by (destruct Hcol; subst; discriminate).
    destruct (S1 col Hd') as [G1 H1], (S2 col Hp') as [G2 H2].
    split; [congruence|].
    intros Hc. rewrite <- H1, <- H2 in Hc.
    destruct (Hg Hc) as (s0 & Hs0 & Hs1). exists s0.
    split; [congruence | exact Hs1].
Qed.

Lemma of_records_empty data :
  empty (Frame.of_records data) = true -> columns (Frame.of_records data) = [].
Proof.
  unfold empty. simpl. destruct data as [|r data]; [reflexivity|].
  simpl. destruct (map _ _); [reflexivity | discriminate].
Qed.

End Prepare.
End PrepareFacts.


(** ** Prices *)

Module PriceFacts.
Import Pandas PandasFacts MaskFacts LoadFacts PrepareFacts Vocabulary.

Lemma digits_value_from_nonneg ds acc :
  (0 <= acc)%Z -> Forall (fun d => 0 <= d)%Z ds ->
  (0 <= fold_left (fun a d => 10 * a + d) ds acc)%Z.
Proof.
  revert acc. induction ds as [|d ds IH]; intros acc Hacc Hds; simpl; [exact Hacc|].
  inversion Hds; subst. apply IH; [lia | assumption].
Qed.

Lemma span_digits_nonneg s :
  Forall (fun d => 0 <= d)%Z (fst (Numeric.span_digits s)).
Proof.
  induction s as [|c r IH]; simpl; [constructor|].
  destruct (PyStr.is_digit c); simpl; [|constructor].
  destruct (Numeric.span_digits r) as [ds rest]. simpl in *.
  constructor; [unfold Numeric.digit_value; lia | exact IH].
Qed.

Lemma digits_value_nonneg ds :
  Forall (fun d => 0 <= d)%Z ds -> (0 <= Numeric.digits_value ds)%Z.
Proof. intros H. apply digits_value_from_nonneg; [lia | exact H]. Qed.

Lemma parse_unsigned_nonneg s n :
  Numeric.parse_unsigned false s = Some n -> (0 <= Numeric.num_value n)%Q.
Proof.
  unfold Numeric.parse_unsigned.
  pose proof (span_digits_nonneg s) as Hip.
  destruct (Numeric.span_digits s) as [ip rest]. simpl in Hip.
  destruct rest as [|c rest'].
  - destruct ip as [|d ip]; [discriminate|]. intros H. inv_Ok H. simpl.
    apply digits_value_nonneg in Hip.
    unfold Qle. simpl. lia.
  - destruct (Ascii.eqb c "."); [|discriminate].
    pose proof (span_digits_nonneg rest') as Hfp.
    destruct (Numeric.span_digits rest') as [fp tail]. simpl in Hfp.
    destruct tail; [|discriminate].
    destruct (ip ++ fp)%list as [|d ds] eqn:Hds; [discriminate|].
    intros H. inv_Ok H. simpl.
    assert (Hall : Forall (fun d => 0 <= d)%Z (d :: ds)).
    { rewrite <- Hds. apply Forall_app. split; assumption. }
    apply digits_value_nonneg in Hall.
    unfold Qle. simpl. lia.
Qed.

(** A text without a leading minus sign reads as a nonnegative number. *)
Lemma parse_nonneg t n :
  unsigned t -> Numeric.parse t = Some n -> (0 <= Numeric.num_value n)%Q.
Proof.
  intros Hu. unfold Numeric.parse. destruct t as [|c r]; [discriminate|].
  destruct (Ascii.eqb c "-") eqn:E.
  - apply Ascii.eqb_eq in E. subst c. exfalso. exact (Hu r eq_refl).
  - apply parse_unsigned_nonneg.
Qed.

Lemma mapM_as_int_values ns zs :
  mapM as_int ns = Some zs ->
  map (fun z => Some (inject_Z z)) zs = map (option_map Numeric.num_value) ns.
Proof.
  revert zs. induction ns as [|n ns IH]; intros zs H; simpl in *.
  - now inv_Ok H.
  - destruct n as [[z|q]|]; simpl in H; try discriminate.
    destruct (mapM as_int ns) as [zs'|] eqn:E; simpl in H; [|discriminate].
    inv_Ok H. simpl. f_equal. now apply IH.
Qed.

Lemma numeric_values_numeric_series ns :
  numeric_values (numeric_series ns) = Ok (map (option_map Numeric.num_value) ns).
Proof.
  unfold numeric_series. destruct (mapM as_int ns) as [zs|] eqn:E; simpl.
  - f_equal. now apply mapM_as_int_values.
  - reflexivity.
Qed.

Lemma numeric_values_select m s vals :
  numeric_values s = Ok vals ->
  numeric_values (series_select m s) = Ok (select m vals).
Proof.
  destruct s; simpl; intros H; try discriminate; inv_Ok H.
  - now rewrite select_map.
  - reflexivity.
Qed.

Lemma Forall_select {A} (P : A -> Prop) m xs :
  Forall P xs -> Forall P (select m xs).
Proof.
  revert xs. induction m as [|b m IH]; intros [|x xs] H; simpl; try constructor.
  inversion H; subst. destruct b; [constructor|]; auto.
Qed.

End PriceFacts.

(** ** Stages and the objects they are given *)

Module StoreFacts.

Lemma fresh_unbound (σ : gmap nat DataFrame) : σ !! fresh (dom σ) = None.
Proof. apply not_elem_of_dom. apply is_fresh. Qed.

End StoreFacts.

Section StageClaims.
Context {B : Backend}.
Import Pandas PandasFacts Vocabulary StoreFacts.

(** What [filter_by_period] does to the store: nothing, or two new
    objects, the second holding the filtered table. *)
Lemma filter_by_period_run (σ : gmap nat DataFrame) df mode start_date end_date :
  let run := filter_by_period df mode start_date end_date σ in
  (exists e, run = (Raise e, σ))
  \/ (exists table out,
        σ !! df = Some table
        /\ Period.filtered table start_date end_date = Ok out
        /\ let r1 := fresh (dom σ) in
           let σ1 := <[r1 := out]> σ in
           let r2 := fresh (dom σ1) in
           run = (Ok r2, <[r2 := out]> σ1)).
Proof.
  unfold filter_by_period, mbind, M_bind, deref, lift. simpl.
  destruct (σ !! df) as [table|] eqn:Hdf; [|left; eauto].
  destruct (Period.period_mask table start_date end_date) as [mask|e] eqn:Hm;
    [|left; eauto].
  right. exists table, (loc_mask mask table). simpl.
  split; [reflexivity|].
  split; [unfold Period.filtered; rewrite Hm; reflexivity|].
  unfold alloc. simpl. rewrite lookup_insert_eq. reflexivity.
Qed.

(** What [insights_of] does to the store: nothing, or the [dow] column
    written into the table it was given. *)
Lemma insights_of_run (σ : gmap nat DataFrame) df table summaries :
  σ !! df = Some table ->
  let run := insights_of df summaries σ in
  run.2 = σ
  \/ (empty table = false
      /\ exists ts, getitem table "Date" = Ok (SDatetime ts)
         /\ run.2 = <[df := setitem table "dow" (Insights.day_names ts)]> σ).
Proof.
  intros Hdf. unfold insights_of, mbind, M_bind, deref, lift, assign. simpl.
  rewrite Hdf. destruct (empty table) eqn:He; [left; reflexivity|].
  destruct (getitem table "Date") as [d|e] eqn:Hd; [|left; reflexivity].
  destruct d as [xs|xs|xs|ts]; simpl; try (left; reflexivity).
  right. split; [reflexivity|]. exists ts. split; [reflexivity|].
  rewrite lookup_insert_eq.
  destruct (mean_by_dow _); reflexivity.
Qed.

Lemma ai_insights_store (σ : gmap nat DataFrame) df summaries :
  (ai_insights df summaries σ).2 = (insights_of df summaries σ).2.
Proof.
  unfold ai_insights, mbind, M_bind.
  destruct (insights_of df summaries σ) as [[tips|e] σ']; reflexivity.
Qed.

(** C2, as amended. [filter_by_period] leaves every table of the store
    as it was and returns a reference to a new table. [ai_insights]
    leaves every other table as it was; the table it is given is left
    as it was when it is empty, and otherwise is either left as it was
    or has the day names of its dates written into its [dow] column
    (line 113), every other column and the row labels staying as they
    were. *)
Theorem stages_and_their_input (σ : gmap nat DataFrame) (df : nat)
        (table : DataFrame) :
  σ !! df = Some table ->
  (forall mode start_date end_date,
      let run := filter_by_period df mode start_date end_date σ in
      (forall l, is_Some (σ !! l) -> run.2 !! l = σ !! l)
      /\ (forall r, run.1 = Ok r ->
            σ !! r = None
            /\ exists out, Period.filtered table start_date end_date = Ok out
                           /\ run.2 !! r = Some out))
  /\ (forall summaries,
        let σ' := (ai_insights df summaries σ).2 in
        (forall l, l <> df -> σ' !! l = σ !! l)
        /\ (empty table = true -> σ' = σ)
        /\ (σ' !! df = Some table
            \/ exists names, σ' !! df = Some (setitem table "dow" names)
                             /\ same_but "dow" table (setitem table "dow" names))).
Proof.
  intros Hdf. split.
  - intros mode start_date end_date run.
    destruct (filter_by_period_run σ df mode start_date end_date)
      as [[e He] | (t & out & Ht & Hout & Hrun)]; subst run.
    + rewrite He. simpl. split; [reflexivity | discriminate].
    + simpl in Hrun. rewrite Hrun. simpl. split.
      * intros l Hl.
        assert (H1 : l <> fresh (dom σ)).
        { intros ->. rewrite fresh_unbound in Hl. destruct Hl; discriminate. }
        assert (H2 : l <> fresh (dom (<[fresh (dom σ) := out]> σ))).
        { intros Heq.
          assert (Hb : is_Some ((<[fresh (dom σ) := out]> σ) !! l))
            by (rewrite lookup_insert_ne by auto; exact Hl).
          rewrite Heq, fresh_unbound in Hb. destruct Hb; discriminate. }
        rewrite !lookup_insert_ne by auto. reflexivity.
      * intros r Hr. inv_Ok Hr. split.
        -- pose proof (fresh_unbound (<[fresh (dom σ) := out]> σ)) as Hf.
           apply lookup_insert_None in Hf. tauto.
        -- rewrite Hdf in Ht. inv_Ok Ht. exists out. split; [exact Hout|].
           apply lookup_insert_eq.
  - intros summaries σ'. subst σ'. rewrite ai_insights_store.
    destruct (insights_of_run σ df table summaries Hdf)
      as [Hsame | (Hne & ts & Hd & Hrun)].
    + rewrite Hsame. split; [reflexivity|]. split; [reflexivity|]. now left.
    + rewrite Hrun. split; [|split].
      * intros l Hl. now apply lookup_insert_ne.
      * rewrite Hne. discriminate.
      * right. eexists. split; [apply lookup_insert_eq | apply LoadFacts.same_but_setitem].
Qed.

(** C8. When the table it is given is empty (no rows, or no columns),
    [ai_insights] returns the single sentence "No data in the selected
    range.", whatever the summaries, and nothing else happens. *)
Theorem no_data_sentinel (σ : gmap nat DataFrame) (df : nat) (table : DataFrame)
        (summaries : Summaries) :
  σ !! df = Some table ->
  empty table = true ->
  ai_insights df summaries σ = (Ok ["No data in the selected range."], σ).
Proof.
  intros Hdf He.
  unfold ai_insights, insights_of, mbind, M_bind, deref. simpl.
  rewrite Hdf, He. reflexivity.
Qed.

End StageClaims.

(** ** Sorting *)

Module SortFacts.
Import Sorting.

Lemma take_shift {A} (x : A) rows idx :
  take (map S idx) (x :: rows) = take idx rows.
Proof.
  induction idx as [|i idx IH]; [reflexivity|].
  simpl. destruct (rows !! i); [f_equal|]; exact IH.
Qed.

Lemma take_omap {A} (idx : list nat) (rows : list A) :
  take idx rows = omap (fun i => rows !! i) idx.
Proof.
  induction idx as [|i idx IH]; [reflexivity|].
  simpl. destruct (rows !! i); [f_equal|]; exact IH.
Qed.

Lemma take_seq {A} (rows : list A) :
  take (seq 0 (length rows)) rows = rows.
Proof.
  induction rows as [|x rows IH]; [reflexivity|].
  simpl. rewrite <- seq_shift.
  change (x :: take (map S (seq 0 (length rows))) (x :: rows) = x :: rows).
  now rewrite take_shift, IH.
Qed.

Lemma take_perm {A} (idx : list nat) (rows : list A) :
  Permutation idx (seq 0 (length rows)) -> Permutation (take idx rows) rows.
Proof.
  intros H. rewrite <- (take_seq rows) at 2. rewrite !take_omap.
  now apply omap_Permutation.
Qed.

Lemma take_values {A} (key : A -> Q) (idx : list nat) (rows : list A) :
  Forall (fun i => i < length rows) idx ->
  map key (take idx rows) = map (fun i => nth i (map key rows) 0%Q) idx.
Proof.
  induction idx as [|i idx IH]; intros H; [reflexivity|].
  inversion H as [|? ? Hi Hrest]; subst. simpl.
  destruct (lookup_lt_is_Some_2 rows i Hi) as [x Hx]. rewrite Hx. simpl.
  rewrite IH by assumption. f_equal.
  rewrite (nth_indep _ 0%Q (key x)) by (rewrite length_map; exact Hi).
  rewrite map_nth. f_equal. now apply nth_lookup_Some with (d := x) in Hx.
Qed.

Lemma perm_seq_bound idx n :
  Permutation idx (seq 0 n) -> Forall (fun i => i < n) idx.
Proof.
  intros H. apply List.Forall_forall. intros i Hi.
  eapply Permutation_in in Hi; [|exact H]. apply in_seq in Hi. lia.
Qed.

Lemma strongly_sorted_snoc {A} (R : A -> A -> Prop) l x :
  StronglySorted R l -> Forall (fun y => R y x) l -> StronglySorted R (l ++ [x]).
Proof.
  induction 1 as [|y l Hl IH Hy]; intros Hx; simpl.
  - repeat constructor.
  - inversion Hx; subst. constructor; [now apply IH|].
    apply Forall_app. split; [exact Hy | repeat constructor; assumption].
Qed.

Lemma strongly_sorted_rev {A} (R : A -> A -> Prop) l :
  StronglySorted R l -> StronglySorted (fun a b => R b a) (rev l).
Proof.
  induction 1 as [|y l Hl IH Hy]; simpl; [constructor|].
  apply strongly_sorted_snoc; [exact IH|].
  apply List.Forall_forall. intros z Hz. apply in_rev in Hz.
  rewrite List.Forall_forall in Hy. now apply Hy.
Qed.

Lemma strongly_sorted_map {A C} (f : A -> C) (R : C -> C -> Prop) l :
  StronglySorted R (map f l) -> StronglySorted (fun a b => R (f a) (f b)) l.
Proof.
  induction l as [|x l IH]; intros H; [constructor|].
  simpl in H. inversion H as [|? ? Hl Hx]; subst. constructor; [now apply IH|].
  rewrite Forall_map in Hx. exact Hx.
Qed.

Section WithSpec.
Context {B : Backend} (spec : BackendSpec B).

Lemma nargsort_desc_perm vals :
  Permutation (nargsort_desc vals) (seq 0 (length vals)).
Proof.
  unfold nargsort_desc. rewrite <- Permutation_rev.
  pose proof (argsort_perm B spec (rev vals)) as Hp.
  rewrite length_rev in Hp.
  etransitivity; [apply Permutation_map; exact Hp|].
  set (n := length vals).
  assert (Hrev : map (fun j => n - 1 - j) (seq 0 n) = rev (seq 0 n)).
  { clearbody n. induction n as [|n IH]; [reflexivity|].
    rewrite seq_S at 2. rewrite rev_app_distr. simpl.
    f_equal; [f_equal; lia|].
    rewrite <- seq_shift, map_map. rewrite <- IH.
    apply map_ext. intros j. lia. }
  rewrite Hrev. symmetry. apply Permutation_rev.
Qed.

Lemma sort_values_desc_perm {A} (key : A -> Q) (rows : list A) :
  Permutation (sort_values_desc key rows) rows.
Proof.
  unfold sort_values_desc. apply take_perm.
  rewrite <- (length_map key). apply nargsort_desc_perm.
Qed.

Lemma sort_values_desc_sorted {A} (key : A -> Q) (rows : list A) :
  StronglySorted (fun a b => key b <= key a)%Q (sort_values_desc key rows).
Proof.
  apply strongly_sorted_map with (f := key) (R := fun x y => (y <= x)%Q).
  unfold sort_values_desc.
  set (vals := map key rows).
  assert (Hlen : length vals = length rows) by apply length_map.
  pose proof (nargsort_desc_perm vals) as Hperm.
  rewrite take_values
    by (rewrite <- Hlen; eapply perm_seq_bound; exact Hperm).
  fold vals. unfold nargsort_desc. rewrite map_rev.
  apply strongly_sorted_rev. rewrite map_map.
  pose proof (argsort_perm B spec (rev vals)) as Hp.
  pose proof (argsort_sorted B spec (rev vals)) as Hs.
  apply Sorted_StronglySorted in Hs; [|intros x y z; apply Qle_trans].
  rewrite length_rev in Hp. apply perm_seq_bound in Hp.
  erewrite map_ext_Forall; [exact Hs|].
  eapply Forall_impl; [exact Hp|]. intros j Hj. simpl in Hj.
  rewrite rev_nth by exact Hj. f_equal. lia.
Qed.


End WithSpec.

Lemma sort_values_desc_nil `{Backend} {A} (key : A -> Q) :
  sort_values_desc key [] = [].
Proof.
  unfold sort_values_desc. induction (nargsort_desc _); [reflexivity|].
  simpl. exact IHl.
Qed.

End SortFacts.

(** ** Group-by *)

Module GroupFacts.
Import GroupBy Insights Vocabulary.

Lemma revenue_sum_cons {K} (g : group K) gs :
  revenue_sum (g :: gs) = (gsum g + revenue_sum gs)%Q.
Proof. reflexivity. Qed.

Lemma revenue_sum_perm {K} (a b : list (group K)) :
  Permutation a b -> (revenue_sum a == revenue_sum b)%Q.
Proof.
  induction 1 as [|g a b _ IH|g h a|a b c _ IH1 _ IH2];
    rewrite ?revenue_sum_cons.
  - reflexivity.
  - now rewrite IH.
  - ring.
  - now rewrite IH1.
Qed.

Section Keyed.
Context {K : Type} (cmp : K -> K -> comparison).

Lemma revenue_sum_upsert k v gs :
  (revenue_sum (upsert cmp k v gs) == revenue_sum gs + price_of v)%Q.
Proof.
  induction gs as [|g gs IH]; simpl.
  - unfold revenue_sum. simpl. destruct v; simpl; ring.
  - destruct (cmp k (gkey g)); rewrite ?revenue_sum_cons.
    + destruct v; simpl; ring.
    + destruct v; simpl; ring.
    + rewrite IH. ring.
Qed.

(** When no key is null, the groups share out the whole column. *)
Lemma revenue_sum_agg_from acc names vals :
  length names = length vals ->
  (revenue_sum (agg_from cmp acc (map Some names) vals)
   == revenue_sum acc + Pandas.sum_skipna vals)%Q.
Proof.
  revert acc vals. induction names as [|n names IH]; intros acc [|v vals] Hlen;
    try discriminate; simpl.
  - ring.
  - rewrite IH by (simpl in Hlen; lia).
    rewrite revenue_sum_upsert.
    change (Pandas.sum_skipna (v :: vals)) with
      (fold_right (fun x acc => match x with
                                | Some q => q + acc
                                | None => acc
                                end) 0 (v :: vals))%Q.
    destruct v; simpl; ring.
Qed.

Lemma revenue_sum_agg names vals :
  length names = length vals ->
  (revenue_sum (agg cmp (map Some names) vals) == Pandas.sum_skipna vals)%Q.
Proof.
  intros H. unfold agg. rewrite revenue_sum_agg_from by exact H.
  unfold revenue_sum at 1. simpl. ring.
Qed.

End Keyed.

(** *** Labels stay in ascending order *)

Lemma compare_lt_trans a b c :
  String.compare a b = Lt -> String.compare b c = Lt -> String.compare a c = Lt.
Proof.
  intros H1 H2.
  apply OrderedTypeEx.String_as_OT.cmp_lt. apply OrderedTypeEx.String_as_OT.cmp_lt in H1, H2.
  eapply OrderedTypeEx.String_as_OT.lt_trans; eauto.
Qed.

Lemma compare_gt_lt a b : String.compare a b = Gt -> String.compare b a = Lt.
Proof.
  intros H. rewrite String.compare_antisym, H. reflexivity.
Qed.

Lemma upsert_keys k v gs (P : group string -> Prop) :
  (forall g, gkey g = k -> P g) ->
  (forall g w, P g -> P (add_row w g)) ->
  Forall P gs -> Forall P (upsert String.compare k v gs).
Proof.
  intros Hk Hadd. induction 1 as [|g gs Hg Hgs IH]; simpl.
  - repeat constructor. now apply Hk.
  - destruct (String.compare k (gkey g)).
    + constructor; [now apply Hadd | exact Hgs].
    + constructor; [now apply Hk|]. constructor; assumption.
    + constructor; assumption.
Qed.

Lemma upsert_sorted k v gs :
  StronglySorted label_lt gs ->
  StronglySorted label_lt (upsert String.compare k v gs).
Proof.
  induction 1 as [|g gs Hgs IH Hg]; simpl.
  - repeat constructor.
  - destruct (String.compare k (gkey g)) eqn:E.
    + apply String.compare_eq_iff in E.
      constructor; [exact Hgs|]. exact Hg.
    + constructor; [constructor; assumption|].
      constructor; [exact E|].
      eapply Forall_impl; [exact Hg|]. intros h Hh.
      unfold label_lt in *. simpl. eapply compare_lt_trans; eauto.
    + constructor; [exact IH|].
      apply upsert_keys; [| |exact Hg].
      * intros h Hh. unfold label_lt. rewrite Hh. now apply compare_gt_lt.
      * intros h w Hh. exact Hh.
Qed.

Lemma agg_from_sorted acc keys vals :
  StronglySorted label_lt acc ->
  StronglySorted label_lt (agg_from String.compare acc keys vals).
Proof.
  revert acc vals. induction keys as [|k keys IH]; intros acc [|v vals] H;
    simpl; try exact H.
  apply IH. destruct k; [now apply upsert_sorted | exact H].
Qed.

Lemma agg_sorted keys vals :
  StronglySorted label_lt (agg String.compare keys vals).
Proof. apply agg_from_sorted. constructor. Qed.

End GroupFacts.

(** ** Claims about [compute_summaries] *)

Module SummaryFacts.
Import Pandas PandasFacts Vocabulary.

Lemma text_values_length k keys :
  text_values k = Ok keys -> length keys = series_len k.
Proof.
  destruct k as [xs| | |]; simpl; try discriminate.
  revert keys. induction xs as [|o xs IH]; intros keys H; simpl in H.
  - now inv_Ok H.
  - inv_bind H. inv_bind H. inv_Ok H. simpl. f_equal. now apply IH.
Qed.

Lemma numeric_values_length p vals :
  numeric_values p = Ok vals -> length vals = series_len p.
Proof.
  destruct p; simpl; intros H; try discriminate; inv_Ok H;
    rewrite ?length_map; reflexivity.
Qed.

Lemma well_formed_getitem df c s :
  well_formed df -> getitem df c = Ok s -> series_len s = length (index df).
Proof.
  intros Hwf Hget. apply getitem_In in Hget.
  unfold well_formed in Hwf. rewrite List.Forall_forall in Hwf.
  exact (Hwf _ Hget).
Qed.

Lemma text_values_text ts : text_values (SObject (map OStr ts)) = Ok (map Some ts).
Proof.
  simpl. induction ts as [|t ts IH]; [reflexivity|].
  simpl. rewrite IH. reflexivity.
Qed.

Section WithBackend.
Context {B : Backend}.

Lemma compute_summaries_Ok df s :
  compute_summaries df = Ok s ->
  price_total df = Ok (total_revenue s)
  /\ breakdown df "Barber Name" = Ok (by_barber s)
  /\ breakdown df "Payment Method" = Ok (by_method s)
  /\ revenue_by_day df = Ok (by_day s)
  /\ num_transactions s = len df.
Proof.
  unfold compute_summaries. intros H.
  inv_bind H. inv_bind H. inv_bind H. inv_bind H. inv_Ok H. simpl.
  repeat split; assumption.
Qed.

Lemma breakdown_Some df col t :
  breakdown df col = Ok (Some t) ->
  exists k p keys vals,
    getitem df col = Ok k /\ getitem df "Price" = Ok p
    /\ text_values k = Ok keys /\ numeric_values p = Ok vals
    /\ t = Sorting.sort_values_desc gsum (GroupBy.agg String.compare keys vals).
Proof.
  unfold breakdown, group_by_text.
  destruct (has_column col df); [|discriminate]. intros H.
  inv_bind H. inv_Ok H. inv_bind E. inv_bind E. inv_bind E. inv_bind E.
  inv_Ok E. eauto 10.
Qed.

Lemma breakdown_present df col o :
  breakdown df col = Ok o -> (is_Some o <-> has_column col df = true).
Proof.
  unfold breakdown. destruct (has_column col df); intros H.
  - inv_bind H. inv_Ok H. split; eauto.
  - inv_Ok H. split; [intros [? ?]; discriminate | discriminate].
Qed.

End WithBackend.
End SummaryFacts.

Section SummaryClaims.
Context {B : Backend}.
Import Pandas PandasFacts Vocabulary SummaryFacts SortFacts GroupFacts.

(** C6, as amended. Both breakdowns are in descending order of revenue.
    Ties are not in first-seen order: each breakdown is a rearrangement
    of the grouped table, which [groupby] delivers with one row per
    label in ascending label order, and where revenues are equal the
    place of a row is whatever the default sort of [sort_values] makes
    of that order. *)
Theorem breakdowns_descend_by_revenue (spec : BackendSpec B) (df : DataFrame)
        (s : Summaries) (t : list (group string)) :
  compute_summaries df = Ok s ->
  by_barber s = Some t \/ by_method s = Some t ->
  StronglySorted revenue_ge t
  /\ exists grouped, Permutation t grouped /\ StronglySorted label_lt grouped.
Proof.
  intros Hs Ht.
  apply compute_summaries_Ok in Hs as (_ & Hb & Hm & _).
  assert (Hbr : exists col, breakdown df col = Ok (Some t)).
  { destruct Ht as [Ht | Ht]; rewrite Ht in *; eauto. }
  destruct Hbr as [col Hbr].
  apply breakdown_Some in Hbr as (k & p & keys & vals & _ & _ & _ & _ & ->).
  split.
  - apply (sort_values_desc_sorted spec).
  - eexists. split; [apply (sort_values_desc_perm spec) | apply agg_sorted].
Qed.

(** C5, as amended. A grouped table is left out of the report exactly
    when the table has no column of that label (lines 73 and 78), and
    is emitted otherwise, also when it has no row. For a transaction
    table without rows [compute_summaries] does not raise: the total is
    0, the count is 0, there is no day, and each breakdown is the
    empty table when its column exists and absent when it does not. *)
Theorem breakdowns_follow_the_columns (df : DataFrame) :
  (forall s, compute_summaries df = Ok s ->
     (is_Some (by_barber s) <-> has_column "Barber Name" df = true)
     /\ (is_Some (by_method s) <-> has_column "Payment Method" df = true))
  /\ (transaction_table df -> index df = [] ->
      compute_summaries df
      = Ok {| total_revenue := 0;
              num_transactions := 0;
              by_barber := empty_breakdown df "Barber Name";
              by_method := empty_breakdown df "Payment Method";
              by_day := [] |}).
Proof.
  split.
  - intros s Hs. apply compute_summaries_Ok in Hs as (_ & Hb & Hm & _).
    split; eapply breakdown_present; eauto.
  - intros (Hwf & (d & Hd & [ts ->]) & (p & Hp & Hnum) & Htext) Hidx.
    assert (Hts : ts = []).
    { apply length_zero_iff_nil.
      pose proof (well_formed_getitem _ _ _ Hwf Hd) as H. simpl in H.
      now rewrite H, Hidx. }
    assert (Hvals : numeric_values p = Ok []).
    { pose proof (well_formed_getitem _ _ _ Hwf Hp) as H. rewrite Hidx in H.
      destruct Hnum as [[zs ->] | [qs ->]]; simpl in *;
        apply length_zero_iff_nil in H; subst; reflexivity. }
    assert (Hbreak : forall col, col = "Barber Name" \/ col = "Payment Method" ->
              breakdown df col = Ok (empty_breakdown df col)).
    { intros col Hcol. unfold breakdown, empty_breakdown, group_by_text.
      destruct (has_column col df) eqn:Hc; [|reflexivity].
      destruct (Htext col Hcol Hc) as (k & Hk & [names ->]).
      rewrite Hk. simpl. rewrite Hp. simpl.
      pose proof (well_formed_getitem _ _ _ Hwf Hk) as H. simpl in H.
      rewrite length_map, Hidx in H. apply length_zero_iff_nil in H. subst names.
      simpl. rewrite Hvals. simpl.
      change (GroupBy.agg String.compare [] []) with (@nil (group string)).
      now rewrite sort_values_desc_nil. }
    unfold compute_summaries, price_total, revenue_by_day, empty, len.
    rewrite Hidx. simpl.
    rewrite !Hbreak by auto. simpl. rewrite Hd. simpl. rewrite Hp. simpl.
    rewrite Hvals. simpl. subst ts. reflexivity.
Qed.

End SummaryClaims.

(** ** Claims about [ai_insights] *)

Module InsightFacts.
Import Pandas PandasFacts Vocabulary Insights GroupBy GroupFacts.

Lemma truthy_iff q : truthy q = true <-> ~ (q == 0)%Q.
Proof.
  unfold truthy. rewrite negb_true_iff. split.
  - intros H Hq. apply Qeq_bool_iff in Hq. congruence.
  - intros H. destruct (Qeq_bool q 0) eqn:E; [|reflexivity].
    apply Qeq_bool_iff in E. contradiction.
Qed.

Lemma truthy_false_iff q : truthy q = false <-> (q == 0)%Q.
Proof.
  unfold truthy. rewrite negb_false_iff. apply Qeq_bool_iff.
Qed.

Lemma share_of_spec cash card :
  (~ (cash + card == 0)%Q ->
   (share_of cash card == cash / (cash + card) * 100)%Q)
  /\ ((cash + card == 0)%Q -> share_of cash card = 0%Q).
Proof.
  unfold share_of. split; intros H.
  - apply truthy_iff in H. rewrite H. reflexivity.
  - apply truthy_false_iff in H. rewrite H. reflexivity.
Qed.

(** The insight of lines 104-110 and when it is appended. *)
Lemma cash_share_spec s share cash card :
  cash_share s = [CashShare share cash card]
  <-> exists m, by_method s = Some m /\ m <> []
                /\ cash = cash_of m /\ card = card_of m
                /\ share = share_of cash card
                /\ (~ (cash == 0)%Q \/ ~ (card == 0)%Q).
Proof.
  unfold cash_share. destruct (by_method s) as [[|g rest]|].
  - split; [discriminate | intros (m & Hm & Hne & _); inv_Ok Hm; congruence].
  - set (m := g :: rest).
    destruct (truthy (cash_of m) || truthy (card_of m)) eqn:E.
    + apply orb_true_iff in E. rewrite !truthy_iff in E. split.
      * intros H. inversion H; subst. exists m.
        repeat split; try reflexivity; [discriminate | exact E].
      * intros (m' & Hm & _ & -> & -> & -> & _). inv_Ok Hm. reflexivity.
    + apply orb_false_iff in E. rewrite !truthy_false_iff in E. split.
      * discriminate.
      * intros (m' & Hm & _ & -> & -> & _ & Hnz). inv_Ok Hm. tauto.
  - split; [discriminate | intros (m & Hm & _); discriminate].
Qed.

Lemma cash_share_cases s :
  cash_share s = [] \/ exists share cash card, cash_share s = [CashShare share cash card].
Proof.
  unfold cash_share. destruct (by_method s) as [[|g rest]|]; auto.
  destruct (_ || _); eauto.
Qed.

Lemma cash_of_le_sum m :
  Forall (fun g => 0 <= gsum g)%Q m ->
  (0 <= cash_of m)%Q /\ (cash_of m <= revenue_sum m)%Q.
Proof.
  unfold cash_of. induction 1 as [|g m Hg Hm IH].
  - simpl. split; apply Qle_refl.
  - cbn [List.find]. rewrite revenue_sum_cons.
    assert (Hsum : (0 <= revenue_sum m)%Q).
    { destruct IH as [H0 H1]. eapply Qle_trans; eauto. }
    destruct (String.eqb (gkey g) "Cash").
    + split; [exact Hg|].
      rewrite <- (Qplus_0_r (gsum g)) at 1. apply Qplus_le_r. exact Hsum.
    + destruct IH as [H0 H1]. split; [exact H0|].
      eapply Qle_trans; [exact H1|].
      rewrite <- (Qplus_0_l (revenue_sum m)) at 1. apply Qplus_le_l. exact Hg.
Qed.

(** With no negative revenue, either bucket is nonzero exactly when
    their total is. *)
Lemma buckets_nonneg m :
  Forall (fun g => 0 <= gsum g)%Q m ->
  (~ (cash_of m == 0)%Q \/ ~ (card_of m == 0)%Q)
  <-> ~ (cash_of m + card_of m == 0)%Q.
Proof.
  intros H. destruct (cash_of_le_sum m H) as [H0 H1].
  assert (Hcard : (0 <= card_of m)%Q).
  { unfold card_of. unfold Qminus. rewrite <- (Qplus_opp_r (cash_of m)).
    apply Qplus_le_l. exact H1. }
  split.
  - intros Hnz Hsum.
    assert (Hc : (cash_of m == 0)%Q).
    { apply Qle_antisym; [|exact H0].
      rewrite <- Hsum. rewrite <- (Qplus_0_r (cash_of m)) at 1.
      apply Qplus_le_r. exact Hcard. }
    assert (Hd : (card_of m == 0)%Q).
    { rewrite Hc, Qplus_0_l in Hsum. exact Hsum. }
    tauto.
  - intros Hsum. destruct (Qeq_dec (cash_of m) 0) as [Hc|Hc]; [|now left].
    right. intros Hd. apply Hsum. rewrite Hc, Hd. reflexivity.
Qed.

Lemma sorted_labels_distinct (l : list (group string)) :
  StronglySorted label_lt l -> NoDup (map gkey l).
Proof.
  induction 1 as [|g l Hl IH Hg]; simpl; constructor; [|exact IH].
  rewrite list_elem_of_In. intros Hin. apply in_map_iff in Hin as (h & Hk & Hin).
  rewrite List.Forall_forall in Hg. specialize (Hg h Hin).
  unfold label_lt in Hg. rewrite Hk in Hg.
  pose proof (String.compare_antisym (gkey g) (gkey g)) as Ha.
  rewrite Hg in Ha. discriminate.
Qed.

Lemma no_cash_label (l : list (group string)) :
  ~ In "Cash" (map gkey l) ->
  cash_of l = 0%Q /\ List.filter not_cash l = l.
Proof.
  unfold cash_of. induction l as [|g l IH]; intros Hno; [split; reflexivity|].
  simpl in Hno. cbn [List.find List.filter]. unfold not_cash at 1.
  destruct (String.eqb (gkey g) "Cash") eqn:E.
  - apply String.eqb_eq in E. tauto.
  - destruct IH as [Hc Hf]; [tauto|]. simpl. split; [exact Hc | now rewrite Hf].
Qed.

(** With one row per label, the Card amount is the revenue of every
    label other than "Cash". *)
Lemma card_of_others (m : list (group string)) :
  NoDup (map gkey m) ->
  (card_of m == revenue_sum (List.filter not_cash m))%Q.
Proof.
  unfold card_of. induction m as [|g m IH]; intros Hnd.
  - unfold cash_of, revenue_sum. simpl. ring.
  - simpl in Hnd. apply NoDup_cons in Hnd as [Hg Hnd].
    rewrite list_elem_of_In in Hg.
    cbn [List.filter]. unfold not_cash at 1. unfold cash_of. cbn [List.find].
    rewrite revenue_sum_cons.
    destruct (String.eqb (gkey g) "Cash") eqn:E; cbn [negb].
    + apply String.eqb_eq in E. rewrite E in Hg.
      destruct (no_cash_label m Hg) as [_ Hf]. rewrite Hf. ring.
    + rewrite revenue_sum_cons. fold (cash_of m). rewrite <- (IH Hnd). ring.
Qed.

Lemma compare_refl_eq k : String.compare k k = Eq.
Proof.
  pose proof (String.compare_antisym k k) as H.
  destruct (String.compare k k); simpl in H; congruence.
Qed.



Section WithBackend.
Context {B : Backend}.

Lemma insights_of_Ok (σ : gmap nat DataFrame) df table s tips :
  σ !! df = Some table -> empty table = false ->
  (insights_of df s σ).1 = Ok tips ->
  exists by_dow,
    tips = (top_performer s ++ cash_share s ++ trend by_dow)%list.
Proof.
  intros Hdf He. unfold insights_of, mbind, M_bind, deref, lift, assign.
  simpl. rewrite Hdf, He.
  destruct (getitem table "Date") as [d|e]; simpl; [|discriminate].
  destruct (dt d) as [ts|e]; simpl; [|discriminate].
  rewrite lookup_insert_eq.
  destruct (mean_by_dow _) as [by_dow|e]; simpl; [|discriminate].
  intros H. inv_Ok H. exists by_dow. now rewrite <- app_assoc.
Qed.

Lemma in_insights s by_dow share cash card :
  In (CashShare share cash card)
     (top_performer s ++ cash_share s ++ trend by_dow)%list
  <-> cash_share s = [CashShare share cash card].
Proof.
  rewrite !in_app_iff. split.
  - intros [H | [H | H]].
    + unfold top_performer in H.
      destruct (by_barber s) as [[|? ?]|]; simpl in H;
        try contradiction. destruct H as [H | []]. discriminate.
    + destruct (cash_share_cases s) as [E | (sh & ca & cd & E)];
        rewrite E in *; [destruct H|].
      destruct H as [H | []]. now rewrite H.
    + unfold trend in H. destruct by_dow as [|first rest]; [destruct H|].
      destruct (last (first :: rest)); [|destruct H].
      destruct (positive_mean _); [|destruct H].
      destruct H as [H | []]. discriminate.
  - intros E. right. left. rewrite E. left. reflexivity.
Qed.

End WithBackend.
End InsightFacts.

(** ** Missing names *)

Module MissingFacts.
Import Pandas PandasFacts MaskFacts LoadFacts PrepareFacts Vocabulary.

Lemma getitem_loc_mask_inv m df c s' :
  getitem (loc_mask m df) c = Ok s' ->
  exists s, getitem df c = Ok s /\ s' = series_select m s.
Proof.
  intros H.
  destruct (getitem df c) as [s|e] eqn:E.
  - rewrite (getitem_loc_mask m df c s E) in H. inv_Ok H. eauto.
  - exfalso. pose proof (getitem_In _ _ _ H) as Hin.
    apply columns_loc_mask in Hin as (s & Hin & _).
    assert (Hhas : has_column c df = true) by (apply has_column_true; eauto).
    assert (Hhas' : List.filter (named c) (columns df) <> []).
    { intros Hnil. apply has_column_filter in Hnil. congruence. }
    unfold getitem in E, H. unfold loc_mask in H. simpl in H.
    assert (Hlen : forall cols,
      length (List.filter (named c)
                (map (fun p => (fst p, series_select m (snd p))) cols))
      = length (List.filter (named c) cols)).
    { induction cols as [|p cols IH]; [reflexivity|]. simpl.
      change (named c (fst p, series_select m (snd p))) with (named c p).
      destruct (named c p); simpl; now rewrite IH. }
    specialize (Hlen (columns df)).
    destruct (List.filter (named c) (columns df)) as [|[? ?] [|? ?]];
      try congruence; try discriminate.
    destruct (List.filter (named c) (map _ (columns df))) as [|[? ?] [|? ?]];
      simpl in Hlen; try discriminate.
Qed.

Lemma objects_select m s :
  objects (series_select m s) = select m (objects s).
Proof. destruct s; simpl; rewrite ?select_map; reflexivity. Qed.

Lemma in_zip_select {A C} m (xs : list A) (ys : list C) p :
  In p (zip (select m xs) (select m ys)) -> In p (zip xs ys).
Proof.
  revert xs ys. induction m as [|b m IH]; intros [|x xs] [|y ys];
    try (simpl; tauto).
  - change (select (b :: m) (@nil C)) with (@nil C).
    destruct (select (b :: m) (x :: xs)); simpl; tauto.
  - simpl. destruct b; simpl; intros H.
    + destruct H as [H | H]; [now left | right; now apply IH].
    + right. now apply IH.
Qed.

Lemma in_zip_seq_short {A} (xs : list A) (n i : nat) (x : A) :
  In (i, x) (zip (seq 0 n) xs) -> xs !! i = Some x.
Proof.
  intros H.
  assert (Hgen : forall start, In (i, x) (zip (seq start n) xs) ->
                               start <= i /\ xs !! (i - start) = Some x).
  { clear H. revert xs. induction n as [|n IH]; intros xs start; simpl; [tauto|].
    destruct xs as [|y xs]; simpl; [tauto|].
    intros [H | H].
    - inversion H; subst. split; [lia|]. now rewrite Nat.sub_diag.
    - apply IH in H as [Hle Hx]. split; [lia|].
      replace (i - start) with (S (i - S start)) by lia. exact Hx. }
  apply Hgen in H as [_ H]. now rewrite Nat.sub_0_r in H.
Qed.

Lemma index_relabel df : index (relabel df) = index df.
Proof.
  unfold relabel, drop_timestamp_and_alias.
  repeat match goal with |- context [if ?b then _ else _] => destruct b end;
    reflexivity.
Qed.

(** Where a column of the relabelled table comes from. *)
Lemma relabel_columns df c s :
  In (c, s) (columns (relabel df)) ->
  exists k, In (k, s) (columns df)
            /\ (normalize_label k = c
                \/ (c = "Barber Name" /\ normalize_label k = "Barber")).
Proof.
  unfold relabel, drop_timestamp_and_alias.
  set (df1 := map_labels normalize_label df).
  assert (H1 : forall c s, In (c, s) (columns df1) ->
               exists k, In (k, s) (columns df) /\ normalize_label k = c).
  { intros c' s' Hin. unfold df1, map_labels in Hin. simpl in Hin.
    apply in_map_iff in Hin as ([k s0] & Heq & Hin). simpl in Heq.
    inversion Heq; subst. eauto. }
  set (df2 := if has_column "Timestamp" df1 then drop_column "Timestamp" df1 else df1).
  assert (H2 : forall c s, In (c, s) (columns df2) -> In (c, s) (columns df1)).
  { intros c' s' Hin. unfold df2 in Hin.
    destruct (has_column "Timestamp" df1); [|exact Hin].
    unfold drop_column in Hin. simpl in Hin. now apply filter_In in Hin. }
  destruct (negb (has_column "Barber Name" df2) && has_column "Barber" df2).
  - unfold rename, map_labels. simpl. intros Hin.
    apply in_map_iff in Hin as ([c0 s0] & Heq & Hin). simpl in Heq.
    inversion Heq; subst. apply H2, H1 in Hin as (k & Hk & Hn).
    exists k. split; [exact Hk|].
    destruct (String.eqb c0 "Barber") eqn:E.
    + apply String.eqb_eq in E. subst c0. now right.
    + now left.
  - intros Hin. apply H2, H1 in Hin as (k & Hk & Hn). eauto.
Qed.

Lemma of_records_columns data k s :
  In (k, s) (columns (Frame.of_records data)) ->
  s = Frame.infer (map (Frame.lookup_key k) data).
Proof.
  unfold Frame.of_records. simpl. intros H.
  apply in_map_iff in H as (k' & Heq & _). unfold Frame.column_of in Heq.
  now inversion Heq.
Qed.

Lemma lookup_key_In k r v : Frame.lookup_key k r = Some v -> In (k, v) r.
Proof.
  induction r as [|[k' v'] r IH]; simpl; [discriminate|].
  destruct (String.eqb k k') eqn:E.
  - apply String.eqb_eq in E. subst k'. intros H. inv_Ok H. now left.
  - intros H. right. now apply IH.
Qed.

(** A missing cell reads "nan" once cast to text. *)
Lemma texts_missing `{Backend} (cells : list (option raw)) (i : nat) :
  cells !! i = Some None -> texts (Frame.infer cells) !! i = Some "nan".
Proof.
  intros Hi. unfold Frame.infer.
  destruct (forallb Frame.is_int_cell cells) eqn:Eint.
  - exfalso. rewrite forallb_forall in Eint.
    apply list_elem_of_lookup_2, list_elem_of_In in Hi.
    specialize (Eint _ Hi). discriminate.
  - destruct (forallb Frame.is_number_or_missing cells); simpl;
      rewrite !map_map;
      change (map ?f cells) with (f <$> cells);
      rewrite list_lookup_fmap, Hi; reflexivity.
Qed.

End MissingFacts.

Section MissingClaims.
Context {B : Backend}.
Import Pandas PandasFacts MaskFacts LoadFacts PrepareFacts Vocabulary MissingFacts.

(** In the table [load_sales_dataframe] returns, a cell of a name
    column whose record had no value under that label holds "nan". *)
Lemma missing_cell_reads_nan (data : list record) (df : DataFrame)
      (col : string) (i : nat) (rec : record) (o : obj) :
  load_sales_dataframe data = Ok df ->
  col = "Barber Name" \/ col = "Payment Method" ->
  data !! i = Some rec ->
  lacks rec col ->
  In (i, o) (cells df col) ->
  o = OStr "nan".
Proof.
  intros Hload Hcol Hrec Hlacks Hin.
  unfold load_sales_dataframe in Hload.
  destruct (empty (Frame.of_records data)) eqn:Hempty.
  { inv_Ok Hload. apply of_records_empty in Hempty.
    unfold cells, getitem in Hin. rewrite Hempty in Hin. destruct Hin. }
  unfold clean in Hload. inv_bind Hload.
  apply prepare_Ok in E as (Hidx & _ & _ & Htext).
  unfold dropna in Hload. inv_bind Hload. inv_Ok Hload.
  unfold cells in Hin.
  destruct (getitem (loc_mask x0 x) col) as [s'|] eqn:Hs'; [|destruct Hin].
  apply getitem_loc_mask_inv in Hs' as (s3 & Hs3 & ->).
  rewrite objects_select in Hin. simpl in Hin.
  apply in_zip_select in Hin.
  destruct (Htext col Hcol) as [Hhas Hsrc].
  rewrite (getitem_has_column _ _ _ Hs3) in Hhas. symmetry in Hhas.
  destruct (Hsrc Hhas) as (s0 & Hs0 & Hs3').
  rewrite Hs3 in Hs3'. inv_Ok Hs3'.
  rewrite Hidx, index_relabel in Hin. simpl in Hin.
  apply in_zip_seq_short in Hin.
  change (map ?f ?l) with (f <$> l) in Hin.
  rewrite list_lookup_fmap in Hin.
  destruct (texts s0 !! i) as [t|] eqn:Et; simpl in Hin; [|discriminate].
  inv_Ok Hin.
  apply getitem_In, relabel_columns in Hs0 as (k & Hk & Hnorm).
  apply of_records_columns in Hk. subst s0.
  assert (Hnone : Frame.lookup_key k rec = None).
  { destruct (Frame.lookup_key k rec) as [v|] eqn:Ev; [|reflexivity].
    apply lookup_key_In in Ev. destruct (Hlacks k v Ev) as [H1 H2].
    destruct Hnorm as [Hn | [Hc Hn]]; [contradiction | now apply H2 in Hc]. }
  rewrite (texts_missing (map (Frame.lookup_key k) data) i) in Et.
  - inv_Ok Et. reflexivity.
  - change (map ?f ?l) with (f <$> l).
    rewrite list_lookup_fmap, Hrec. simpl. now rewrite Hnone.
Qed.

End MissingClaims.

(** ** The concrete backend is admissible *)

Module SampleFacts.
Import Sample.

Lemma insert_pos_perm vals i l : Permutation (insert_pos vals i l) (i :: l).
Proof.
  induction l as [|j l IH]; simpl; [reflexivity|].
  destruct (Qle_bool _ _); [|reflexivity].
  rewrite IH. apply perm_swap.
Qed.

Lemma fold_insert_perm vals l acc :
  Permutation (fold_left (fun a i => insert_pos vals i a) l acc) (l ++ acc).
Proof.
  revert acc. induction l as [|i l IH]; intros acc; simpl; [reflexivity|].
  rewrite IH, insert_pos_perm. symmetry. apply Permutation_middle.
Qed.

Lemma insert_pos_hd vals i j l :
  value_le vals j i -> HdRel (value_le vals) j l ->
  HdRel (value_le vals) j (insert_pos vals i l).
Proof.
  intros Hji Hl. destruct l as [|k l]; simpl; [now constructor|].
  destruct (Qle_bool _ _); constructor; [|assumption].
  now inversion Hl.
Qed.

Lemma insert_pos_sorted vals i l :
  Sorted (value_le vals) l -> Sorted (value_le vals) (insert_pos vals i l).
Proof.
  induction 1 as [|j l Hl IH Hj]; simpl; [repeat constructor|].
  destruct (Qle_bool (nth j vals 0%Q) (nth i vals 0%Q)) eqn:E.
  - apply Qle_bool_iff in E. constructor; [exact IH|].
    now apply insert_pos_hd.
  - constructor; [now constructor|]. constructor. unfold value_le.
    destruct (Qlt_le_dec (nth j vals 0%Q) (nth i vals 0%Q)) as [Hlt|Hle];
      [|exact Hle].
    apply Qlt_le_weak, Qle_bool_iff in Hlt. congruence.
Qed.

Lemma fold_insert_sorted vals l acc :
  Sorted (value_le vals) acc ->
  Sorted (value_le vals) (fold_left (fun a i => insert_pos vals i a) l acc).
Proof.
  revert acc. induction l as [|i l IH]; intros acc H; simpl; [exact H|].
  apply IH. now apply insert_pos_sorted.
Qed.

Lemma sorted_values vals l :
  Sorted (value_le vals) l -> Sorted Qle (map (fun i => nth i vals 0%Q) l).
Proof.
  induction 1 as [|j l Hl IH Hj]; simpl; constructor; [exact IH|].
  destruct Hj; simpl; constructor. assumption.
Qed.

(** Insertion sort returns the positions of its argument, in ascending
    order of value. *)
Lemma backend_spec : BackendSpec backend.
Proof.
  constructor; intros l; simpl; unfold insertion_argsort.
  - rewrite fold_insert_perm. now rewrite app_nil_r.
  - apply sorted_values, fold_insert_sorted. constructor.
Qed.

End SampleFacts.

(** ** When [load_sales_dataframe] returns *)

Module TotalFacts.
Import Pandas PandasFacts MaskFacts LoadFacts PrepareFacts Vocabulary.

Lemma single_same_but c c' df df' :
  c <> c' -> same_but c' df df' -> single c df -> single c df'.
Proof.
  intros Hne [_ H] Hs Hhas. destruct (H c Hne) as [Hg Hh].
  rewrite Hh in Hhas. rewrite Hg. now apply Hs.
Qed.

Section WithBackend.
Context {B : Backend}.

Lemma parse_date_column_total df :
  single "Date" df -> exists df', parse_date_column df = Ok df'.
Proof.
  unfold parse_date_column. intros Hs.
  destruct (has_column "Date" df) eqn:E; [|eauto].
  destruct (Hs E) as [s ->]. simpl. eauto.
Qed.

Lemma coerce_price_column_total df :
  single "Price" df -> exists df', coerce_price_column df = Ok df'.
Proof.
  unfold coerce_price_column. intros Hs.
  destruct (has_column "Price" df) eqn:E; [|eauto].
  destruct (Hs E) as [s Hget]. rewrite Hget. simpl.
  rewrite str_map_astype. simpl.
  erewrite getitem_setitem_same by eauto. simpl. eauto.
Qed.

Lemma normalize_text_column_total df col :
  single col df -> exists df', normalize_text_column df col = Ok df'.
Proof.
  unfold normalize_text_column. intros Hs.
  destruct (has_column col df) eqn:E; [|eauto].
  destruct (Hs E) as [s Hget]. rewrite Hget. simpl.
  rewrite str_map_astype. simpl. eauto.
Qed.

(** Lines 30-57 do not raise when none of the four labels the pipeline
    reads is carried by two columns. *)
Lemma prepare_total df :
  (forall c, In c ["Date"; "Price"; "Barber Name"; "Payment Method"] ->
             single c (relabel df)) ->
  exists df', prepare df = Ok df'.
Proof.
  intros Hs. unfold prepare, normalize_text_columns. simpl.
  destruct (parse_date_column_total (relabel df)) as [df1 E1];
    [apply Hs; simpl; auto|].
  rewrite E1. simpl.
  apply parse_date_column_Ok in E1 as [S1 _].
  destruct (coerce_price_column_total df1) as [df2 E2].
  { eapply single_same_but; [|exact S1|apply Hs; simpl; auto]. discriminate. }
  rewrite E2. simpl.
  apply coerce_price_column_Ok in E2 as [S2 _].
  destruct (normalize_text_column_total df2 "Barber Name") as [df3 E3].
  { eapply single_same_but; [|exact S2|]; [discriminate|].
    eapply single_same_but; [|exact S1|apply Hs; simpl; auto]. discriminate. }
  rewrite E3. simpl.
  apply normalize_text_column_Ok in E3 as [S3 _].
  apply normalize_text_column_total.
  eapply single_same_but; [|exact S3|]; [discriminate|].
  eapply single_same_but; [|exact S2|]; [discriminate|].
  eapply single_same_but; [|exact S1|apply Hs; simpl; auto 10]. discriminate.
Qed.

End WithBackend.
End TotalFacts.

(** ** Claims about [load_sales_dataframe] *)

Section LoadClaims.
Context {B : Backend}.
Import Pandas PandasFacts MaskFacts LoadFacts PrepareFacts TotalFacts Vocabulary.

(** C1. Whatever the records, no row of the table [load_sales_dataframe]
    returns has a null date or a null price: once labels, dates, prices
    and text fields are prepared (lines 30-57), the row filter of line 59
    returns a table (it does not raise), and in that table the [Date]
    column, of dtype datetime, holds no NaT and the [Price] column, of a
    numeric dtype, holds no NaN. (The table returned early for a sheet
    without rows has no column at all.) The whole function returns a
    table whenever none of the labels it reads is carried by two columns
    of the sheet. *)
Theorem load_keeps_only_valid_rows (data : list record) :
  (forall df, load_sales_dataframe data = Ok df ->
     no_nulls df "Date" /\ no_nulls df "Price"
     /\ (empty (Frame.of_records data) = false ->
         exists d p, getitem df "Date" = Ok d /\ is_datetime d
                     /\ getitem df "Price" = Ok p /\ is_numeric p))
  /\ (forall prepared, prepare (Frame.of_records data) = Ok prepared ->
        exists df, dropna ["Date"; "Price"] prepared = Ok df)
  /\ ((forall c, In c ["Date"; "Price"; "Barber Name"; "Payment Method"] ->
                 single c (relabel (Frame.of_records data))) ->
      exists df, load_sales_dataframe data = Ok df).
Proof.
  assert (Hdrop : forall prepared, prepare (Frame.of_records data) = Ok prepared ->
                  exists df, dropna ["Date"; "Price"] prepared = Ok df).
  { intros prepared H.
    apply prepare_Ok in H as (_ & (d & Hd & _) & (p & Hp & _) & _).
    unfold dropna. simpl. rewrite Hd, Hp. simpl. eauto. }
  split; [|split; [exact Hdrop|]].
  2:{ intros Hs. unfold load_sales_dataframe, clean.
      destruct (empty (Frame.of_records data)); [eauto|].
      destruct (prepare_total _ Hs) as [prepared Hp]. rewrite Hp. simpl.
      now apply Hdrop. }
  intros df. unfold load_sales_dataframe.
  destruct (empty (Frame.of_records data)) eqn:Hempty; intros H.
  - inv_Ok H. apply of_records_empty in Hempty.
    repeat split; try discriminate;
      intros s Hin; rewrite Hempty in Hin; destruct Hin.
  - unfold clean in H. inv_bind H.
    split; [eapply dropna_no_nulls; eauto; simpl; auto|].
    split; [eapply dropna_no_nulls; eauto; simpl; auto|].
    intros _. apply prepare_Ok in E as (_ & (d & Hd & Hdt) & (p & Hp & Hnum & _) & _).
    unfold dropna in H. inv_bind H. inv_Ok H.
    exists (series_select x0 d), (series_select x0 p).
    split; [now apply getitem_loc_mask|]. split.
    { destruct Hdt as [ts ->]. eexists; reflexivity. }
    split; [now apply getitem_loc_mask|].
    destruct Hnum as [[zs ->] | [qs ->]]; [left | right]; eexists; reflexivity.
Qed.

End LoadClaims.

Section PriceClaims.
Context {B : Backend}.
Import Pandas PandasFacts MaskFacts LoadFacts PrepareFacts PriceFacts
       MissingFacts Vocabulary.

(** C3, as amended. The cleaning of line 48 keeps the minus sign, so a
    price can be negative. What holds of every sheet: a row of the table
    [load_sales_dataframe] returns has a price greater than or equal to
    zero whenever the cleaned price text of its record does not start
    with a minus sign. (The row is named by its label, which is the
    position of its record in the sheet.) *)
Theorem unsigned_prices_are_nonnegative (data : list record) (df : DataFrame)
        (vals : list (option Q)) (i : nat) (v : option Q) :
  load_sales_dataframe data = Ok df ->
  prices_are df vals ->
  In (i, v) (zip (index df) vals) ->
  (forall t, price_texts data !! i = Some t -> unsigned t) ->
  nonnegative v.
Proof.
  unfold load_sales_dataframe.
  destruct (empty (Frame.of_records data)) eqn:Hempty;
    intros H (p & Hp & Hv) Hin Hu.
  { inv_Ok H. apply of_records_empty in Hempty. unfold getitem in Hp.
    rewrite Hempty in Hp. discriminate. }
  unfold clean in H. inv_bind H.
  apply prepare_Ok in E as (Hidx & _ & (p0 & Hp0 & _ & Hsrc & Hnone) & _).
  unfold dropna in H. inv_bind H. inv_Ok H.
  erewrite getitem_loc_mask in Hp by eauto. inv_Ok Hp.
  destruct (numeric_values p0) as [vals0|] eqn:Ev;
    [|destruct p0; simpl in *; discriminate].
  erewrite numeric_values_select in Hv by eauto. inv_Ok Hv.
  simpl in Hin. apply in_zip_select in Hin.
  rewrite Hidx, index_relabel in Hin. simpl in Hin.
  apply in_zip_seq_short in Hin.
  destruct (has_column "Price" (relabel (Frame.of_records data))) eqn:Hc.
  - destruct (Hsrc eq_refl) as (s0 & Hs0 & ->).
    simpl in Ev. rewrite numeric_values_numeric_series in Ev. inv_Ok Ev.
    unfold cleaned_prices in Hin. rewrite !map_map in Hin.
    change (map ?f ?l) with (f <$> l) in Hin.
    rewrite list_lookup_fmap in Hin.
    destruct (texts s0 !! i) as [t|] eqn:Et; simpl in Hin; [|discriminate].
    inv_Ok Hin.
    assert (Ht : unsigned (PyStr.strip_non_price t)).
    { apply Hu. unfold price_texts. rewrite Hs0.
      change (map ?f ?l) with (f <$> l).
      now rewrite list_lookup_fmap, Et. }
    intros q Hq.
    destruct (Numeric.parse (PyStr.strip_non_price t)) as [n|] eqn:En;
      simpl in Hq; [|discriminate].
    inv_Ok Hq. eapply parse_nonneg; [exact Ht | exact En].
  - destruct (Hnone eq_refl) as (l & ->). simpl in Ev. inv_Ok Ev.
    change (map ?f ?l) with (f <$> l) in Hin.
    rewrite list_lookup_fmap in Hin.
    destruct (l !! i); simpl in Hin; [|discriminate].
    inv_Ok Hin. intros q Hq. discriminate.
Qed.

End PriceClaims.

(** ** The tables the pipeline hands on *)

Module TableFacts.
Import Pandas PandasFacts MaskFacts LoadFacts PrepareFacts MissingFacts Vocabulary.

Lemma length_select {A C} m (xs : list A) (ys : list C) :
  length xs = length ys -> length (select m xs) = length (select m ys).
Proof.
  revert xs ys. induction m as [|b m IH]; intros [|x xs] [|y ys] H;
    simpl in *; try reflexivity; try discriminate.
  destruct b; simpl; [f_equal|]; apply IH; lia.
Qed.

Lemma series_len_select {A} m s (idx : list A) :
  series_len s = length idx ->
  series_len (series_select m s) = length (select m idx).
Proof. destruct s; simpl; apply length_select. Qed.

Lemma well_formed_loc_mask m df : well_formed df -> well_formed (loc_mask m df).
Proof.
  unfold well_formed, loc_mask. simpl. intros H.
  apply Forall_map. eapply Forall_impl; [exact H|].
  intros [c s] Hs. simpl in *. now apply series_len_select.
Qed.

Lemma well_formed_setitem df c s :
  well_formed df -> series_len s = length (index df) ->
  well_formed (setitem df c s).
Proof.
  unfold well_formed, setitem. intros H Hs.
  destruct (has_column c df); simpl.
  - apply Forall_map. eapply Forall_impl; [exact H|].
    intros p Hp. destruct (named c p); [exact Hs | exact Hp].
  - apply Forall_app. split; [exact H | repeat constructor; exact Hs].
Qed.

Lemma well_formed_map_labels f df :
  well_formed df -> well_formed (map_labels f df).
Proof.
  unfold well_formed, map_labels. simpl. intros H.
  apply Forall_map. exact H.
Qed.

Lemma well_formed_drop_column c df :
  well_formed df -> well_formed (drop_column c df).
Proof.
  unfold well_formed, drop_column. simpl. intros H.
  rewrite List.Forall_forall in *. intros p Hp.
  apply filter_In in Hp as [Hp _]. now apply H.
Qed.

Lemma well_formed_relabel `{Backend} df : well_formed df -> well_formed (relabel df).
Proof.
  intros H0. unfold relabel, drop_timestamp_and_alias.
  pose proof (well_formed_map_labels normalize_label df H0) as H1.
  set (df1 := map_labels normalize_label df) in *.
  assert (H2 : well_formed (if has_column "Timestamp" df1
                            then drop_column "Timestamp" df1 else df1)).
  { destruct (has_column "Timestamp" df1);
      [now apply well_formed_drop_column | exact H1]. }
  destruct (_ && _); [now apply well_formed_map_labels | exact H2].
Qed.

Lemma series_len_infer cells : series_len (Frame.infer cells) = length cells.
Proof.
  unfold Frame.infer.
  destruct (forallb _ _); [|destruct (forallb _ _)]; simpl;
    apply length_map.
Qed.

Lemma well_formed_of_records data : well_formed (Frame.of_records data).
Proof.
  unfold well_formed, Frame.of_records. simpl.
  apply Forall_map. apply List.Forall_forall. intros k _. simpl.
  rewrite series_len_infer, length_map, length_seq. reflexivity.
Qed.

Lemma mapM_as_int_length ns zs : mapM as_int ns = Some zs -> length zs = length ns.
Proof.
  revert zs. induction ns as [|n ns IH]; intros zs H; simpl in H.
  - now inv_Ok H.
  - destruct (as_int n); simpl in H; [|discriminate].
    destruct (mapM as_int ns); simpl in H; [|discriminate].
    inv_Ok H. simpl. f_equal. now apply IH.
Qed.

Lemma series_len_numeric_series ns : series_len (numeric_series ns) = length ns.
Proof.
  unfold numeric_series. destruct (mapM as_int ns) as [zs|] eqn:E; simpl.
  - now apply mapM_as_int_length.
  - apply length_map.
Qed.

Section WithBackend.
Context {B : Backend}.

Lemma length_texts s : length (texts s) = series_len s.
Proof. destruct s; simpl; rewrite ?length_map; reflexivity. Qed.

Lemma series_len_to_datetime s : series_len (to_datetime s) = series_len s.
Proof. destruct s; simpl; rewrite ?length_map; reflexivity. Qed.

Lemma well_formed_parse_date_column df df' :
  parse_date_column df = Ok df' -> well_formed df -> well_formed df'.
Proof.
  unfold parse_date_column. intros H Hwf.
  destruct (has_column "Date" df).
  - inv_bind H. inv_Ok H. apply well_formed_setitem; [exact Hwf|].
    rewrite series_len_to_datetime.
    eapply SummaryFacts.well_formed_getitem; eauto.
  - inv_Ok H. apply well_formed_setitem; [exact Hwf|].
    simpl. apply length_map.
Qed.

Lemma well_formed_coerce_price_column df df' :
  coerce_price_column df = Ok df' -> well_formed df -> well_formed df'.
Proof.
  unfold coerce_price_column. intros H Hwf.
  destruct (has_column "Price" df).
  - inv_bind H. rewrite str_map_astype in H. simpl in H.
    erewrite getitem_setitem_same in H by eauto. simpl in H. inv_Ok H.
    pose proof (SummaryFacts.well_formed_getitem _ _ _ Hwf E) as Hlen.
    apply well_formed_setitem.
    + apply well_formed_setitem; [exact Hwf|].
      simpl. now rewrite length_map, length_texts.
    + rewrite index_setitem, series_len_numeric_series.
      now rewrite !length_map, length_texts.
  - inv_Ok H. apply well_formed_setitem; [exact Hwf|].
    simpl. apply length_map.
Qed.

Lemma well_formed_normalize_text_column df col df' :
  normalize_text_column df col = Ok df' -> well_formed df -> well_formed df'.
Proof.
  unfold normalize_text_column. intros H Hwf.
  destruct (has_column col df).
  - inv_bind H. rewrite str_map_astype in H. simpl in H. inv_Ok H.
    apply well_formed_setitem; [exact Hwf|].
    simpl. rewrite length_map, length_texts.
    eapply SummaryFacts.well_formed_getitem; eauto.
  - now inv_Ok H.
Qed.

Lemma well_formed_prepare df df' :
  prepare df = Ok df' -> well_formed df -> well_formed df'.
Proof.
  unfold prepare, normalize_text_columns. intros H Hwf. simpl in H.
  inv_bind H. inv_bind H. inv_bind H.
  eapply well_formed_normalize_text_column; [eassumption|].
  eapply well_formed_normalize_text_column; [eassumption|].
  eapply well_formed_coerce_price_column; [eassumption|].
  eapply well_formed_parse_date_column; [eassumption|].
  now apply well_formed_relabel.
Qed.

Lemma stripped_text_is_text s : is_text (stripped_text s).
Proof.
  unfold stripped_text. exists (map PyStr.strip (texts s)).
  now rewrite map_map.
Qed.

(** What lines 30-57 leave is a transaction table. *)
Lemma prepare_transaction_table df df' :
  prepare df = Ok df' -> well_formed df -> transaction_table df'.
Proof.
  intros H Hwf. split; [eapply well_formed_prepare; eauto|].
  apply prepare_Ok in H as (_ & Hd & (p & Hp & Hnum & _) & Htext).
  split; [exact Hd|]. split; [eauto|].
  intros col Hcol Hhas. destruct (Htext col Hcol) as [Hh Hsrc].
  rewrite Hh in Hhas. destruct (Hsrc Hhas) as (s0 & _ & Hs).
  eexists. split; [exact Hs | apply stripped_text_is_text].
Qed.

End WithBackend.

Lemma has_column_loc_mask m df c :
  has_column c (loc_mask m df) = has_column c df.
Proof.
  unfold has_column, labels, loc_mask. simpl. rewrite map_map. reflexivity.
Qed.

(** Dropping rows keeps a transaction table one. *)
Lemma loc_mask_transaction_table m df :
  transaction_table df -> transaction_table (loc_mask m df).
Proof.
  intros (Hwf & (d & Hd & [ts ->]) & (p & Hp & Hnum) & Htext).
  split; [now apply well_formed_loc_mask|]. split; [|split].
  - eexists. split; [apply getitem_loc_mask; exact Hd|]. eexists; reflexivity.
  - eexists. split; [apply getitem_loc_mask; exact Hp|].
    destruct Hnum as [[zs ->] | [qs ->]]; [left | right]; eexists; reflexivity.
  - intros col Hcol Hhas. rewrite has_column_loc_mask in Hhas.
    destruct (Htext col Hcol Hhas) as (k & Hk & [names ->]).
    eexists. split; [apply getitem_loc_mask; exact Hk|].
    exists (select m names). simpl. now rewrite select_map.
Qed.

Section Pipeline.
Context {B : Backend}.

(** The table [load_sales_dataframe] returns for a sheet with rows and
    columns is a transaction table. *)
Lemma load_transaction_table data df :
  load_sales_dataframe data = Ok df ->
  empty (Frame.of_records data) = false ->
  transaction_table df.
Proof.
  unfold load_sales_dataframe, clean. intros H He. rewrite He in H.
  inv_bind H. unfold dropna in H. inv_bind H. inv_Ok H.
  apply loc_mask_transaction_table.
  eapply prepare_transaction_table; [eassumption|].
  apply well_formed_of_records.
Qed.

(** So is the table [filter_by_period] builds from one. *)
Lemma filtered_transaction_table df start_date end_date out :
  Period.filtered df start_date end_date = Ok out ->
  transaction_table df -> transaction_table out.
Proof.
  unfold Period.filtered. intros H Ht. inv_bind H. inv_Ok H.
  now apply loc_mask_transaction_table.
Qed.

(** [compute_summaries] does not raise on a transaction table. *)
Lemma compute_summaries_total df :
  transaction_table df -> exists s, compute_summaries df = Ok s.
Proof.
  intros (Hwf & (d & Hd & [ts ->]) & (p & Hp & Hnum) & Htext).
  assert (Hvals : exists vals, numeric_values p = Ok vals).
  { destruct Hnum as [[zs ->] | [qs ->]]; simpl; eauto. }
  destruct Hvals as [vals Hvals].
  assert (Hbreak : forall col, col = "Barber Name" \/ col = "Payment Method" ->
            exists o, breakdown df col = Ok o).
  { intros col Hcol. unfold breakdown, group_by_text.
    destruct (has_column col df) eqn:Hc; [|eauto].
    destruct (Htext col Hcol Hc) as (k & Hk & [names ->]).
    rewrite Hk. cbn [mbind result_bind]. rewrite Hp. cbn [mbind result_bind].
    rewrite (SummaryFacts.text_values_text names). cbn [mbind result_bind].
    rewrite Hvals. cbn [mbind result_bind]. eauto. }
  destruct (Hbreak "Barber Name") as [barber Hbarber]; [auto|].
  destruct (Hbreak "Payment Method") as [method Hmethod]; [auto|].
  unfold compute_summaries, price_total, revenue_by_day.
  rewrite Hbarber, Hmethod, Hd, Hp. simpl. rewrite Hvals. simpl.
  destruct (empty df); simpl; eauto.
Qed.

(** The names of a transaction table are text: the hypothesis of the
    claims about the breakdowns holds of it. *)
Lemma transaction_table_names df col :
  transaction_table df ->
  col = "Barber Name" \/ col = "Payment Method" ->
  has_column col df = true ->
  exists names, names_are df col names.
Proof.
  intros (_ & _ & _ & Htext) Hcol Hhas.
  destruct (Htext col Hcol Hhas) as (k & Hk & [names ->]).
  exists names, (SObject (map OStr names)).
  split; [exact Hk | apply SummaryFacts.text_values_text].
Qed.

End Pipeline.
End TableFacts.

(** ** The period filter *)

Module PeriodFacts.
Import Pandas PandasFacts Vocabulary Period.

Lemma zip_with_maps {A} (f g : A -> bool) (xs : list A) :
  zip_with andb (map f xs) (map g xs) = map (fun x => f x && g x) xs.
Proof. induction xs as [|x xs IH]; simpl; [reflexivity | now rewrite IH]. Qed.

(** The mask of line 64: the rows whose time stamp lies between the two
    bounds, both taken as time stamps. *)
Lemma period_mask_spec df start_date end_date mask :
  period_mask df start_date end_date = Ok mask ->
  exists ts, getitem df "Date" = Ok (SDatetime ts)
             /\ mask = map (in_window (to_timestamp start_date)
                                      (to_timestamp end_date)) ts.
Proof.
  unfold period_mask. intros H.
  destruct (getitem df "Date") as [s|e] eqn:Hs; simpl in H; [|discriminate].
  destruct s as [xs|xs|xs|ts]; simpl in H; try discriminate.
  inv_Ok H. exists ts. split; [reflexivity|].
  unfold mask_and, ge_mask, le_mask. rewrite zip_with_maps.
  apply map_ext. intros [t|]; reflexivity.
Qed.

Lemma NS_PER_DAY_pos : (0 < NS_PER_DAY)%Z.
Proof. reflexivity. Qed.

Lemma midnight_leb a d : (midnight a <=? midnight d)%Z = (a <=? d)%Z.
Proof.
  unfold midnight. pose proof NS_PER_DAY_pos as Hpos.
  destruct (a <=? d)%Z eqn:E.
  - apply Z.leb_le. apply Z.leb_le in E. now apply Z.mul_le_mono_nonneg_r; [lia|].
  - apply Z.leb_gt. apply Z.leb_gt in E. now apply Z.mul_lt_mono_pos_r.
Qed.

(** On time stamps without a time of day, the test of line 64 is the
    comparison of the dates. *)
Lemma in_window_date_only first last x :
  date_only x ->
  in_window (midnight first) (midnight last) x = on_dates first last x.
Proof.
  destruct x as [t|]; [|reflexivity]. intros H. specialize (H t eq_refl).
  simpl. rewrite H at 1 2. now rewrite !midnight_leb.
Qed.

(** A time stamp of the last day passes the test of line 64 only at
    midnight. *)
Lemma last_day_only_at_midnight first last t :
  date_of t = last ->
  in_window (midnight first) (midnight last) (Some t) = true ->
  t = midnight last.
Proof.
  intros Hd H. simpl in H. apply andb_true_iff in H as [_ H].
  apply Z.leb_le in H. unfold midnight, date_of in *.
  pose proof (Z.mul_div_le t NS_PER_DAY NS_PER_DAY_pos) as Hle.
  rewrite Hd in Hle. lia.
Qed.

(** A table whose dates carry no time of day is filtered by date. *)
Lemma date_only_table_is_filtered_by_date df first last ts :
  getitem df "Date" = Ok (SDatetime ts) ->
  Forall date_only ts ->
  filtered df (OnDate first) (OnDate last)
  = Ok (loc_mask (map (on_dates first last) ts) df).
Proof.
  intros Hd Hall. unfold filtered.
  destruct (period_mask df (OnDate first) (OnDate last)) as [mask|e] eqn:Hm.
  - apply period_mask_spec in Hm as (ts' & Hd' & ->).
    rewrite Hd in Hd'. inv_Ok Hd'. simpl. do 2 f_equal.
    apply map_ext_Forall. eapply Forall_impl; [exact Hall|].
    intros x Hx. now apply in_window_date_only.
  - unfold period_mask in Hm. rewrite Hd in Hm. simpl in Hm. discriminate.
Qed.

End PeriodFacts.

(** ** The pipeline on the sample sheets *)

Section Worked.
#[local] Existing Instance Sample.backend.
Import Pandas Vocabulary Examples.

Lemma plain_sheet_loads : load_sales_dataframe plain_sheet = Ok plain_table.
Proof. vm_compute. reflexivity. Qed.

Lemma plain_table_summaries : compute_summaries plain_table = Ok plain_summaries.
Proof. vm_compute. reflexivity. Qed.

Lemma refund_sheet_loads : load_sales_dataframe refund_sheet = Ok refund_table.
Proof. vm_compute. reflexivity. Qed.

Lemma offset_sheet_loads : load_sales_dataframe offset_sheet = Ok offset_table.
Proof. vm_compute. reflexivity. Qed.

Lemma offset_table_summaries :
  compute_summaries offset_table = Ok offset_summaries.
Proof. vm_compute. reflexivity. Qed.

Lemma tie_sheet_loads : load_sales_dataframe tie_sheet = Ok tie_table.
Proof. vm_compute. reflexivity. Qed.

Lemma tie_table_summaries : compute_summaries tie_table = Ok tie_summaries.
Proof. vm_compute. reflexivity. Qed.

Lemma gap_sheet_loads : load_sales_dataframe gap_sheet = Ok gap_table.
Proof. vm_compute. reflexivity. Qed.

Lemma gap_table_summaries : compute_summaries gap_table = Ok gap_summaries.
Proof. vm_compute. reflexivity. Qed.

Lemma afternoon_sheet_loads :
  load_sales_dataframe afternoon_sheet = Ok afternoon_table.
Proof. vm_compute. reflexivity. Qed.

(** The scenario of the two sales: 40% of 25.00 were paid in cash. *)
Lemma plain_table_insights :
  (ai_insights 0 plain_summaries {[0 := plain_table]}).1
  = Ok ["Top performer: Sam with OMR 25.00 across 2 cuts.";
        "Cash share: 40.0% (Cash OMR 10.00 vs Card OMR 15.00).";
        "Tuesdays are 0% slower than Tuesdays on average."].
Proof. vm_compute. reflexivity. Qed.

(** The table of the session is not the one [ai_insights] writes to:
    [filter_by_period] hands on a copy. *)
Lemma dashboard_keeps_the_session_table :
  (dashboard 0 "Daily" (OnDate july1) (OnDate july1) {[0 := plain_table]}).1
  = Ok (Some (plain_summaries,
              ["Top performer: Sam with OMR 25.00 across 2 cuts.";
               "Cash share: 40.0% (Cash OMR 10.00 vs Card OMR 15.00).";
               "Tuesdays are 0% slower than Tuesdays on average."]))
  /\ (dashboard 0 "Daily" (OnDate july1) (OnDate july1) {[0 := plain_table]}).2
     = {[0 := plain_table; 1 := plain_table; 2 := plain_table_after]}.
Proof. split; vm_compute; reflexivity. Qed.

(** Two labels of a sheet that normalise to "Date": line 41 raises. *)
Lemma twice_dated_sheet_raises :
  load_sales_dataframe
    [ [("Date", RStr "2025-07-01"); ("date ", RStr "2025-07-02");
       ("Price", RInt 10)] ]
  = Raise (NotASeries "Date").
Proof. vm_compute. reflexivity. Qed.

Lemma format_currency_example : format_currency (12345 # 10) = "OMR 1,234.50".
Proof. vm_compute. reflexivity. Qed.

End Worked.

(** ** The claims on the sample sheets *)

Section Instances.
#[local] Existing Instance Sample.backend.
Import Pandas Vocabulary Examples Insights.

(** C1 on the sheet of the two sales. *)
Lemma load_keeps_only_valid_rows_witness :
  load_sales_dataframe plain_sheet = Ok plain_table
  /\ no_nulls plain_table "Date" /\ no_nulls plain_table "Price".
Proof.
  assert (H : load_sales_dataframe plain_sheet = Ok plain_table)
    by (vm_compute; reflexivity).
  split; [exact H|].
  destruct (load_keeps_only_valid_rows plain_sheet) as (Hrows & _ & Hreturns).
  destruct Hreturns as [df _].
  { intros c Hc _. simpl in Hc.
    destruct Hc as [<- | [<- | [<- | [<- | []]]]]; eexists;
      vm_compute; reflexivity. }
  destruct (Hrows _ H) as (Hd & Hp & _). split; assumption.
Defined.

(** C2 as stated fails: run on the table of the two sales, [ai_insights]
    leaves that table with a [dow] column it did not have. *)
Lemma ai_insights_writes_dow_column :
  (ai_insights 0 plain_summaries {[0 := plain_table]}).2 !! 0
  = Some plain_table_after
  /\ plain_table_after <> plain_table.
Proof.
  split; [vm_compute; reflexivity|].
  intros H. apply (f_equal (fun df => length (columns df))) in H.
  vm_compute in H. discriminate.
Qed.

(** C2, as amended, on the table of the two sales. *)
Lemma stages_and_their_input_witness :
  ({[0 := plain_table]} : gmap nat DataFrame) !! 0 = Some plain_table
  /\ (filter_by_period 0 "Daily" (OnDate july1) (OnDate july1)
                       {[0 := plain_table]}).2 !! 0
     = Some plain_table
  /\ (ai_insights 0 plain_summaries {[0 := plain_table]}).2 !! 1 = None.
Proof.
  assert (H : ({[0 := plain_table]} : gmap nat DataFrame) !! 0 = Some plain_table)
    by (vm_compute; reflexivity).
  split; [exact H|].
  destruct (stages_and_their_input {[0 := plain_table]} 0 plain_table H)
    as [Hfilter Hinsights].
  split.
  - destruct (Hfilter "Daily" (OnDate july1) (OnDate july1)) as [Hkeep _].
    rewrite Hkeep; [exact H | eexists; exact H].
  - destruct (Hinsights plain_summaries) as [Hothers _].
    rewrite Hothers; [vm_compute; reflexivity | discriminate].
Defined.

(** C3 as stated fails: the refund of [refund_sheet], its second record,
    survives the cleaning with the price -5. *)
Lemma refund_price_is_negative :
  load_sales_dataframe refund_sheet = Ok refund_table
  /\ prices_are refund_table [Some (1000 # 100); Some (-5 # 1)]
  /\ In (1, Some (-5 # 1))
        (zip (index refund_table) [Some (1000 # 100); Some (-5 # 1)])
  /\ ~ nonnegative (Some (-5 # 1)).
Proof.
  split; [vm_compute; reflexivity|]. split; [|split].
  - eexists. split; vm_compute; reflexivity.
  - right. left. reflexivity.
  - intros H. specialize (H _ eq_refl). vm_compute in H. now apply H.
Qed.

(** C3, as amended, on the first row of the sheet of the two sales. *)
Lemma unsigned_prices_are_nonnegative_witness :
  load_sales_dataframe plain_sheet = Ok plain_table
  /\ prices_are plain_table [Some (1000 # 100); Some (15 # 1)]
  /\ In (0, Some (1000 # 100))
        (zip (index plain_table) [Some (1000 # 100); Some (15 # 1)])
  /\ price_texts plain_sheet !! 0 = Some "10.00"
  /\ nonnegative (Some (1000 # 100)).
Proof.
  assert (H1 : load_sales_dataframe plain_sheet = Ok plain_table)
    by (vm_compute; reflexivity).
  assert (H2 : prices_are plain_table [Some (1000 # 100); Some (15 # 1)]).
  { eexists. split; vm_compute; reflexivity. }
  assert (H3 : In (0, Some (1000 # 100))
                  (zip (index plain_table) [Some (1000 # 100); Some (15 # 1)]))
    by (left; reflexivity).
  assert (H4 : price_texts plain_sheet !! 0 = Some "10.00")
    by (vm_compute; reflexivity).
  repeat split; try assumption.
  apply (unsigned_prices_are_nonnegative plain_sheet plain_table _ 0 _ H1 H2 H3).
  intros t Ht. rewrite H4 in Ht. injection Ht as <-. intros r Hr. discriminate Hr.
Defined.

(** C4 fails on the code: a sale entered at 14:30 on the day that is
    both bounds of the window has its calendar date inside the window,
    and [filter_by_period] leaves it out, because line 64 compares the
    time stamp with midnight of the end date; the Daily view of that day
    reports no data. *)
Theorem end_day_afternoon_is_filtered_out :
  load_sales_dataframe afternoon_sheet = Ok afternoon_table
  /\ index afternoon_table = [0]
  /\ date_of (at_clock july1 14 30) = july1
  /\ Period.filtered afternoon_table (OnDate july1) (OnDate july1)
     = Ok empty_table
  /\ (r ← filter_by_period 0 "Daily" (OnDate july1) (OnDate july1);
      deref r) {[0 := afternoon_table]}
     = (Ok empty_table,
        {[0 := afternoon_table; 1 := empty_table; 2 := empty_table]})
  /\ (dashboard 0 "Daily" (OnDate july1) (OnDate july1)
                {[0 := afternoon_table]}).1
     = Ok (Some (empty_summaries, ["No data in the selected range."])).
Proof. repeat split; vm_compute; reflexivity. Qed.

(** C5 as stated fails: the report of a transaction table without rows
    carries both grouped tables, each of them empty. *)
Lemma empty_table_keeps_its_breakdowns :
  index empty_table = []
  /\ compute_summaries empty_table = Ok empty_summaries
  /\ by_barber empty_summaries = Some []
  /\ by_method empty_summaries = Some [].
Proof. repeat split; vm_compute; reflexivity. Qed.

Lemma empty_table_is_a_transaction_table : transaction_table empty_table.
Proof.
  split; [repeat constructor|]. split; [|split].
  - eexists. split; [reflexivity | eexists; reflexivity].
  - eexists. split; [reflexivity | left; eexists; reflexivity].
  - intros col [-> | ->] _; eexists; (split; [reflexivity|]);
      exists []; reflexivity.
Qed.

(** C5, as amended, on the table without rows. *)
Lemma breakdowns_follow_the_columns_witness :
  transaction_table empty_table
  /\ index empty_table = []
  /\ compute_summaries empty_table = Ok empty_summaries
  /\ (is_Some (by_barber empty_summaries)
      <-> has_column "Barber Name" empty_table = true).
Proof.
  pose proof empty_table_is_a_transaction_table as Ht.
  destruct (breakdowns_follow_the_columns empty_table) as [Hcols Hempty].
  specialize (Hempty Ht eq_refl).
  split; [exact Ht|]. split; [reflexivity|]. split; [exact Hempty|].
  destruct (Hcols _ Hempty) as [Hb _]. exact Hb.
Defined.

(** C6 as stated fails: Zed and Amy earned the same and Zed was entered
    first, yet Amy comes first in [by_barber]. *)
Lemma tie_is_in_label_order :
  load_sales_dataframe tie_sheet = Ok tie_table
  /\ names_are tie_table "Barber Name" ["Zed"; "Amy"]
  /\ compute_summaries tie_table = Ok tie_summaries
  /\ by_barber tie_summaries = Some tie_breakdown
  /\ ~ ties_by_first_seen ["Zed"; "Amy"] tie_breakdown.
Proof.
  split; [vm_compute; reflexivity|].
  split; [eexists; split; vm_compute; reflexivity|].
  split; [vm_compute; reflexivity|].
  split; [reflexivity|].
  intros H.
  specialize (H 0 1 _ _ (Nat.lt_0_succ 0) eq_refl eq_refl (Qeq_refl _)).
  vm_compute in H. lia.
Qed.

(** C6, as amended, on the table of the two sales. *)
Lemma breakdowns_descend_by_revenue_witness :
  compute_summaries plain_table = Ok plain_summaries
  /\ (exists t, by_method plain_summaries = Some t
                /\ StronglySorted revenue_ge t).
Proof.
  assert (H : compute_summaries plain_table = Ok plain_summaries)
    by (vm_compute; reflexivity).
  split; [exact H|]. eexists. split; [reflexivity|].
  eapply (breakdowns_descend_by_revenue SampleFacts.backend_spec
            plain_table plain_summaries); [exact H | right; reflexivity].
Defined.


(** C8 on the table without rows. *)
Lemma no_data_sentinel_witness :
  ({[0 := empty_table]} : gmap nat DataFrame) !! 0 = Some empty_table
  /\ empty empty_table = true
  /\ ai_insights 0 plain_summaries {[0 := empty_table]}
     = (Ok ["No data in the selected range."], {[0 := empty_table]}).
Proof.
  assert (H1 : ({[0 := empty_table]} : gmap nat DataFrame) !! 0 = Some empty_table)
    by (vm_compute; reflexivity).
  assert (H2 : empty empty_table = true) by reflexivity.
  split; [exact H1|]. split; [exact H2|].
  exact (no_data_sentinel {[0 := empty_table]} 0 empty_table plain_summaries H1 H2).
Defined.

End Instances.

(** C10. In the table [load_sales_dataframe] returns, a cell of the
    [Barber Name] or [Payment Method] column whose record had no value
    under that label holds the text "nan", not the empty text: line 57
    casts the missing value with [astype(str)]. (The cell is named by the
    position of its record in the sheet, which is the label of its row.)
    And "nan" does show as a label: on [gap_sheet], whose second record
    has no barber, [by_barber] has a group "nan" and the first insight
    names it the top performer. *)
Theorem missing_name_reads_nan :
  (forall (B : Backend) (data : list record) (df : DataFrame) (col : string)
          (i : nat) (rec : record) (o : obj),
      load_sales_dataframe data = Ok df ->
      col = "Barber Name" \/ col = "Payment Method" ->
      data !! i = Some rec ->
      Vocabulary.lacks rec col ->
      In (i, o) (Vocabulary.cells df col) ->
      o = OStr "nan")
  /\ (exists (B : Backend) (data : list record) (df : DataFrame)
             (s : Summaries) (t : list (group string)) (tips : list string),
        load_sales_dataframe data = Ok df
        /\ compute_summaries df = Ok s
        /\ by_barber s = Some t
        /\ In "nan" (map gkey t)
        /\ (ai_insights 0 s {[0 := df]}).1 = Ok tips
        /\ In "Top performer: nan with OMR 15.00 across 1 cuts." tips).
Proof.
  split.
  - intros B. apply missing_cell_reads_nan.
  - exists Sample.backend, Examples.gap_sheet, Examples.gap_table,
      Examples.gap_summaries.
    eexists. eexists.
    split; [vm_compute; reflexivity|].
    split; [vm_compute; reflexivity|].
    split; [reflexivity|].
    split; [left; reflexivity|].
    split; [vm_compute; reflexivity|].
    left. reflexivity.
Qed.

(** C10 on the sheet whose second record has no barber. *)
Lemma missing_name_reads_nan_witness :
  load_sales_dataframe (B := Sample.backend) Examples.gap_sheet
  = Ok Examples.gap_table
  /\ Examples.gap_sheet !! 1
     = Some [("Date", RStr "2025-07-02"); ("Price", RInt 15);
             ("Payment Method", RStr "Card")]
  /\ In (1, OStr "nan") (Vocabulary.cells Examples.gap_table "Barber Name")
  /\ OStr "nan" = OStr "nan".
Proof.
  assert (H1 : load_sales_dataframe (B := Sample.backend) Examples.gap_sheet
               = Ok Examples.gap_table) by (vm_compute; reflexivity).
  assert (H2 : In (1, OStr "nan")
                  (Vocabulary.cells Examples.gap_table "Barber Name"))
    by (vm_compute; right; left; reflexivity).
  split; [exact H1|]. split; [reflexivity|]. split; [exact H2|].
  destruct missing_name_reads_nan as [Hall _].
  eapply (Hall Sample.backend Examples.gap_sheet Examples.gap_table
               "Barber Name" 1 _ (OStr "nan") H1); [now left | reflexivity | | exact H2].
  intros k v Hin. simpl in Hin.
  destruct Hin as [Hin | [Hin | [Hin | []]]]; inversion Hin; subst;
    (split; [vm_compute; discriminate | intros _; vm_compute; discriminate]).
Defined.

(** ** Boolean indexing *)

Module SelectFacts.
Import Pandas.

Lemma select_none {A} (f : option Timestamp -> bool) ts (xs : list A) :
  (forall x, f x = false) -> select (map f ts) xs = [].
Proof.
  intros Hf. revert xs. induction ts as [|t ts IH]; intros [|x xs];
    simpl; try reflexivity.
  rewrite Hf. apply IH.
Qed.

Lemma select_nil_r {A} m : select m (@nil A) = [].
Proof. destruct m; reflexivity. Qed.

(** Selecting by a stricter test from what a weaker test selected is
    selecting by the stricter test. *)
Lemma select_select {A C} (f g : C -> bool) (ts : list C) (xs : list A) :
  (forall t, g t = true -> f t = true) ->
  select (map g (select (map f ts) ts)) (select (map f ts) xs)
  = select (map g ts) xs.
Proof.
  intros Hfg. revert xs. induction ts as [|t ts IH]; intros xs.
  - reflexivity.
  - destruct xs as [|x xs].
    + now rewrite !select_nil_r.
    + simpl. destruct (f t) eqn:Ef; simpl.
      * destruct (g t); [f_equal|]; apply IH.
      * destruct (g t) eqn:Eg; [|apply IH].
        apply Hfg in Eg. congruence.
Qed.

Lemma select_sublist {A} m (xs : list A) : sublist (select m xs) xs.
Proof.
  revert xs. induction m as [|b m IH]; intros [|x xs]; simpl;
    try apply sublist_nil_l.
  destruct b; [apply sublist_skip | apply sublist_cons]; apply IH.
Qed.

Lemma select_zip {A C} m (xs : list A) (ys : list C) :
  zip (select m xs) (select m ys) = select m (zip xs ys).
Proof.
  revert xs ys. induction m as [|b m IH]; intros xs ys; [reflexivity|].
  destruct xs as [|x xs]; [reflexivity|].
  destruct ys as [|y ys].
  - rewrite select_nil_r. simpl. now destruct (if b then _ else _).
  - simpl. destruct b; simpl; [f_equal|]; apply IH.
Qed.

End SelectFacts.

(** ** White space and case of labels and names *)

Module TextFacts.
Import PyStr Terms.

Lemma lstrip_starts s : starts_with_space (lstrip s) = false.
Proof.
  induction s as [|c r IH]; [reflexivity|]. simpl.
  destruct (is_space c) eqn:E; [exact IH | simpl; exact E].
Qed.

Lemma rstrip_ends s : ends_with_space (rstrip s) = false.
Proof.
  induction s as [|c r IH]; [reflexivity|]. simpl.
  destruct (rstrip r) as [|c' r'] eqn:E.
  - destruct (is_space c) eqn:Ec; [reflexivity | simpl; exact Ec].
  - simpl in *. exact IH.
Qed.

Lemma rstrip_starts s :
  starts_with_space s = false -> starts_with_space (rstrip s) = false.
Proof.
  destruct s as [|c r]; [reflexivity|]. simpl. intros Hc.
  destruct (rstrip r); simpl; [rewrite Hc; simpl|]; exact Hc.
Qed.

Lemma strip_trimmed s : trimmed (strip s).
Proof.
  unfold strip. split; [apply rstrip_starts, lstrip_starts | apply rstrip_ends].
Qed.

Lemma lstrip_fixed s : starts_with_space s = false -> lstrip s = s.
Proof. destruct s as [|c r]; [reflexivity|]. simpl. now intros ->. Qed.

Lemma rstrip_fixed s : ends_with_space s = false -> rstrip s = s.
Proof.
  induction s as [|c r IH]; [reflexivity|]. simpl.
  destruct r as [|c' r'].
  - simpl. now intros ->.
  - intros H. rewrite IH by exact H. reflexivity.
Qed.

Lemma trimmed_strip s : trimmed s -> strip s = s.
Proof.
  intros [H1 H2]. unfold strip. rewrite lstrip_fixed by exact H1.
  now apply rstrip_fixed.
Qed.

Lemma strip_idempotent s : strip (strip s) = strip s.
Proof. apply trimmed_strip, strip_trimmed. Qed.

(** Letters are no white space, and a change of case keeps a letter
    one. *)
Lemma cased_char (c : ascii) (b : bool) :
  is_upper c || is_lower c = true ->
  is_space c = false
  /\ is_space (if b then to_lower c else to_upper c) = false
  /\ is_upper (if b then to_lower c else to_upper c)
     || is_lower (if b then to_lower c else to_upper c) = true
  /\ (if b then to_lower (if b then to_lower c else to_upper c)
      else to_upper (if b then to_lower c else to_upper c))
     = (if b then to_lower c else to_upper c).
Proof.
  destruct c as [[] [] [] [] [] [] [] []]; destruct b; vm_compute;
    intros H; try discriminate; repeat split.
Qed.

Lemma title_from_starts b s :
  starts_with_space (title_from b s) = starts_with_space s.
Proof.
  destruct s as [|c r]; [reflexivity|]. simpl.
  destruct (is_upper c || is_lower c) eqn:E; [|reflexivity]. simpl.
  destruct (cased_char c b E) as (H & H' & _). now rewrite H, H'.
Qed.

Lemma title_from_ends b s :
  ends_with_space (title_from b s) = ends_with_space s.
Proof.
  revert b. induction s as [|c r IH]; intros b; [reflexivity|].
  destruct r as [|c' r'].
  - simpl. destruct (is_upper c || is_lower c) eqn:E; [|reflexivity]. simpl.
    destruct (cased_char c b E) as (H & H' & _). now rewrite H, H'.
  - assert (Hne : forall b', exists d t, title_from b' (String c' r') = String d t).
    { intros b'. simpl. destruct (is_upper c' || is_lower c'); eauto. }
    change (title_from b (String c (String c' r')))
      with (if is_upper c || is_lower c
            then String (if b then to_lower c else to_upper c)
                        (title_from true (String c' r'))
            else String c (title_from false (String c' r'))).
    change (ends_with_space (String c (String c' r')))
      with (ends_with_space (String c' r')).
    destruct (is_upper c || is_lower c).
    + destruct (Hne true) as (d & t & E). rewrite <- (IH true).
      rewrite E. reflexivity.
    + destruct (Hne false) as (d & t & E). rewrite <- (IH false).
      rewrite E. reflexivity.
Qed.

Lemma title_trimmed s : trimmed s -> trimmed (title s).
Proof.
  intros [H1 H2]. unfold title.
  split; [now rewrite title_from_starts | now rewrite title_from_ends].
Qed.

Lemma title_from_idempotent b s :
  title_from b (title_from b s) = title_from b s.
Proof.
  revert b. induction s as [|c r IH]; intros b; [reflexivity|]. simpl.
  destruct (is_upper c || is_lower c) eqn:E.
  - destruct (cased_char c b E) as (_ & _ & Hc & Hfix).
    simpl. rewrite Hc. rewrite IH. f_equal. exact Hfix.
  - simpl. rewrite E. now rewrite IH.
Qed.

(** Normalising a label twice changes nothing more. *)
Lemma normalize_label_idempotent c :
  normalize_label (normalize_label c) = normalize_label c.
Proof.
  unfold normalize_label.
  rewrite (trimmed_strip (title (strip c)))
    by apply title_trimmed, strip_trimmed.
  apply title_from_idempotent.
Qed.

End TextFacts.

(** ** Labels of the loaded table *)

Module LabelFacts.
Import Pandas PandasFacts MaskFacts LoadFacts PrepareFacts Vocabulary Terms.

Lemma has_column_In c df : has_column c df = true <-> In c (labels df).
Proof.
  unfold has_column. rewrite existsb_exists. split.
  - intros (l & Hin & Heq). apply String.eqb_eq in Heq. now subst l.
  - intros Hin. exists c. split; [exact Hin | apply String.eqb_refl].
Qed.

Lemma getitem_no_column c df :
  has_column c df = false -> getitem df c = Raise (KeyError c).
Proof.
  intros H. apply has_column_filter in H. unfold getitem. now rewrite H.
Qed.

Lemma labels_setitem df c s l :
  In l (labels (setitem df c s)) -> In l (labels df) \/ l = c.
Proof.
  unfold setitem, labels. destruct (has_column c df); simpl.
  - rewrite map_map. intros H. apply in_map_iff in H as (p & Hl & Hin).
    destruct (named c p) eqn:E.
    + simpl in Hl. right. congruence.
    + left. apply in_map_iff. eauto.
  - rewrite map_app. intros H. apply in_app_iff in H as [H | [H | []]]; auto.
Qed.

Lemma labels_loc_mask m df : labels (loc_mask m df) = labels df.
Proof. unfold labels, loc_mask. simpl. now rewrite map_map. Qed.

(** The labels lines 31-37 leave: normalised ones, none of them
    "Timestamp", and "Barber" only beside "Barber Name". *)
Lemma relabel_labels df :
  (forall l, In l (labels (relabel df)) ->
     l <> "Timestamp"
     /\ (l = "Barber Name" \/ exists k, l = normalize_label k))
  /\ (In "Barber" (labels (relabel df)) ->
      In "Barber Name" (labels (relabel df))).
Proof.
  unfold relabel, drop_timestamp_and_alias.
  set (df1 := map_labels normalize_label df).
  assert (H1 : forall l, In l (labels df1) -> exists k, l = normalize_label k).
  { intros l Hin. unfold df1, labels, map_labels in Hin. simpl in Hin.
    rewrite map_map in Hin. apply in_map_iff in Hin as (p & Hl & _).
    simpl in Hl. eauto. }
  set (df2 := if has_column "Timestamp" df1 then drop_column "Timestamp" df1
              else df1).
  assert (H2 : forall l, In l (labels df2) ->
                 l <> "Timestamp" /\ exists k, l = normalize_label k).
  { intros l Hin. unfold df2 in Hin.
    destruct (has_column "Timestamp" df1) eqn:E.
    - unfold drop_column, labels in Hin. simpl in Hin.
      apply in_map_iff in Hin as (p & Hl & Hin).
      apply filter_In in Hin as [Hin Hn]. apply negb_true_iff in Hn.
      apply named_false in Hn. split; [congruence|].
      apply H1. unfold labels. apply in_map_iff. eauto.
    - split; [|now apply H1]. intros ->.
      apply has_column_In in Hin. congruence. }
  destruct (negb (has_column "Barber Name" df2) && has_column "Barber" df2)
    eqn:E.
  - assert (Hl : forall l, In l (labels (rename "Barber" "Barber Name" df2)) ->
                   l <> "Barber"
                   /\ (l = "Barber Name" \/ In l (labels df2))).
    { intros l Hin. unfold rename, map_labels, labels in Hin. simpl in Hin.
      rewrite map_map in Hin. apply in_map_iff in Hin as (p & Hl & Hin).
      simpl in Hl. destruct (String.eqb (fst p) "Barber") eqn:Eb.
      - subst l. split; [discriminate | now left].
      - subst l. apply String.eqb_neq in Eb. split; [exact Eb|]. right.
        unfold labels. apply in_map_iff. eauto. }
    split.
    + intros l Hin. apply Hl in Hin as [_ [-> | Hin]].
      * split; [discriminate | now left].
      * apply H2 in Hin as [Hn Hk]. auto.
    + intros Hin. apply Hl in Hin as [Hn _]. congruence.
  - split.
    + intros l Hin. apply H2 in Hin as [Hn Hk]. auto.
    + intros Hin. apply has_column_In in Hin. rewrite Hin in E.
      rewrite andb_true_r in E. apply negb_false_iff in E.
      now apply has_column_In.
Qed.

Section WithBackend.
Context {B : Backend}.

Lemma prepare_labels df df' l :
  prepare df = Ok df' -> In l (labels df') ->
  In l (labels (relabel df)) \/ l = "Date" \/ l = "Price".
Proof.
  unfold prepare, normalize_text_columns. intros H Hin. simpl in H.
  inv_bind H. inv_bind H. inv_bind H.
  assert (Htext : forall a col a', normalize_text_column a col = Ok a' ->
            In l (labels a') -> In l (labels a)).
  { intros a col a' Ha Hl. unfold normalize_text_column in Ha.
    destruct (has_column col a) eqn:Ec; [|now inv_Ok Ha].
    inv_bind Ha. rewrite str_map_astype in Ha. simpl in Ha. inv_Ok Ha.
    apply labels_setitem in Hl as [Hl | ->]; [exact Hl|].
    now apply has_column_In. }
  apply (Htext _ _ _ H) in Hin. apply (Htext _ _ _ E1) in Hin.
  assert (Hprice : In l (labels x) \/ l = "Price").
  { unfold coerce_price_column in E0.
    destruct (has_column "Price" x).
    - inv_bind E0. rewrite str_map_astype in E0. simpl in E0.
      erewrite getitem_setitem_same in E0 by eauto. simpl in E0. inv_Ok E0.
      apply labels_setitem in Hin as [Hin | ->]; [|now right].
      apply labels_setitem in Hin as [Hin | ->]; auto.
    - inv_Ok E0. now apply labels_setitem in Hin. }
  destruct Hprice as [Hl | ->]; [|auto].
  unfold parse_date_column in E.
  destruct (has_column "Date" (relabel df)).
  - inv_bind E. inv_Ok E. apply labels_setitem in Hl as [Hl | ->]; auto.
  - inv_Ok E. apply labels_setitem in Hl as [Hl | ->]; auto.
Qed.

(** The [Date] column that lines 40-43 leave. *)
Lemma prepare_date df df' :
  prepare df = Ok df' ->
  getitem df' "Date"
  = Ok (match getitem (relabel df) "Date" with
        | Ok s => to_datetime s
        | Raise _ => all_NaT (relabel df)
        end).
Proof.
  unfold prepare. intros H. simpl in H. inv_bind H. inv_bind H.
  apply coerce_price_column_Ok in E0 as ([_ S2] & _).
  apply normalize_text_columns_Ok in H as (_ & S3 & _).
  rewrite S3 by discriminate. destruct (S2 "Date") as [-> _]; [discriminate|].
  unfold parse_date_column in E.
  destruct (has_column "Date" (relabel df)) eqn:Ec.
  - inv_bind E. inv_Ok E. rewrite E0.
    eapply getitem_setitem_same; eauto.
  - inv_Ok E. rewrite (getitem_no_column _ _ Ec).
    now apply getitem_setitem_new.
Qed.

End WithBackend.
End LabelFacts.

(** ** Which rows [load_sales_dataframe] keeps *)

Module RowFacts.
Import Pandas PandasFacts MaskFacts LoadFacts PrepareFacts MissingFacts
       LabelFacts Vocabulary Terms.

Lemma notna_numeric_series ns :
  notna (numeric_series ns)
  = map (fun n : option Numeric.num =>
           match n with Some _ => true | None => false end) ns.
Proof.
  unfold numeric_series. destruct (mapM as_int ns) as [zs|] eqn:E; simpl.
  - revert zs E. induction ns as [|n ns IH]; intros zs E; simpl in E.
    + now inv_Ok E.
    + destruct n as [[z|q]|]; simpl in E; try discriminate.
      destruct (mapM as_int ns) as [zs'|]; simpl in E; [|discriminate].
      inv_Ok E. simpl. f_equal. now apply IH.
  - rewrite map_map. apply map_ext. intros [n|]; reflexivity.
Qed.

(** Boolean indexing of the default row labels. *)
Lemma select_seq m start n :
  select m (seq start n)
  = List.filter (fun i => bool_decide (m !! (i - start) = Some true))
                (seq start n).
Proof.
  revert m start. induction n as [|n IH]; intros m start.
  - destruct m; reflexivity.
  - destruct m as [|b m].
    + change (select [] (seq start (S n))) with (@nil nat).
      erewrite List.filter_ext; [symmetry; apply List.filter_false|].
      intros i. apply bool_decide_eq_false. rewrite lookup_nil. discriminate.
    + simpl. rewrite Nat.sub_diag. simpl. rewrite IH.
      assert (Hext : List.filter
                (fun i => bool_decide (m !! (i - S start) = Some true))
                (seq (S start) n)
              = List.filter
                (fun i => bool_decide ((b :: m) !! (i - start) = Some true))
                (seq (S start) n)).
      { apply List.filter_ext_in. intros i Hi. apply in_seq in Hi.
        replace (i - start) with (S (i - S start)) by lia. reflexivity. }
      rewrite Hext. destruct b; reflexivity.
Qed.

Lemma all_none_lookup {A C} (l : list C) i :
  (map (fun _ => @None A) l) !! i = Some None \/ (map (fun _ => @None A) l) !! i = None.
Proof.
  change (map ?f l) with (f <$> l). rewrite list_lookup_fmap.
  destruct (l !! i); simpl; auto.
Qed.

Lemma getitem_twice c df :
  2 <= length (List.filter (named c) (columns df)) ->
  getitem df c = Raise (NotASeries c).
Proof.
  unfold getitem.
  destruct (List.filter (named c) (columns df)) as [|[l s] [|? ?]]; simpl;
    intros H; try lia. reflexivity.
Qed.

Lemma getitem_cases c df :
  has_column c df = true ->
  (exists s, getitem df c = Ok s) \/ getitem df c = Raise (NotASeries c).
Proof.
  intros H. unfold getitem.
  destruct (List.filter (named c) (columns df)) as [|[l s] [|? ?]] eqn:E; eauto.
  apply has_column_filter in E. congruence.
Qed.

(** Two different members of a list that pass a test are two members
    of the filtered list. *)
Lemma filter_two {A} (f : A -> bool) (a b : A) (l : list A) :
  In a l -> In b l -> a <> b -> f a = true -> f b = true ->
  2 <= length (List.filter f l).
Proof.
  intros Ha Hb Hne Hfa Hfb.
  assert (Ha' : In a (List.filter f l)) by (apply filter_In; auto).
  assert (Hb' : In b (List.filter f l)) by (apply filter_In; auto).
  destruct (List.filter f l) as [|x [|y rest]]; simpl in *;
    [destruct Ha' | | lia].
  destruct Ha' as [<- | []], Hb' as [<- | []]. congruence.
Qed.

Lemma filter_named_map_labels c g cols :
  length (List.filter (named c) (map (fun p : string * Series => (g (fst p), snd p)) cols))
  = length (List.filter (fun p => String.eqb c (g (fst p))) cols).
Proof.
  induction cols as [|p cols IH]; [reflexivity|]. simpl.
  unfold named at 1. simpl. destruct (String.eqb c (g (fst p))); simpl; lia.
Qed.

Lemma filter_length_le {A} (f g : A -> bool) (l : list A) :
  (forall x, f x = true -> g x = true) ->
  length (List.filter f l) <= length (List.filter g l).
Proof.
  intros H. induction l as [|x l IH]; [reflexivity|]. simpl.
  destruct (f x) eqn:E.
  - rewrite (H x E). simpl. lia.
  - destruct (g x); simpl; lia.
Qed.

(** Two headers of a sheet that normalise to one label [c], other than
    "Timestamp" and "Barber", leave two columns labelled [c]. *)
Lemma relabel_twice c df p1 p2 :
  In p1 (columns df) -> In p2 (columns df) -> p1 <> p2 ->
  normalize_label (fst p1) = c -> normalize_label (fst p2) = c ->
  c <> "Timestamp" -> c <> "Barber" ->
  2 <= length (List.filter (named c) (columns (relabel df))).
Proof.
  intros H1 H2 Hne E1 E2 Ht Hb.
  unfold relabel, drop_timestamp_and_alias.
  set (df1 := map_labels normalize_label df).
  assert (C1 : 2 <= length (List.filter (named c) (columns df1))).
  { unfold df1, map_labels. simpl. rewrite filter_named_map_labels.
    apply (filter_two _ p1 p2); [exact H1 | exact H2 | exact Hne | |];
      apply String.eqb_eq; congruence. }
  set (df2 := if has_column "Timestamp" df1 then drop_column "Timestamp" df1
              else df1).
  assert (C2 : 2 <= length (List.filter (named c) (columns df2))).
  { unfold df2. destruct (has_column "Timestamp" df1); [|exact C1].
    unfold drop_column. cbn [columns].
    etransitivity; [exact C1|]. generalize (columns df1). intros cols.
    induction cols as [|p cols IH]; [reflexivity|]. simpl.
    destruct (named c p) eqn:E.
    - assert (Hn : named "Timestamp" p = false).
      { apply named_false. apply named_iff in E. congruence. }
      rewrite Hn. simpl. rewrite E. simpl. lia.
    - destruct (negb (named "Timestamp" p)); simpl; rewrite ?E; exact IH. }
  destruct (negb (has_column "Barber Name" df2) && has_column "Barber" df2);
    [|exact C2].
  unfold rename, map_labels. cbn [columns].
  rewrite (filter_named_map_labels c
             (fun c0 => if String.eqb c0 "Barber" then "Barber Name" else c0)).
  etransitivity; [exact C2|]. apply filter_length_le.
  intros p Hp. apply named_iff in Hp. rewrite <- Hp.
  assert (Hcb : String.eqb c "Barber" = false) by now apply String.eqb_neq.
  rewrite Hcb. apply String.eqb_refl.
Qed.

Section Raising.
Context {B : Backend}.

Lemma parse_date_column_cases df :
  (exists df', parse_date_column df = Ok df')
  \/ parse_date_column df = Raise (NotASeries "Date").
Proof.
  unfold parse_date_column. destruct (has_column "Date" df) eqn:E; [|eauto].
  destruct (getitem_cases _ _ E) as [[s ->] | ->]; simpl; eauto.
Qed.

Lemma coerce_price_column_cases df :
  (exists df', coerce_price_column df = Ok df')
  \/ coerce_price_column df = Raise (NotASeries "Price").
Proof.
  unfold coerce_price_column. destruct (has_column "Price" df) eqn:E; [|eauto].
  destruct (getitem_cases _ _ E) as [[s Hs] | ->]; simpl; [|eauto].
  rewrite Hs. simpl. rewrite str_map_astype. simpl.
  erewrite getitem_setitem_same by eauto. simpl. eauto.
Qed.

Lemma normalize_text_column_cases df col :
  (exists df', normalize_text_column df col = Ok df')
  \/ normalize_text_column df col = Raise (NotASeries col).
Proof.
  unfold normalize_text_column. destruct (has_column col df) eqn:E; [|eauto].
  destruct (getitem_cases _ _ E) as [[s ->] | ->]; simpl; [|eauto].
  rewrite str_map_astype. simpl. eauto.
Qed.

(** Lines 30-57 raise only where a label they read is carried by two
    columns. *)
Lemma prepare_cases df :
  (exists df', prepare df = Ok df')
  \/ (exists c, In c read_labels /\ prepare df = Raise (NotASeries c)).
Proof.
  unfold prepare, normalize_text_columns, read_labels. simpl.
  destruct (parse_date_column_cases (relabel df)) as [[df1 ->] | ->]; simpl;
    [|right; eexists; split; [|reflexivity]; simpl; auto].
  destruct (coerce_price_column_cases df1) as [[df2 ->] | ->]; simpl;
    [|right; eexists; split; [|reflexivity]; simpl; auto].
  destruct (normalize_text_column_cases df2 "Barber Name") as [[df3 ->] | ->];
    simpl; [|right; eexists; split; [|reflexivity]; simpl; auto].
  destruct (normalize_text_column_cases df3 "Payment Method") as [[df4 ->] | ->];
    simpl; [eauto|right; eexists; split; [|reflexivity]; simpl; auto].
Qed.

Lemma prepare_single df df' c :
  prepare df = Ok df' -> In c read_labels -> single c (relabel df).
Proof.
  intros H Hc Hhas. simpl in Hc.
  destruct Hc as [<- | [<- | Hc]].
  - unfold prepare in H. simpl in H. inv_bind H.
    unfold parse_date_column in E. rewrite Hhas in E. inv_bind E. eauto.
  - apply prepare_Ok in H as (_ & _ & (p & _ & _ & Hsrc & _) & _).
    destruct (Hsrc Hhas) as (s0 & Hs0 & _). eauto.
  - apply prepare_Ok in H as (_ & _ & _ & Htext).
    destruct (Htext c) as [_ Hs]; [destruct Hc as [<- | [<- | []]]; auto|].
    destruct (Hs Hhas) as (s0 & Hs0 & _). eauto.
Qed.

End Raising.

Lemma in_first_seen k ks : In k (Frame.first_seen ks) <-> In k ks.
Proof.
  unfold Frame.first_seen. rewrite <- in_rev, <- !list_elem_of_In.
  rewrite elem_of_remove_dups, !list_elem_of_In. symmetry. apply in_rev.
Qed.

Lemma keys_nil : Frame.keys [] = [].
Proof. reflexivity. Qed.

End RowFacts.

Module LoadedFacts.
Import Pandas PandasFacts MaskFacts LoadFacts PrepareFacts MissingFacts
       TableFacts LabelFacts RowFacts TextFacts Vocabulary Terms.

Section WithBackend.
Context {B : Backend}.

(** A label of a loaded table is not "Timestamp", and is normalised. *)
Lemma load_labels (data : list record) (df : DataFrame) (l : string) :
  load_sales_dataframe data = Ok df ->
  In l (labels df) ->
  l <> "Timestamp" /\ normalize_label l = l.
Proof.
  unfold load_sales_dataframe.
  destruct (empty (Frame.of_records data)) eqn:He; intros H Hin.
  { inv_Ok H. apply of_records_empty in He. unfold labels in Hin.
    rewrite He in Hin. destruct Hin. }
  unfold clean in H. inv_bind H.
  unfold dropna in H. inv_bind H. inv_Ok H.
  destruct (relabel_labels (Frame.of_records data)) as [Hall _].
  rewrite labels_loc_mask in Hin.
  destruct (prepare_labels _ _ _ E Hin) as [Hr | [-> | ->]];
    [| split; [discriminate | reflexivity] ..].
  destruct (Hall l Hr) as [Hn [-> | [k ->]]]; split; auto.
  apply normalize_label_idempotent.
Qed.

Lemma has_column_getitem df df' c :
  getitem df' c = getitem df c -> has_column c df' = has_column c df.
Proof.
  intros H. destruct (has_column c df) eqn:E.
  - destruct (has_column c df') eqn:E'; [reflexivity|].
    rewrite (getitem_no_column _ _ E') in H.
    destruct (getitem_cases _ _ E) as [[s Hs] | Hs]; rewrite Hs in H;
      discriminate.
  - destruct (has_column c df') eqn:E'; [|reflexivity].
    rewrite (getitem_no_column _ _ E) in H.
    destruct (getitem_cases _ _ E') as [[s Hs] | Hs]; rewrite Hs in H;
      discriminate.
Qed.

(** Lines 40-57 leave the columns under every other label alone. *)
Lemma prepare_other df df' c :
  prepare df = Ok df' -> ~ In c read_labels ->
  getitem df' c = getitem (relabel df) c.
Proof.
  unfold prepare. intros H Hc. simpl in H. inv_bind H. inv_bind H.
  assert (Hne : c <> "Date" /\ c <> "Price" /\ c <> "Barber Name"
                /\ c <> "Payment Method").
  { repeat split; intros ->; apply Hc; simpl; auto. }
  destruct Hne as (Hd & Hp & Hb & Hm).
  apply parse_date_column_Ok in E as ([_ S1] & _).
  apply coerce_price_column_Ok in E0 as ([_ S2] & _).
  apply normalize_text_columns_Ok in H as (_ & S3 & _).
  rewrite S3 by assumption.
  destruct (S2 c Hp) as [-> _]. destruct (S1 c Hd) as [-> _]. reflexivity.
Qed.

Lemma numeric_values_is_numeric p :
  is_numeric p -> exists vals, numeric_values p = Ok vals.
Proof. intros [[zs ->] | [qs ->]]; simpl; eauto. Qed.

Lemma map_const {A C D} (c : D) (l : list A) (l' : list C) :
  length l = length l' -> map (fun _ => c) l = map (fun _ => c) l'.
Proof.
  revert l'. induction l as [|x l IH]; intros [|y l'] H; simpl in *;
    try discriminate; [reflexivity|]. f_equal. apply IH. lia.
Qed.

(** The [Date] column of the prepared table holds the dates of the
    records. *)
Lemma prepare_dates data x :
  prepare (Frame.of_records data) = Ok x ->
  getitem x "Date" = Ok (SDatetime (dates data)).
Proof.
  intros H. rewrite (prepare_date _ _ H). unfold dates.
  destruct (getitem (relabel (Frame.of_records data)) "Date") as [s|e].
  - now destruct (to_datetime_is_datetime s) as [ts ->].
  - unfold all_NaT. rewrite index_relabel. simpl. do 2 f_equal.
    apply map_const. now rewrite length_seq.
Qed.

(** The [Price] column of the prepared table holds what the cleaned
    texts read as, when the sheet has prices. *)
Lemma prepare_prices data x p vals :
  prepare (Frame.of_records data) = Ok x ->
  getitem x "Price" = Ok p -> numeric_values p = Ok vals ->
  has_column "Price" (relabel (Frame.of_records data)) = true ->
  vals = map (fun txt => option_map Numeric.num_value (Numeric.parse txt))
             (price_texts data).
Proof.
  intros H Hp Hvals Hc.
  apply prepare_Ok in H as (_ & _ & (p0 & Hp0 & _ & Hsrc & _) & _).
  rewrite Hp in Hp0. injection Hp0 as <-.
  destruct (Hsrc Hc) as (s0 & Hs0 & ->).
  simpl in Hvals. rewrite PriceFacts.numeric_values_numeric_series in Hvals.
  injection Hvals as <-. unfold price_texts, cleaned_prices. rewrite Hs0.
  rewrite !map_map. reflexivity.
Qed.

(** No label of a loaded table is "dow": a label is normalised, and
    normalising "dow" gives "Dow". *)
Lemma load_no_dow (data : list record) (df : DataFrame) :
  load_sales_dataframe data = Ok df -> has_column "dow" df = false.
Proof.
  intros H. destruct (has_column "dow" df) eqn:E; [|reflexivity].
  apply has_column_In in E.
  destruct (load_labels data df _ H E) as [_ Hn].
  vm_compute in Hn. discriminate.
Qed.

End WithBackend.
End LoadedFacts.

Section LoadProperties.
Context {B : Backend}.
Import Pandas PandasFacts MaskFacts LoadFacts PrepareFacts MissingFacts
       TableFacts LabelFacts RowFacts TextFacts LoadedFacts Vocabulary Terms.

(** X1. The rows [load_sales_dataframe] keeps of a sheet with rows and
    columns are exactly the valid ones, in sheet order and under their
    sheet positions as row labels: a record is kept when its date parses
    and its cleaned price reads as a number, and dropped otherwise
    (line 59 drops nothing else). *)
Theorem load_keeps_exactly_the_valid_rows (data : list record) (df : DataFrame) :
  load_sales_dataframe data = Ok df ->
  empty (Frame.of_records data) = false ->
  index df = List.filter (valid data) (seq 0 (length data)).
Proof.
  unfold load_sales_dataframe. intros H He. rewrite He in H.
  unfold clean in H. inv_bind H.
  pose proof (prepare_date _ _ E) as Hdate.
  apply prepare_Ok in E as (Hidx & _ & (p & Hp & _ & Hsrc & Hnone) & _).
  unfold dropna in H. inv_bind H. inv_Ok H.
  simpl in E. rewrite Hdate, Hp in E. simpl in E. inv_Ok E.
  simpl. rewrite Hidx, index_relabel. simpl. rewrite select_seq.
  apply List.filter_ext_in. intros i Hi. apply in_seq in Hi.
  rewrite Nat.sub_0_r. unfold valid, dates, price_texts.
  set (raw := relabel (Frame.of_records data)) in *.
  assert (Hd : notna (match getitem raw "Date" with
                      | Ok s => to_datetime s
                      | Raise _ => all_NaT raw
                      end) !! i
               = match (match getitem raw "Date" with
                        | Ok s => match to_datetime s with
                                  | SDatetime ts => ts
                                  | _ => []
                                  end
                        | Raise _ => map (fun _ => None) data
                        end) !! i with
                 | Some (Some _) => Some true
                 | Some None => Some false
                 | None => None
                 end).
  { destruct (getitem raw "Date") as [s|e].
    - destruct (to_datetime_is_datetime s) as [ts ->]. simpl.
      change (map ?f ts) with (f <$> ts). rewrite list_lookup_fmap.
      destruct (ts !! i) as [[t|]|]; reflexivity.
    - unfold all_NaT. simpl. rewrite map_map.
      change (map ?f ?l) with (f <$> l). rewrite !list_lookup_fmap.
      subst raw. rewrite index_relabel. simpl.
      rewrite lookup_seq_lt by lia.
      destruct (lookup_lt_is_Some_2 data i) as [r ->]; [lia|]. reflexivity. }
  unfold mask_and. apply Bool.eq_iff_eq_true. rewrite bool_decide_eq_true.
  rewrite lookup_zip_with_Some. setoid_rewrite lookup_zip_with_Some.
  rewrite Hd. clear Hd.
  destruct (has_column "Price" raw) eqn:Hc.
  - destruct (Hsrc eq_refl) as (s0 & Hs0 & ->). rewrite Hs0.
    simpl. rewrite notna_numeric_series. unfold cleaned_prices.
    rewrite !map_map.
    change (map ?f ?l) with (f <$> l). rewrite !list_lookup_fmap.
    rewrite lookup_seq_lt by lia. simpl.
    split.
    + intros (a & b & Hab & Ha & c & d & Hcd & Hc' & _). subst b.
      symmetry in Hab. apply andb_true_iff in Hab as [-> Hcd].
      apply andb_true_iff in Hcd as [-> _].
      destruct (_ !! i) as [[t|]|]; try discriminate.
      destruct (texts s0 !! i) as [t'|]; simpl in *; [|discriminate].
      destruct (Numeric.parse _); [reflexivity | discriminate].
    + intros Hv.
      destruct (_ !! i) as [[t|]|]; try discriminate.
      destruct (texts s0 !! i) as [t'|]; simpl in *; [|discriminate].
      destruct (Numeric.parse _); [|discriminate].
      exists true, true. split; [reflexivity|]. split; [reflexivity|].
      exists true, true. auto.
  - destruct (Hnone eq_refl) as (l & ->).
    rewrite (getitem_no_column _ _ Hc). simpl.
    split.
    + intros (a & b & Hab & Ha & c & d & Hcd & Hc' & _). exfalso.
      rewrite map_map in Hc'.
      change (map ?f ?l) with (f <$> l) in Hc'.
      rewrite list_lookup_fmap in Hc'.
      destruct (l !! i); simpl in Hc'; [|discriminate]. inv_Ok Hc'.
      destruct a; discriminate.
    + destruct (_ !! i) as [[t|]|]; discriminate.
Qed.

(** X2. The table [load_sales_dataframe] returns has no column labelled
    "Timestamp" (line 35), has a "Barber" column only beside a "Barber
    Name" column (the alias of line 37), and carries normalised labels
    only: normalising one again (line 31) gives the same label. *)
Theorem loaded_labels_are_normalised (data : list record) (df : DataFrame) :
  load_sales_dataframe data = Ok df ->
  has_column "Timestamp" df = false
  /\ (has_column "Barber" df = true -> has_column "Barber Name" df = true)
  /\ Forall (fun l => normalize_label l = l) (labels df).
Proof.
  intros H. split; [|split].
  - destruct (has_column "Timestamp" df) eqn:Ec; [|reflexivity].
    apply has_column_In in Ec. destruct (load_labels _ _ _ H Ec). congruence.
  - revert H. unfold load_sales_dataframe.
    destruct (empty (Frame.of_records data)) eqn:He; intros H.
    { inv_Ok H. apply of_records_empty in He. unfold has_column, labels.
      rewrite He. discriminate. }
    unfold clean in H. inv_bind H.
    unfold dropna in H. inv_bind H. inv_Ok H.
    destruct (relabel_labels (Frame.of_records data)) as [_ Halias].
    rewrite !has_column_loc_mask. intros Hb.
    apply has_column_In in Hb.
    destruct (prepare_labels _ _ _ E Hb) as [Hr | [Hr | Hr]];
      try discriminate.
    apply Halias, has_column_In in Hr.
    apply prepare_Ok in E as (_ & _ & _ & Htext).
    destruct (Htext "Barber Name") as [-> _]; auto.
  - apply List.Forall_forall. intros l Hin.
    now destruct (load_labels _ _ _ H Hin).
Qed.

(** X3. In the table [load_sales_dataframe] returns, every cell of the
    [Barber Name] and [Payment Method] columns is text with no white
    space at either end (line 57), whatever the sheet held there. *)
Theorem loaded_names_are_trimmed (data : list record) (df : DataFrame)
        (col : string) (i : nat) (o : obj) :
  load_sales_dataframe data = Ok df ->
  col = "Barber Name" \/ col = "Payment Method" ->
  In (i, o) (cells df col) ->
  exists t, o = OStr t /\ trimmed t.
Proof.
  unfold load_sales_dataframe.
  destruct (empty (Frame.of_records data)) eqn:He; intros H Hcol Hin.
  { inv_Ok H. apply of_records_empty in He. unfold cells, getitem in Hin.
    rewrite He in Hin. destruct Hin. }
  unfold clean in H. inv_bind H.
  unfold dropna in H. inv_bind H. inv_Ok H.
  unfold cells in Hin.
  destruct (getitem (loc_mask x0 x) col) as [s'|] eqn:Es; [|destruct Hin].
  apply getitem_loc_mask_inv in Es as (s & Hs & ->).
  apply prepare_Ok in E as (_ & _ & _ & Htext).
  destruct (Htext col Hcol) as [Hh Hsrc].
  rewrite (getitem_has_column _ _ _ Hs) in Hh. symmetry in Hh.
  destruct (Hsrc Hh) as (s0 & _ & Hs'). rewrite Hs in Hs'. inv_Ok Hs'.
  apply list_elem_of_In, elem_of_zip_r in Hin.
  rewrite objects_select in Hin. simpl in Hin. rewrite select_map in Hin.
  apply list_elem_of_In, in_map_iff in Hin as (t & <- & _).
  eexists. split; [reflexivity | apply strip_trimmed].
Qed.

(** X4. Two different headers of a sheet that normalise to the same one
    of the four labels the pipeline reads make [load_sales_dataframe]
    raise: the label then names two columns, and the column operation
    of line 41, 48 or 57 is applied to a table instead of a column. *)
Theorem doubled_header_raises (data : list record) (k1 k2 c : string) :
  In k1 (Frame.keys data) -> In k2 (Frame.keys data) -> k1 <> k2 ->
  normalize_label k1 = c -> normalize_label k2 = c ->
  In c read_labels ->
  exists c', In c' read_labels
             /\ load_sales_dataframe data = Raise (NotASeries c').
Proof.
  intros H1 H2 Hne E1 E2 Hc.
  set (raw := Frame.of_records data).
  assert (Hin : forall k, In k (Frame.keys data) ->
                  In (Frame.column_of data k) (columns raw)).
  { intros k Hk. unfold raw, Frame.of_records. simpl. now apply in_map. }
  assert (Hraise : getitem (relabel raw) c = Raise (NotASeries c)).
  { apply getitem_twice.
    apply (relabel_twice c raw (Frame.column_of data k1) (Frame.column_of data k2));
      auto.
    - unfold Frame.column_of. congruence.
    - simpl in Hc. destruct Hc as [<- | [<- | [<- | [<- | []]]]]; discriminate.
    - simpl in Hc. destruct Hc as [<- | [<- | [<- | [<- | []]]]]; discriminate. }
  assert (He : empty raw = false).
  { unfold empty, raw. simpl. destruct data as [|r data]; [destruct H1|].
    simpl. destruct (Frame.keys (r :: data)); [destruct H1 | reflexivity]. }
  unfold load_sales_dataframe. fold raw. rewrite He. unfold clean.
  destruct (prepare_cases raw) as [[df' Hok] | (c' & Hc' & Hr)].
  - exfalso. pose proof (prepare_single _ _ _ Hok Hc) as Hs.
    destruct Hs as [s Hs]; [|congruence].
    destruct (has_column c (relabel raw)) eqn:Eh; [reflexivity|].
    rewrite (getitem_no_column _ _ Eh) in Hraise. discriminate.
  - exists c'. split; [exact Hc'|]. rewrite Hr. reflexivity.
Qed.

(** X5. For a sheet without records (or without any header) line 28
    returns the table as built: it has no column at all, not even
    [Date] and [Price]. On that table [filter_by_period] and
    [compute_summaries] raise [KeyError] for "Date"; [main] does not get
    there, its test of line 180 shows the note of line 205 instead. *)
Theorem empty_sheet_has_no_columns (data : list record) :
  empty (Frame.of_records data) = true ->
  load_sales_dataframe data = Ok (Frame.of_records data)
  /\ columns (Frame.of_records data) = []
  /\ (forall start_date end_date,
        Period.filtered (Frame.of_records data) start_date end_date
        = Raise (KeyError "Date"))
  /\ compute_summaries (Frame.of_records data) = Raise (KeyError "Date")
  /\ (forall (σ : Store) r ui,
        σ !! r = Some (Frame.of_records data) ->
        Main.show ui (Some r) σ = (Ok None, σ)).
Proof.
  intros He. pose proof (of_records_empty _ He) as Hc.
  assert (Hget : forall c, getitem (Frame.of_records data) c = Raise (KeyError c)).
  { intros c. unfold getitem. now rewrite Hc. }
  assert (Hhas : forall c, has_column c (Frame.of_records data) = false).
  { intros c. unfold has_column, labels. now rewrite Hc. }
  split; [unfold load_sales_dataframe; now rewrite He|].
  split; [exact Hc|]. split; [|split].
  - intros a b. unfold Period.filtered, Period.period_mask.
    rewrite Hget. reflexivity.
  - unfold compute_summaries, price_total, breakdown, revenue_by_day.
    rewrite He, !Hhas, !Hget. reflexivity.
  - intros σ r ui Hr. unfold Main.show, dashboard, mbind, M_bind, deref.
    rewrite Hr, He. reflexivity.
Qed.

(** X6. A row of the table [load_sales_dataframe] returns holds the
    date [pd.to_datetime] read from the date cell of its record and the
    number its cleaned price text reads as: the rows are dropped or
    kept, their dates and prices are not changed by the row filter. *)
Theorem loaded_cells_are_the_parsed_cells (data : list record) (df : DataFrame)
        (ts : list (option Timestamp)) (vals : list (option Q)) :
  load_sales_dataframe data = Ok df ->
  getitem df "Date" = Ok (SDatetime ts) ->
  prices_are df vals ->
  (forall i t, In (i, t) (zip (index df) ts) -> dates data !! i = Some t)
  /\ (forall i v, In (i, v) (zip (index df) vals) ->
        exists txt, price_texts data !! i = Some txt
                    /\ v = option_map Numeric.num_value (Numeric.parse txt)).
Proof.
  unfold load_sales_dataframe.
  destruct (empty (Frame.of_records data)) eqn:He; intros H Hd (p & Hp & Hvals).
  { inv_Ok H. apply of_records_empty in He. unfold getitem in Hd.
    rewrite He in Hd. discriminate. }
  unfold clean in H. inv_bind H.
  pose proof (dropna_no_nulls _ _ _ "Price" H ltac:(simpl; auto)) as Hnn.
  pose proof (prepare_dates _ _ E) as Hdates.
  pose proof (prepare_Ok _ _ E) as (Hidx & _ & (p0 & Hp0 & Hnum & _ & Hnone) & _).
  unfold dropna in H. inv_bind H. inv_Ok H.
  rewrite (getitem_loc_mask _ _ _ _ Hdates) in Hd. simpl in Hd.
  injection Hd as <-.
  rewrite (getitem_loc_mask _ _ _ _ Hp0) in Hp. injection Hp as <-.
  destruct (numeric_values_is_numeric p0 Hnum) as [vals0 Hvals0].
  rewrite (PriceFacts.numeric_values_select _ _ _ Hvals0) in Hvals.
  injection Hvals as <-.
  simpl. rewrite Hidx, index_relabel. simpl. split.
  - intros i t Hin. apply in_zip_select in Hin.
    now apply in_zip_seq_short in Hin.
  - intros i v Hin.
    destruct (has_column "Price" (relabel (Frame.of_records data))) eqn:Hc.
    + apply in_zip_select in Hin. apply in_zip_seq_short in Hin.
      rewrite (prepare_prices _ _ _ _ E Hp0 Hvals0 Hc) in Hin.
      change (map ?f ?l) with (f <$> l) in Hin.
      rewrite list_lookup_fmap in Hin.
      destruct (price_texts data !! i) as [txt|]; simpl in Hin;
        [|discriminate].
      injection Hin as <-. eauto.
    + exfalso. destruct (Hnone eq_refl) as (l & ->). simpl in Hvals0.
      injection Hvals0 as <-.
      assert (Hv : v = None).
      { apply list_elem_of_In, elem_of_zip_r in Hin.
        rewrite select_map in Hin.
        apply list_elem_of_In in Hin.
        revert Hin. generalize (select x0 l). intros l' Hin.
        apply in_map_iff in Hin as (? & <- & _). reflexivity. }
      subst v.
      specialize (Hnn (series_select x0 (SFloat (map (fun _ => None) l)))).
      assert (Hcol : In ("Price", series_select x0 (SFloat (map (fun _ => None) l)))
                        (columns (loc_mask x0 x))).
      { apply getitem_In. now apply getitem_loc_mask. }
      specialize (Hnn Hcol). simpl in Hnn.
      apply list_elem_of_In, elem_of_zip_r, list_elem_of_In in Hin.
      rewrite List.Forall_forall in Hnn.
      specialize (Hnn false). apply (in_map (fun x : option Q =>
        match x with Some _ => true | None => false end)) in Hin.
      specialize (Hnn Hin). discriminate.
Qed.

(** X7. [load_sales_dataframe] leaves the columns under every other
    label as they are in the sheet: it keeps the column under its
    (normalised) label, and the cells of the rows it keeps are the
    cells of the sheet, each beside the position of its record. *)
Theorem load_leaves_other_columns (data : list record) (df : DataFrame)
        (c : string) :
  load_sales_dataframe data = Ok df ->
  ~ In c read_labels ->
  has_column c df = has_column c (relabel (Frame.of_records data))
  /\ sublist (cells df c) (cells (relabel (Frame.of_records data)) c).
Proof.
  unfold load_sales_dataframe.
  destruct (empty (Frame.of_records data)) eqn:He; intros H Hc.
  { inv_Ok H. apply of_records_empty in He.
    assert (Hrel : columns (relabel (Frame.of_records data)) = []).
    { destruct (columns (relabel (Frame.of_records data))) as [|[l s] cols] eqn:E;
        [reflexivity|].
      assert (Hin : In (l, s) (columns (relabel (Frame.of_records data))))
        by (rewrite E; now left).
      apply relabel_columns in Hin as (k & Hk & _). rewrite He in Hk.
      destruct Hk. }
    unfold has_column, labels, cells, getitem. rewrite He, Hrel. simpl.
    split; [reflexivity | apply sublist_nil_l]. }
  unfold clean in H. inv_bind H.
  pose proof (prepare_other _ _ _ E Hc) as Hget.
  pose proof (prepare_Ok _ _ E) as (Hidx & _).
  unfold dropna in H. inv_bind H. inv_Ok H. split.
  - rewrite has_column_loc_mask. now apply has_column_getitem.
  - unfold cells.
    destruct (getitem (loc_mask x0 x) c) as [s'|e] eqn:Es;
      [|apply sublist_nil_l].
    apply getitem_loc_mask_inv in Es as (s & Hs & ->).
    rewrite <- Hget, Hs, objects_select. simpl.
    rewrite SelectFacts.select_zip, <- Hidx. apply SelectFacts.select_sublist.
Qed.

End LoadProperties.

(** ** More on the period filter *)

Module WindowFacts.
Import Pandas PandasFacts MaskFacts MissingFacts PeriodFacts SelectFacts Vocabulary
       Terms Period.

Lemma filtered_spec df start_date end_date :
  filtered df start_date end_date
  = match getitem df "Date" with
    | Ok (SDatetime ts) =>
        Ok (loc_mask (map (in_window (to_timestamp start_date)
                                     (to_timestamp end_date)) ts) df)
    | Ok _ => Raise TypeError
    | Raise e => Raise e
    end.
Proof.
  unfold filtered.
  destruct (period_mask df start_date end_date) as [mask|e] eqn:Hm.
  - apply period_mask_spec in Hm as (ts & -> & ->). reflexivity.
  - unfold period_mask in Hm.
    destruct (getitem df "Date") as [[xs|xs|xs|ts]|e']; simpl in Hm;
      simpl; congruence.
Qed.

End WindowFacts.

Section FilterProperties.
Import Pandas PandasFacts MaskFacts MissingFacts PeriodFacts SelectFacts
       WindowFacts Vocabulary Terms Period.

(** X8. A window whose end lies before its start selects nothing:
    whatever the table, [filter_by_period] returns a table without
    rows (it does not raise, and it does not swap the bounds). *)
Theorem reversed_window_selects_nothing (df out : DataFrame)
        (start_date end_date : bound) :
  filtered df start_date end_date = Ok out ->
  (to_timestamp end_date < to_timestamp start_date)%Z ->
  index out = [] /\ empty out = true /\ labels out = labels df.
Proof.
  rewrite filtered_spec. intros H Hlt.
  destruct (getitem df "Date") as [[xs|xs|xs|ts]|e]; try discriminate.
  inv_Ok H.
  assert (Hidx : index (loc_mask (map (in_window (to_timestamp start_date)
                                         (to_timestamp end_date)) ts) df) = []).
  { simpl. apply select_none. intros [t|]; [|reflexivity]. simpl.
    apply andb_false_iff.
    destruct (Z.leb_spec (to_timestamp start_date) t); [right | now left].
    apply Z.leb_gt. lia. }
  split; [exact Hidx|]. split.
  - unfold empty. now rewrite Hidx.
  - unfold labels, loc_mask. simpl. now rewrite map_map.
Qed.

(** X9. Filtering what a wider window selected by a window inside it
    gives what filtering the table itself by the inner window gives; in
    particular filtering a result again by its own window returns it
    unchanged. *)
Theorem filtering_again_narrows (df wide : DataFrame) (a b c d : bound) :
  filtered df a b = Ok wide ->
  (to_timestamp a <= to_timestamp c)%Z ->
  (to_timestamp d <= to_timestamp b)%Z ->
  filtered wide c d = filtered df c d
  /\ filtered wide a b = Ok wide.
Proof.
  intros H Hac Hdb.
  assert (Hgen : forall c d, (to_timestamp a <= to_timestamp c)%Z ->
                             (to_timestamp d <= to_timestamp b)%Z ->
                             filtered wide c d = filtered df c d).
  { clear c d Hac Hdb. intros c d Hac Hdb.
    rewrite filtered_spec in H. rewrite (filtered_spec df c d).
    destruct (getitem df "Date") as [[xs|xs|xs|ts]|e] eqn:Hd; try discriminate.
    inv_Ok H. rewrite filtered_spec.
    rewrite (getitem_loc_mask _ _ _ _ Hd). simpl. f_equal.
    set (f := in_window (to_timestamp a) (to_timestamp b)).
    set (g := in_window (to_timestamp c) (to_timestamp d)).
    assert (Hfg : forall t, g t = true -> f t = true).
    { intros [t|]; [|discriminate]. unfold f, g. simpl.
      rewrite !andb_true_iff, !Z.leb_le. lia. }
    unfold loc_mask. simpl. f_equal.
    - now apply select_select.
    - rewrite map_map. apply map_ext. intros [l s]. simpl. f_equal.
      destruct s; simpl; f_equal; now apply select_select. }
  split; [now apply Hgen|].
  rewrite Hgen by lia. exact H.
Qed.

(** X10. In Daily mode [end_date] is [start_date] (line 151), and both
    become midnight of that day: the rows [filter_by_period] then keeps
    are exactly those stamped midnight of the chosen day; a sale of that
    day entered with a time of day is not among them. *)
Theorem daily_view_keeps_midnight_rows (ui : Main.Sidebar) (df : DataFrame)
        (ts : list (option Timestamp)) :
  Main.mode ui = "Daily" ->
  getitem df "Date" = Ok (SDatetime ts) ->
  filtered df (OnDate (Main.period ui).1) (OnDate (Main.period ui).2)
  = Ok (loc_mask (map (at_midnight (Main.first_date ui)) ts) df).
Proof.
  intros Hm Hd. unfold Main.period. rewrite Hm. simpl.
  rewrite filtered_spec, Hd. do 2 f_equal.
  apply map_ext. intros [t|]; [|reflexivity]. simpl.
  destruct (Z.eqb_spec t (midnight (Main.first_date ui))) as [-> | Hne].
  - now rewrite Z.leb_refl.
  - apply andb_false_iff.
    destruct (Z.leb_spec (midnight (Main.first_date ui)) t); [right | now left].
    apply Z.leb_gt. lia.
Qed.

(** X11. [filter_by_period] returns rows of its input, in their order
    and under their labels: the row labels of the result are a
    subsequence of the input's, the column labels are the same, and the
    cells of every column are a subsequence of the input's cells, each
    still beside its row label. *)
Theorem filter_keeps_rows_in_order (df out : DataFrame)
        (start_date end_date : bound) :
  filtered df start_date end_date = Ok out ->
  sublist (index out) (index df)
  /\ labels out = labels df
  /\ forall col, sublist (cells out col) (cells df col).
Proof.
  rewrite filtered_spec. intros H.
  destruct (getitem df "Date") as [[xs|xs|xs|ts]|e]; try discriminate.
  inv_Ok H. set (m := map _ ts). split; [apply select_sublist|].
  split; [unfold labels, loc_mask; simpl; now rewrite map_map|].
  intros col. unfold cells.
  destruct (getitem (loc_mask m df) col) as [s'|e] eqn:Es;
    [|apply sublist_nil_l].
  apply getitem_loc_mask_inv in Es as (s & -> & ->).
  rewrite objects_select. simpl. rewrite select_zip. apply select_sublist.
Qed.

End FilterProperties.

(** ** What a group holds *)

Module AggFacts.
Import Pandas GroupBy Insights Vocabulary Terms.

Lemma sum_skipna_cons v vals :
  (sum_skipna (v :: vals) == price_of v + sum_skipna vals)%Q.
Proof. unfold sum_skipna. simpl. destruct v; simpl; ring. Qed.

Lemma priced_cons v vals :
  priced (v :: vals)
  = (match v with Some _ => 1 | None => 0 end) + priced vals.
Proof. unfold priced. simpl. destruct v; reflexivity. Qed.

Lemma count_sum_perm {K} (a b : list (group K)) :
  Permutation a b -> count_sum a = count_sum b.
Proof.
  induction 1 as [|g a b _ IH|g h a|a b c _ IH1 _ IH2]; simpl;
    unfold count_sum in *; simpl; lia.
Qed.

Section Keyed.
Context {K : Type} (cmp : K -> K -> comparison) (same : K -> K -> bool).
Hypothesis same_eq : forall a b, same a b = true <-> a = b.
Hypothesis cmp_eq : forall a b, cmp a b = Eq <-> a = b.
Hypothesis cmp_trans : forall a b c, cmp a b = Lt -> cmp b c = Lt -> cmp a c = Lt.
Hypothesis cmp_gt : forall a b, cmp a b = Gt -> cmp b a = Lt.

Local Abbreviation before := (fun g h : group K => cmp (gkey g) (gkey h) = Lt).

Lemma lt_neq a b : cmp a b = Lt -> a <> b.
Proof. intros H ->. assert (E : cmp b b = Eq) by now apply cmp_eq. congruence. Qed.

Lemma same_refl a : same a a = true.
Proof. now apply same_eq. Qed.

Lemma same_neq a b : a <> b -> same a b = false.
Proof.
  intros H. destruct (same a b) eqn:E; [|reflexivity].
  apply same_eq in E. contradiction.
Qed.

Lemma upsert_before k v gs g0 :
  cmp (gkey g0) k = Lt -> Forall (before g0) gs ->
  Forall (before g0) (upsert cmp k v gs).
Proof.
  intros Hk. induction 1 as [|g gs Hg Hgs IH]; simpl.
  - repeat constructor. exact Hk.
  - destruct (cmp k (gkey g)); repeat constructor; auto.
Qed.

Lemma upsert_ordered k v gs :
  StronglySorted before gs -> StronglySorted before (upsert cmp k v gs).
Proof.
  induction 1 as [|g gs Hgs IH Hg]; simpl.
  - repeat constructor.
  - destruct (cmp k (gkey g)) eqn:E.
    + constructor; [exact Hgs | exact Hg].
    + constructor; [constructor; assumption|].
      constructor; [exact E|].
      eapply Forall_impl; [exact Hg|]. intros h Hh.
      simpl in *. eapply cmp_trans; eauto.
    + constructor; [exact IH|].
      apply upsert_before; [now apply cmp_gt | exact Hg].
Qed.


Lemma upsert_keys_iff k v gs k' :
  In k' (map gkey (upsert cmp k v gs)) <-> k' = k \/ In k' (map gkey gs).
Proof.
  induction gs as [|g gs IH]; simpl.
  - intuition.
  - destruct (cmp k (gkey g)) eqn:E; simpl.
    + apply cmp_eq in E. intuition congruence.
    + intuition.
    + rewrite IH. intuition.
Qed.

(** Where a group of [upsert k v gs] comes from. *)
Lemma upsert_in k v gs g' :
  StronglySorted before gs -> In g' (upsert cmp k v gs) ->
  (gkey g' = k
   /\ ((exists g0, In g0 gs /\ gkey g0 = k /\ g' = add_row v g0)
       \/ ((forall g0, In g0 gs -> gkey g0 <> k) /\ g' = open_group k v)))
  \/ (gkey g' <> k /\ In g' gs).
Proof.
  induction 1 as [|g gs Hgs IH Hg]; simpl.
  - intros [<- | []]. left. split; [reflexivity|]. right. split; [tauto | reflexivity].
  - rewrite List.Forall_forall in Hg.
    destruct (cmp k (gkey g)) eqn:E.
    + apply cmp_eq in E. intros [<- | Hin].
      * left. split; [now symmetry|]. left. exists g. auto.
      * right. split; [|now right]. subst k.
        intros Heq. apply (lt_neq _ _ (Hg _ Hin)). now symmetry.
    + assert (Hall : forall g0, In g0 (g :: gs) -> gkey g0 <> k).
      { intros g0 [<- | Hin] Heq.
        - apply (lt_neq _ _ E). now symmetry.
        - apply (lt_neq k (gkey g0)); [|now symmetry].
          eapply cmp_trans; [exact E | exact (Hg _ Hin)]. }
      intros [<- | Hin].
      * left. split; [reflexivity|]. right. split; [exact Hall | reflexivity].
      * right. split; [now apply Hall | exact Hin].
    + intros [<- | Hin].
      * right. split; [|now left]. intros Heq.
        apply cmp_gt in E. apply (lt_neq _ _ E). exact Heq.
      * destruct (IH Hin) as [[Hk [(g0 & Hg0 & Hk0 & ->) | [Hno ->]]] | [Hne Hin']].
        -- left. split; [exact Hk|]. left. exists g0. auto.
        -- left. split; [reflexivity|]. right. split; [|reflexivity].
           intros g0 [<- | Hg0]; [|now apply Hno].
           intros Heq. apply cmp_gt in E. apply (lt_neq _ _ E). exact Heq.
        -- right. split; [exact Hne | now right].
Qed.

(** Every group of the aggregate holds the sum and the number of the
    prices of its key, on top of what the group held before. *)
Lemma agg_from_spec acc keys vals g :
  StronglySorted before acc -> In g (agg_from cmp acc keys vals) ->
  (exists g0, In g0 acc /\ gkey g0 = gkey g
     /\ (gsum g == gsum g0 + sum_skipna (prices_of same (gkey g) keys vals))%Q
     /\ gcount g = gcount g0 + priced (prices_of same (gkey g) keys vals))
  \/ ((forall g0, In g0 acc -> gkey g0 <> gkey g)
      /\ (gsum g == sum_skipna (prices_of same (gkey g) keys vals))%Q
      /\ gcount g = priced (prices_of same (gkey g) keys vals)).
Proof.
  revert acc vals. induction keys as [|k keys IH]; intros acc vals Hs Hin.
  - simpl in Hin. left. exists g. simpl.
    repeat split; [exact Hin | unfold sum_skipna; simpl; ring | unfold priced; simpl; lia].
  - destruct vals as [|v vals].
    + simpl in Hin. left. exists g. simpl.
      repeat split; [exact Hin | unfold sum_skipna; simpl; ring | unfold priced; simpl; lia].
    + destruct k as [k|]; [|exact (IH acc vals Hs Hin)].
      simpl in Hin.
      destruct (IH _ vals (upsert_ordered k v acc Hs) Hin)
        as [(g0' & Hg0' & Hk & Hsum & Hcount) | (Hno & Hsum & Hcount)].
      * destruct (upsert_in k v acc g0' Hs Hg0')
          as [[Hk' [(g0 & Hg0 & Hk0 & ->) | [Hnone ->]]] | [Hne Hin']].
        -- assert (Hg : gkey g = k) by (rewrite <- Hk; exact Hk').
           left. exists g0. rewrite Hg in *. cbn [prices_of].
           rewrite same_refl, sum_skipna_cons, priced_cons.
           split; [exact Hg0|]. split; [exact Hk0|]. split.
           ++ rewrite Hsum. destruct v; simpl; ring.
           ++ rewrite Hcount. destruct v; simpl; lia.
        -- assert (Hg : gkey g = k) by (rewrite <- Hk; reflexivity).
           right. rewrite Hg in *. cbn [prices_of].
           rewrite same_refl, sum_skipna_cons, priced_cons.
           split; [exact Hnone|]. split.
           ++ rewrite Hsum. destruct v; simpl; ring.
           ++ rewrite Hcount. destruct v; simpl; lia.
        -- left. exists g0'. cbn [prices_of].
           rewrite (same_neq (gkey g) k) by congruence.
           repeat split; assumption.
      * right. cbn [prices_of].
        assert (Hne : gkey g <> k).
        { intros Heq.
          assert (Hk : In k (map gkey (upsert cmp k v acc)))
            by (apply upsert_keys_iff; now left).
          apply in_map_iff in Hk as (g0 & Hk0 & Hg0).
          apply (Hno g0 Hg0). congruence. }
        rewrite (same_neq _ _ Hne). repeat split; [|assumption..].
        intros g0 Hg0. apply (in_map gkey) in Hg0 as Hk0.
        assert (Hk1 : In (gkey g0) (map gkey (upsert cmp k v acc)))
          by (apply upsert_keys_iff; now right).
        apply in_map_iff in Hk1 as (g1 & Hk1 & Hg1).
        rewrite <- Hk1. now apply Hno.
Qed.

Lemma agg_spec keys vals g :
  In g (agg cmp keys vals) ->
  (gsum g == sum_skipna (prices_of same (gkey g) keys vals))%Q
  /\ gcount g = priced (prices_of same (gkey g) keys vals).
Proof.
  intros Hin. unfold agg in Hin.
  apply agg_from_spec in Hin as [(g0 & [] & _) | (_ & Hsum & Hcount)];
    [auto | constructor].
Qed.

(** The keys of the aggregate are the keys of the rows. *)
Lemma agg_from_keys acc keys vals k :
  In k (map gkey (agg_from cmp acc keys vals))
  <-> In k (map gkey acc) \/ exists v, In (Some k, v) (zip keys vals).
Proof.
  revert acc vals. induction keys as [|k0 keys IH]; intros acc vals.
  - simpl. split; [auto | intros [H | [v []]]; exact H].
  - destruct vals as [|v vals].
    + simpl. split; [auto | intros [H | [v []]]; exact H].
    + simpl. rewrite IH. destruct k0 as [k0|].
      * rewrite upsert_keys_iff. split.
        -- intros [[-> | H] | [w H]]; eauto.
        -- intros [H | [w [H | H]]]; eauto. inversion H; subst. auto.
      * split.
        -- intros [H | [w H]]; eauto.
        -- intros [H | [w [H | H]]]; eauto. discriminate.
Qed.

Lemma count_sum_upsert k v gs :
  count_sum (upsert cmp k v gs)
  = count_sum gs + match v with Some _ => 1 | None => 0 end.
Proof.
  induction gs as [|g gs IH]; simpl.
  - unfold count_sum. simpl. destruct v; lia.
  - destruct (cmp k (gkey g)); unfold count_sum in *; simpl.
    + destruct v; simpl; lia.
    + destruct v; simpl; lia.
    + rewrite IH. lia.
Qed.

Lemma count_sum_agg_from acc names vals :
  length names = length vals ->
  count_sum (agg_from cmp acc (map Some names) vals)
  = count_sum acc + priced vals.
Proof.
  revert acc vals. induction names as [|n names IH]; intros acc [|v vals] Hlen;
    try discriminate; simpl.
  - unfold priced. simpl. lia.
  - rewrite IH by (simpl in Hlen; lia).
    rewrite count_sum_upsert, priced_cons. lia.
Qed.

End Keyed.

(** The two orders in use: labels and days. *)
Lemma string_same_eq a b : String.eqb a b = true <-> a = b.
Proof. apply String.eqb_eq. Qed.

Lemma string_cmp_eq a b : String.compare a b = Eq <-> a = b.
Proof.
  split; [apply String.compare_eq_iff|].
  intros ->. apply InsightFacts.compare_refl_eq.
Qed.

Lemma day_same_eq a b : Z.eqb a b = true <-> a = b.
Proof. apply Z.eqb_eq. Qed.

Lemma day_cmp_eq a b : Z.compare a b = Eq <-> a = b.
Proof. apply Z.compare_eq_iff. Qed.

Lemma day_cmp_trans a b c :
  Z.compare a b = Lt -> Z.compare b c = Lt -> Z.compare a c = Lt.
Proof. rewrite !Z.compare_lt_iff. lia. Qed.

Lemma day_cmp_gt a b : Z.compare a b = Gt -> Z.compare b a = Lt.
Proof. rewrite Z.compare_gt_iff, Z.compare_lt_iff. lia. Qed.



Lemma notna_all_some (ts : list (option Timestamp)) :
  Forall (eq true) (notna (SDatetime ts)) -> exists l, ts = map Some l.
Proof.
  induction ts as [|t ts IH]; simpl; intros H.
  - exists []. reflexivity.
  - inversion H as [|? ? Ht Hts]; subst. destruct t as [t|]; [|discriminate].
    destruct (IH Hts) as [l ->]. exists (t :: l). reflexivity.
Qed.

Lemma priced_all vals :
  Forall (fun v : option Q => v <> None) vals -> priced vals = length vals.
Proof.
  induction 1 as [|v vals Hv _ IH]; [reflexivity|].
  rewrite priced_cons, IH. destruct v; [reflexivity | congruence].
Qed.

End AggFacts.

Section SummaryProperties.
Context {B : Backend}.
Import Pandas PandasFacts Vocabulary Terms SummaryFacts SortFacts GroupFacts
       AggFacts Insights.



(** X15. The [transactions] of a breakdown add up to the number of rows
    that have a price, hence to [num_transactions] when no row lacks
    its price: with text in the column, every priced row is counted in
    exactly one group, for [by_method] as for [by_barber]. *)
Theorem breakdown_counts_every_priced_row (spec : BackendSpec B)
        (df : DataFrame) (s : Summaries) (col : string)
        (t : list (group string)) (names : list string)
        (vals : list (option Q)) :
  compute_summaries df = Ok s ->
  (col = "Barber Name" /\ by_barber s = Some t)
  \/ (col = "Payment Method" /\ by_method s = Some t) ->
  well_formed df ->
  names_are df col names ->
  prices_are df vals ->
  count_sum t = priced vals
  /\ (Forall (fun v => v <> None) vals -> count_sum t = num_transactions s).
Proof.
  intros Hs Hcol Hwf (k & Hk & Hnames) (p & Hp & Hvals).
  apply compute_summaries_Ok in Hs as (Htotal & Hb & Hm & _ & Hnum).
  assert (Hbr : breakdown df col = Ok (Some t)).
  { destruct Hcol as [[-> Ht] | [-> Ht]]; rewrite Ht in *; assumption. }
  apply breakdown_Some in Hbr as (k' & p' & keys & vals' & Hk' & Hp' & Hkeys & Hvals' & ->).
  rewrite Hk in Hk'. injection Hk' as <-.
  rewrite Hp in Hp'. injection Hp' as <-.
  rewrite Hnames in Hkeys. injection Hkeys as <-.
  rewrite Hvals in Hvals'. injection Hvals' as <-.
  assert (Hlen : length names = length vals).
  { apply text_values_length in Hnames. rewrite length_map in Hnames.
    apply numeric_values_length in Hvals as Hl.
    rewrite Hnames, Hl.
    rewrite (well_formed_getitem _ _ _ Hwf Hk).
    now rewrite (well_formed_getitem _ _ _ Hwf Hp). }
  set (grouped := GroupBy.agg String.compare (map Some names) vals).
  pose proof (sort_values_desc_perm spec gsum grouped) as Hperm.
  assert (Hcount : count_sum (Sorting.sort_values_desc gsum grouped) = priced vals).
  { rewrite (count_sum_perm _ _ Hperm). unfold grouped, GroupBy.agg.
    rewrite count_sum_agg_from by exact Hlen. reflexivity. }
  split; [exact Hcount|].
  intros Hall. rewrite Hcount, Hnum, (priced_all _ Hall). unfold len.
  apply numeric_values_length in Hvals. rewrite Hvals.
  apply (well_formed_getitem _ _ _ Hwf Hp).
Qed.

End SummaryProperties.

(** ** Amounts as [format_currency] prints them *)

Module MoneyFacts.
Import PyStr Numeric Format Terms.

Local Abbreviation digit_char d := (ascii_of_nat (48 + Z.to_nat d)).
Local Abbreviation digit_string ds :=
  (string_of_list_ascii (map (fun d : Z => ascii_of_nat (48 + Z.to_nat d)) ds)).
Local Abbreviation is_digit_value := (fun d : Z => (0 <= d < 10)%Z).

Lemma ten_cases (d : Z) :
  (0 <= d < 10)%Z ->
  d = 0%Z \/ d = 1%Z \/ d = 2%Z \/ d = 3%Z \/ d = 4%Z \/ d = 5%Z
  \/ d = 6%Z \/ d = 7%Z \/ d = 8%Z \/ d = 9%Z.
Proof. lia. Qed.

Lemma digit_char_spec (d : Z) :
  (0 <= d < 10)%Z ->
  is_digit (digit_char d) = true
  /\ digit_value (digit_char d) = d
  /\ is_price_char (digit_char d) = true
  /\ Ascii.eqb (digit_char d) "-" = false
  /\ pretty_N_char (Z.to_N d) = digit_char d.
Proof.
  intros H. apply ten_cases in H.
  repeat (destruct H as [-> | H]; [vm_compute; auto 10|]).
  subst. vm_compute. auto 10.
Qed.

Lemma append_cons c (a b : string) : String c a ++ b = String c (a ++ b).
Proof. reflexivity. Qed.

Lemma append_nil_l (b : string) : "" ++ b = b.
Proof. reflexivity. Qed.

Lemma string_of_list_app (a b : list ascii) :
  string_of_list_ascii (a ++ b)%list
  = string_of_list_ascii a ++ string_of_list_ascii b.
Proof.
  induction a as [|c a IH]; [reflexivity|].
  simpl. rewrite append_cons. f_equal. exact IH.
Qed.

Lemma digit_string_app (a b : list Z) :
  digit_string (a ++ b)%list = digit_string a ++ digit_string b.
Proof. rewrite map_app. apply string_of_list_app. Qed.

Lemma append_assoc (a b c : string) : (a ++ b) ++ c = a ++ (b ++ c).
Proof.
  induction a as [|x a IH]; [reflexivity|].
  rewrite !append_cons. now rewrite IH.
Qed.

Lemma append_nil_r (a : string) : a ++ "" = a.
Proof.
  induction a as [|x a IH]; [reflexivity|].
  rewrite append_cons. now rewrite IH.
Qed.

Lemma digits_value_snoc ds d :
  digits_value (ds ++ [d])%list = (10 * digits_value ds + d)%Z.
Proof. unfold digits_value. now rewrite fold_left_app. Qed.

(** The decimal digits of a number, as [pretty] writes them. *)
Lemma pretty_go_digits (x : N) (s : string) :
  exists ds, pretty_N_go x s = digit_string ds ++ s
             /\ Forall is_digit_value ds
             /\ digits_value ds = Z.of_N x
             /\ ((0 < x)%N -> ds <> []).
Proof.
  revert s. induction (N.lt_wf_0 x) as [x _ IH]; intros s.
  destruct (N.eq_dec x 0%N) as [-> | Hx].
  - exists []. rewrite pretty_N_go_0. repeat split; [constructor | lia].
  - assert (Hpos : (0 < x)%N) by lia.
    rewrite pretty_N_go_step by exact Hpos.
    destruct (IH (x / 10)%N (N.div_lt x 10 Hpos eq_refl)
                 (String (pretty_N_char (x mod 10)) s))
      as (ds & -> & Hall & Hval & _).
    assert (Hd : (0 <= Z.of_N (x mod 10) < 10)%Z).
    { pose proof (N.mod_lt x 10 ltac:(discriminate)) as Hlt.
      split; [apply N2Z.is_nonneg|].
      change 10%Z with (Z.of_N 10). now apply N2Z.inj_lt. }
    exists (ds ++ [Z.of_N (x mod 10)])%list. split; [|split; [|split]].
    + rewrite digit_string_app, append_assoc. simpl.
      destruct (digit_char_spec _ Hd) as (_ & _ & _ & _ & Hc).
      rewrite N2Z.id in Hc. now rewrite Hc.
    + apply Forall_app. split; [exact Hall | repeat constructor; lia].
    + rewrite digits_value_snoc, Hval.
      rewrite (N.div_mod x 10) at 3 by lia. lia.
    + intros _ E. apply app_eq_nil in E as [_ E]. discriminate.
Qed.

Lemma pretty_Z_digits (z : Z) :
  (0 <= z)%Z ->
  exists ds, pretty z = digit_string ds
             /\ Forall is_digit_value ds
             /\ digits_value ds = z
             /\ ds <> [].
Proof.
  intros Hz. destruct z as [|p|p]; [| |lia].
  - exists [0%Z]. repeat split; [repeat constructor; lia | discriminate].
  - destruct (pretty_go_digits (Npos p) "") as (ds & Hs & Hall & Hval & Hne).
    exists ds. unfold pretty, pretty_Z, pretty, pretty_positive, pretty, pretty_N.
    rewrite decide_False by discriminate. rewrite Hs, append_nil_r.
    repeat split; [exact Hall | exact Hval | apply Hne; lia].
Qed.

(** Reading digits back. *)
Lemma span_digit_string ds r :
  Forall is_digit_value ds ->
  span_digits r = ([], r) ->
  span_digits (digit_string ds ++ r) = (ds, r).
Proof.
  intros Hall Hr. induction Hall as [|d ds Hd _ IH]; [exact Hr|].
  cbn [map string_of_list_ascii]. rewrite append_cons.
  destruct (digit_char_spec d Hd) as (Hdig & Hval & _).
  cbn [span_digits]. rewrite Hdig, IH, Hval. reflexivity.
Qed.

Lemma keep_app p (a b : string) : keep p (a ++ b) = keep p a ++ keep p b.
Proof.
  induction a as [|c a IH]; [reflexivity|].
  rewrite append_cons. cbn [keep]. destruct (p c).
  - rewrite append_cons. now rewrite IH.
  - exact IH.
Qed.

Lemma keep_list p (l : list ascii) :
  keep p (string_of_list_ascii l) = string_of_list_ascii (List.filter p l).
Proof.
  induction l as [|c l IH]; [reflexivity|]. cbn [string_of_list_ascii keep List.filter].
  destruct (p c); cbn [string_of_list_ascii]; now rewrite IH.
Qed.

Lemma filter_commas p (l : list ascii) n :
  Forall (fun c => p c = true) l -> p ","%char = false ->
  List.filter p (commas_rev l n) = l.
Proof.
  intros Hall Hc. revert n. induction Hall as [|d l Hd _ IH]; intros n;
    [reflexivity|].
  cbn [commas_rev].
  destruct n as [|[|[|n]]]; try (cbn [List.filter]; rewrite Hd, IH; reflexivity).
  destruct l as [|e l]; cbn [List.filter]; rewrite Hd.
  - reflexivity.
  - rewrite Hc. now rewrite IH.
Qed.

Lemma filter_all {A} (p : A -> bool) (l : list A) :
  Forall (fun c => p c = true) l -> List.filter p l = l.
Proof.
  induction 1 as [|c l Hc _ IH]; [reflexivity|]. simpl. now rewrite Hc, IH.
Qed.

Lemma digit_chars_priced ds :
  Forall is_digit_value ds ->
  Forall (fun c => is_price_char c = true)
         (map (fun d : Z => digit_char d) ds).
Proof.
  intros H. apply Forall_map. eapply Forall_impl; [exact H|].
  intros d Hd. now destruct (digit_char_spec d Hd) as (_ & _ & Hp & _).
Qed.

Lemma keep_digit_string ds :
  Forall is_digit_value ds ->
  keep is_price_char (digit_string ds) = digit_string ds.
Proof.
  intros H. rewrite keep_list. f_equal. apply filter_all.
  now apply digit_chars_priced.
Qed.

(** The price cleaning undoes the thousands separators. *)
Lemma keep_thousands ds :
  Forall is_digit_value ds ->
  keep is_price_char (thousands (digit_string ds)) = digit_string ds.
Proof.
  intros H. unfold thousands. rewrite keep_list.
  rewrite list_ascii_of_string_of_list_ascii, filter_rev.
  rewrite filter_commas; [now rewrite rev_involutive | | reflexivity].
  apply Forall_rev. now apply digit_chars_priced.
Qed.

(** Two decimals, with a leading zero where needed. *)
Lemma pad_two (m : Z) :
  (0 <= m < 100)%Z ->
  pad_zeros 2 (pretty m) = digit_string [(m / 10)%Z; (m mod 10)%Z].
Proof.
  intros Hm.
  assert (Hq : (0 <= m / 10 < 10)%Z) by (split; [apply Z.div_pos | apply Z.div_lt_upper_bound]; lia).
  assert (Hr : (0 <= m mod 10 < 10)%Z) by (apply Z.mod_pos_bound; lia).
  assert (Hsum : m = (10 * (m / 10) + m mod 10)%Z) by (apply Z.div_mod; lia).
  apply ten_cases in Hq. apply ten_cases in Hr.
  rewrite Hsum at 1.
  repeat (destruct Hq as [-> | Hq];
          [repeat (destruct Hr as [-> | Hr]; [vm_compute; reflexivity|]);
           rewrite Hr; vm_compute; reflexivity|]).
  rewrite Hq.
  repeat (destruct Hr as [-> | Hr]; [vm_compute; reflexivity|]).
  rewrite Hr. vm_compute. reflexivity.
Qed.

(** Rounding to the nearest integer moves a nonnegative number by at
    most one half. *)
Lemma round_half_even_bound (n : Z) (d : positive) :
  (0 <= n)%Z ->
  (0 <= round_half_even (n # d))%Z
  /\ (Z.abs (2 * round_half_even (n # d) * Zpos d - 2 * n) <= Zpos d)%Z.
Proof.
  intros Hn. unfold round_half_even. cbn [Qnum Qden].
  pose proof (Z.div_mod n (Zpos d) ltac:(lia)) as Hdm.
  pose proof (Z.mod_pos_bound n (Zpos d) ltac:(lia)) as Hm.
  assert (Hfl : (0 <= n / Zpos d)%Z) by (apply Z.div_pos; lia).
  set (fl := (n / Zpos d)%Z) in *. set (m := (n mod Zpos d)%Z) in *.
  destruct (Z.ltb_spec (2 * m) (Zpos d)); [split; [lia | nia]|].
  destruct (Z.ltb_spec (Zpos d) (2 * m)); [split; [lia | nia]|].
  destruct (Z.even fl); split; try lia; nia.
Qed.

Lemma fixed_two (q : Q) :
  fixed true 2 q
  = (if Qlt_le_dec q 0 then "-" else "")
    ++ thousands (pretty (round_half_even (Qabs q * inject_Z 100) / 100)%Z)
    ++ "."
    ++ pad_zeros 2 (pretty (round_half_even (Qabs q * inject_Z 100) mod 100)%Z).
Proof. reflexivity. Qed.

(** What the price cleaning and [pd.to_numeric] make of a printed
    amount: the amount in hundredths. *)
Lemma read_fixed_two (q : Q) :
  read_amount ("OMR " ++ fixed true 2 q)
  = Some ((if Qlt_le_dec q 0
           then - round_half_even (Qabs q * inject_Z 100)
           else round_half_even (Qabs q * inject_Z 100))%Z # 100).
Proof.
  rewrite fixed_two.
  set (scaled := round_half_even (Qabs q * inject_Z 100)).
  assert (Hs : (0 <= scaled)%Z).
  { unfold scaled. destruct (Qabs q * inject_Z 100)%Q as [n d] eqn:E.
    apply round_half_even_bound.
    assert (H0 : (0 <= Qabs q * inject_Z 100)%Q).
    { apply Qmult_le_0_compat; [apply Qabs_nonneg | discriminate]. }
    rewrite E in H0. unfold Qle in H0. simpl in H0. lia. }
  destruct (pretty_Z_digits (scaled / 100)%Z) as (dip & Hip & Hall & Hval & Hne);
    [apply Z.div_pos; lia|].
  assert (Hm : (0 <= scaled mod 100 < 100)%Z) by (apply Z.mod_pos_bound; lia).
  rewrite (pad_two _ Hm), Hip.
  set (f1 := ((scaled mod 100) / 10)%Z). set (f2 := ((scaled mod 100) mod 10)%Z).
  assert (Hf : Forall is_digit_value [f1; f2]).
  { repeat constructor; unfold f1, f2;
      try (apply Z.div_pos; lia); try (apply Z.div_lt_upper_bound; lia);
      apply Z.mod_pos_bound; lia. }
  assert (Hclean : forall sign,
            keep is_price_char sign = sign ->
            strip_non_price ("OMR " ++ sign ++ thousands (digit_string dip)
                             ++ "." ++ digit_string [f1; f2])
            = sign ++ digit_string dip ++ String "." (digit_string [f1; f2])).
  { intros sign Hsign. unfold strip_non_price. rewrite !keep_app.
    rewrite Hsign, (keep_thousands _ Hall), (keep_digit_string _ Hf).
    reflexivity. }
  assert (Hparse : forall neg,
            parse_unsigned neg (digit_string dip ++ String "." (digit_string [f1; f2]))
            = Some (NFloat (apply_sign neg scaled # 100))).
  { intros neg. unfold parse_unsigned.
    rewrite (span_digit_string dip _ Hall) by reflexivity.
    cbn [Ascii.eqb Bool.eqb]. 
    rewrite <- (append_nil_r (digit_string [f1; f2])).
    rewrite (span_digit_string _ "" Hf) by reflexivity.
    destruct dip as [|d dip]; [congruence|].
    assert (Hv : digits_value ((d :: dip) ++ [f1; f2])%list = scaled).
    { change ((d :: dip) ++ [f1; f2])%list
        with ((d :: dip) ++ [f1] ++ [f2])%list.
      rewrite app_assoc, !digits_value_snoc, Hval. unfold f1, f2.
      pose proof (Z.div_mod scaled 100 ltac:(lia)).
      pose proof (Z.div_mod (scaled mod 100) 10 ltac:(lia)). lia. }
    cbn [app] in Hv. cbn [app length pow10]. rewrite Hv. reflexivity. }
  unfold read_amount.
  destruct (Qlt_le_dec q 0).
  - rewrite (Hclean "-") by reflexivity. rewrite append_cons, append_nil_l.
    cbn [parse Ascii.eqb Bool.eqb]. rewrite Hparse. reflexivity.
  - rewrite (Hclean "") by reflexivity. rewrite append_nil_l.
    destruct dip as [|d dip]; [congruence|].
    inversion Hall as [|? ? Hd Hrest]; subst.
    destruct (digit_char_spec d Hd) as (_ & _ & _ & Hdash & _).
    cbn [map string_of_list_ascii]. rewrite append_cons.
    cbn [parse]. rewrite Hdash.
    rewrite <- append_cons.
    change (String (digit_char d) (digit_string dip))
      with (digit_string (d :: dip)).
    rewrite Hparse. reflexivity.
Qed.

End MoneyFacts.

Section MoneyProperties.
Import Terms MoneyFacts.

(** X16. What [format_currency] prints reads back as the amount: the
    price cleaning of line 48 takes the letters and the thousands
    separators away again, and [pd.to_numeric] then reads a number of
    hundredths that lies within half a hundredth of the amount that
    was formatted. *)
Theorem format_currency_reads_back (q : Q) :
  exists z : Z,
    read_amount (format_currency q) = Some (z # 100)
    /\ (Qabs ((z # 100) - q) <= 1 # 200)%Q.
Proof.
  unfold format_currency. rewrite read_fixed_two.
  eexists. split; [reflexivity|].
  destruct q as [n d].
  assert (Hscaled : (Qabs (n # d) * inject_Z 100)%Q = (Z.abs n * 100 # d * 1)).
  { reflexivity. }
  rewrite Hscaled. rewrite Pos.mul_1_r.
  destruct (round_half_even_bound (Z.abs n * 100) d ltac:(lia))
    as [H0 Hb].
  set (r := Format.round_half_even (Z.abs n * 100 # d)) in *.
  destruct (Qlt_le_dec (n # d) 0) as [Hneg | Hpos].
  - assert (Hn : (n < 0)%Z) by (unfold Qlt in Hneg; simpl in Hneg; lia).
    unfold Qabs, Qminus, Qplus, Qopp, Qle. simpl.
    rewrite Pos2Z.inj_mul. lia.
  - assert (Hn : (0 <= n)%Z) by (unfold Qle in Hpos; simpl in Hpos; lia).
    unfold Qabs, Qminus, Qplus, Qopp, Qle. simpl.
    rewrite Pos2Z.inj_mul. lia.
Qed.

End MoneyProperties.

(** ** The ascending sort of the day-of-week means *)

Module TrendFacts.
Import Pandas PandasFacts Vocabulary Terms Insights GroupBy Sorting SortFacts
       AggFacts.

Lemma take_app {A} (i1 i2 : list nat) (rows : list A) :
  take (i1 ++ i2) rows = (take i1 rows ++ take i2 rows)%list.
Proof. rewrite !take_omap. apply omap_app. Qed.

Lemma in_take {A} (idx : list nat) (rows : list A) x :
  In x (take idx rows) <-> exists i, In i idx /\ rows !! i = Some x.
Proof.
  rewrite take_omap, <- list_elem_of_In, list_elem_of_omap.
  setoid_rewrite list_elem_of_In. reflexivity.
Qed.

Lemma take_valid {A} (idx : list nat) (rows : list A) :
  idx <> [] -> Forall (fun i => i < length rows) idx -> take idx rows <> [].
Proof.
  intros Hne Hall. destruct idx as [|i idx]; [congruence|].
  inversion Hall as [|? ? Hi _]; subst. simpl.
  destruct (lookup_lt_is_Some_2 rows i Hi) as [x ->]. discriminate.
Qed.

Lemma take_positions (idx : list nat) n :
  Forall (fun i => i < n) idx -> take idx (seq 0 n) = idx.
Proof.
  induction 1 as [|i idx Hi _ IH]; [reflexivity|]. simpl.
  rewrite lookup_seq_lt by exact Hi. simpl. now rewrite IH.
Qed.

Lemma last_app_tail {A} (a : list A) (b : list A) :
  b <> [] -> last (a ++ b) = last b.
Proof.
  intros Hb. destruct b as [|x b]; [congruence|].
  rewrite last_app. destruct (last (x :: b)) eqn:E; [reflexivity|].
  apply last_None in E. discriminate.
Qed.

Lemma last_in {A} (l : list A) x : last l = Some x -> In x l.
Proof. intros H. now apply list_elem_of_In, last_Some_elem_of. Qed.

Lemma all_some_values (keys : list (option Q)) :
  Forall (fun k => k <> None) keys -> keys = map Some (omap id keys).
Proof.
  induction 1 as [|k keys Hk _ IH]; [reflexivity|].
  destruct k as [q|]; [|congruence].
  change (Some q :: keys = Some q :: map Some (omap id keys)).
  f_equal. exact IH.
Qed.

Lemma sorted_head_le (l : list Q) x y :
  StronglySorted Qle (x :: l) -> In y (x :: l) -> (x <= y)%Q.
Proof.
  intros Hs [<- | Hin]; [apply Qle_refl|].
  inversion Hs as [|? ? _ Hall]; subst.
  rewrite List.Forall_forall in Hall. now apply Hall.
Qed.

Section WithSpec.
Context {B : Backend} (spec : BackendSpec B).

(** With a key in every row, the rows come out in ascending order of
    the key. *)
Lemma sort_values_asc_sorted {A} (key : A -> option Q) (rows : list A) :
  Forall (fun r => key r <> None) rows ->
  Permutation (sort_values_asc key rows) rows
  /\ exists vals, map key (sort_values_asc key rows) = map Some vals
                  /\ StronglySorted Qle vals.
Proof.
  intros Hall. unfold sort_values_asc, nargsort_asc.
  set (keys := map key rows).
  assert (Hkeys : Forall (fun k => k <> None) keys)
    by (unfold keys; now apply Forall_map).
  set (vs := omap id keys).
  assert (Hvs : keys = map Some vs) by now apply all_some_values.
  assert (Hlen : length vs = length rows).
  { apply (f_equal (@length _)) in Hvs. unfold keys in Hvs.
    rewrite !length_map in Hvs. lia. }
  assert (Hin : forall i, In i (seq 0 (length keys)) ->
            match keys !! i with Some (Some _) => true | _ => false end = true).
  { intros i Hi. apply in_seq in Hi.
    destruct (lookup_lt_is_Some_2 keys i) as [k Hk]; [lia|]. rewrite Hk.
    rewrite List.Forall_forall in Hkeys.
    assert (Hne : k <> None)
      by (apply Hkeys; apply list_elem_of_In; eapply list_elem_of_lookup_2; eauto).
    now destruct k. }
  assert (Hnon : List.filter (fun i => match keys !! i with
                                       | Some (Some _) => true
                                       | _ => false
                                       end)
                   (seq 0 (length keys)) = seq 0 (length keys)).
  { apply MoneyFacts.filter_all. apply List.Forall_forall. exact Hin. }
  assert (Hnan : List.filter (fun i => negb match keys !! i with
                                            | Some (Some _) => true
                                            | _ => false
                                            end)
                   (seq 0 (length keys)) = []).
  { erewrite List.filter_ext_in; [apply List.filter_false|].
    intros i Hi. now rewrite (Hin i Hi). }
  rewrite Hnon, Hnan, app_nil_r.
  pose proof (argsort_perm B spec vs) as Hperm.
  pose proof (perm_seq_bound _ _ Hperm) as Hbound.
  assert (Hklen : length keys = length vs)
    by (unfold keys; rewrite length_map; lia).
  rewrite Hklen, (take_positions _ _ Hbound).
  split; [apply take_perm; now rewrite <- Hlen|].
  exists (map (fun i => nth i vs 0%Q) (argsort vs)). split.
  - rewrite take_omap.
    clear Hperm. induction Hbound as [|i idx Hi _ IH]; [reflexivity|].
    simpl. rewrite Hlen in Hi.
    destruct (lookup_lt_is_Some_2 rows i Hi) as [r Hr]. rewrite Hr. simpl.
    rewrite <- take_omap in *. rewrite IH. f_equal.
    assert (Hk : keys !! i = Some (key r)).
    { unfold keys. change (map key rows) with (key <$> rows).
      now rewrite list_lookup_fmap, Hr. }
    rewrite Hvs in Hk. change (map Some vs) with (Some <$> vs) in Hk.
    rewrite list_lookup_fmap in Hk.
    destruct (vs !! i) as [v|] eqn:Ev; simpl in Hk; [|discriminate].
    inv_Ok Hk. rewrite <- Hk. f_equal. symmetry.
    now apply nth_lookup_Some with (d := 0%Q) in Ev.
  - apply Sorted_StronglySorted; [intros x y z; apply Qle_trans|].
    apply (argsort_sorted B spec).
Qed.

End WithSpec.

Lemma positive_mean_Some m : positive_mean m = true -> exists q, m = Some q /\ (0 < q)%Q.
Proof.
  destruct m as [q|]; simpl; [|discriminate].
  destruct (Qlt_le_dec 0 q); [eauto | discriminate].
Qed.

Lemma prices_of_in {K} (same : K -> K -> bool) k keys vals v :
  same k k = true -> In (Some k, v) (zip keys vals) ->
  In v (prices_of same k keys vals).
Proof.
  intros Hk. revert vals. induction keys as [|k0 keys IH]; intros [|w vals];
    simpl; try tauto.
  intros [H | H].
  - inversion H; subst. rewrite Hk. now left.
  - destruct k0 as [k0|]; [destruct (same k k0); [right|]|]; now apply IH.
Qed.

Lemma prices_of_sub {K} (same : K -> K -> bool) k keys vals v :
  In v (prices_of same k keys vals) -> In v vals.
Proof.
  revert vals. induction keys as [|k0 keys IH]; intros [|w vals]; simpl;
    try tauto.
  destruct k0 as [k0|]; [destruct (same k k0)|]; simpl; intros H.
  - destruct H as [H | H]; [now left | right; now apply IH].
  - right. now apply IH.
  - right. now apply IH.
Qed.

Lemma priced_pos vals v : In v vals -> v <> None -> 0 < priced vals.
Proof.
  induction vals as [|w vals IH]; [intros []|]. rewrite priced_cons.
  intros [-> | Hin] Hv.
  - destruct v; [lia | congruence].
  - specialize (IH Hin Hv). lia.
Qed.

Lemma sum_skipna_nonneg vals :
  Forall nonnegative vals -> (0 <= sum_skipna vals)%Q.
Proof.
  induction 1 as [|v vals Hv _ IH]; [unfold sum_skipna; simpl; lra|].
  rewrite sum_skipna_cons. destruct v as [q|]; simpl.
  - specialize (Hv q eq_refl). lra.
  - lra.
Qed.

Lemma mean_counted {K} (g : group K) :
  0 < gcount g ->
  mean g = Some (gsum g / inject_Z (Z.of_nat (gcount g)))%Q
  /\ (0 < inject_Z (Z.of_nat (gcount g)))%Q.
Proof.
  intros H. unfold mean. destruct (gcount g) as [|n] eqn:E; [lia|].
  split; [reflexivity|].
  change 0%Q with (inject_Z 0). rewrite <- Zlt_Qlt. lia.
Qed.

Lemma same_key_same_row {A C} (f : A -> C) (l : list A) a b :
  NoDup (map f l) -> In a l -> In b l -> f a = f b -> a = b.
Proof.
  induction l as [|x l IH]; [intros _ []|]. simpl. intros Hnd Ha Hb Hf.
  apply NoDup_cons in Hnd as [Hx Hnd]. rewrite list_elem_of_In in Hx.
  destruct Ha as [<- | Ha], Hb as [<- | Hb]; auto.
  - exfalso. apply Hx. rewrite Hf. now apply in_map.
  - exfalso. apply Hx. rewrite <- Hf. now apply in_map.
Qed.

Lemma drop_nonneg (a b : Q) :
  (0 < b)%Q -> (a <= b)%Q -> (0 <= (1 - a / b) * 100)%Q.
Proof.
  intros Hb Hab.
  assert (H : (a / b <= 1)%Q) by (apply Qle_shift_div_r; [exact Hb | lra]).
  lra.
Qed.

Lemma drop_at_most_all (a b : Q) :
  (0 < b)%Q -> (0 <= a)%Q -> ((1 - a / b) * 100 <= 100)%Q.
Proof.
  intros Hb Ha.
  assert (H : (0 <= a / b)%Q) by (apply Qle_shift_div_l; [exact Hb | lra]).
  lra.
Qed.

Lemma drop_of_itself (b : Q) : (0 < b)%Q -> ((1 - b / b) * 100 == 0)%Q.
Proof. intros Hb. field. intros E. rewrite E in Hb. discriminate. Qed.

Section WithBackend.
Context {B : Backend}.

(** Where the sentences of a non-empty table come from. *)
Lemma insights_of_parts (σ : gmap nat DataFrame) df table s tips :
  σ !! df = Some table -> empty table = false ->
  (insights_of df s σ).1 = Ok tips ->
  exists ts t,
    getitem table "Date" = Ok (SDatetime ts)
    /\ group_by_text (setitem table "dow" (day_names ts)) "dow" = Ok t
    /\ tips = (top_performer s ++ cash_share s
               ++ trend (sort_values_asc mean t))%list.
Proof.
  intros Hdf He. unfold insights_of, mbind, M_bind, deref, lift, assign.
  simpl. rewrite Hdf, He.
  destruct (getitem table "Date") as [d|e]; simpl; [|discriminate].
  destruct d as [xs|xs|xs|ts]; simpl; try discriminate.
  rewrite lookup_insert_eq. unfold mean_by_dow.
  destruct (group_by_text _ "dow") as [t|e] eqn:Et; simpl; [|discriminate].
  intros H. inv_Ok H. exists ts, t.
  split; [reflexivity|]. split; [exact Et|]. now rewrite <- app_assoc.
Qed.

Lemma in_top_performer s by_dow name revenue cuts :
  In (TopPerformer name revenue cuts)
     (top_performer s ++ cash_share s ++ trend by_dow)%list
  <-> top_performer s = [TopPerformer name revenue cuts].
Proof.
  rewrite !in_app_iff. split.
  - intros [H | [H | H]].
    + unfold top_performer in *.
      destruct (by_barber s) as [[|? ?]|]; simpl in H; try contradiction.
      destruct H as [H | []]. now rewrite H.
    + destruct (InsightFacts.cash_share_cases s) as [E | (sh & ca & cd & E)];
        rewrite E in *; [destruct H|].
      destruct H as [H | []]. discriminate.
    + unfold trend in H. destruct by_dow as [|first rest]; [destruct H|].
      destruct (last (first :: rest)); [|destruct H].
      destruct (positive_mean _); [|destruct H].
      destruct H as [H | []]. discriminate.
  - intros E. left. rewrite E. now left.
Qed.

Lemma in_trend s by_dow slowest drop fastest :
  In (DowTrend slowest drop fastest)
     (top_performer s ++ cash_share s ++ trend by_dow)%list
  -> exists first rest final,
       by_dow = first :: rest /\ last by_dow = Some final
       /\ positive_mean (mean final) = true
       /\ slowest = gkey first /\ fastest = gkey final
       /\ drop = drop_of (mean first) (mean final).
Proof.
  rewrite !in_app_iff. intros [H | [H | H]].
  - unfold top_performer in *.
    destruct (by_barber s) as [[|? ?]|]; simpl in H; try contradiction.
    destruct H as [H | []]. discriminate.
  - destruct (InsightFacts.cash_share_cases s) as [E | (sh & ca & cd & E)];
      rewrite E in *; [destruct H|].
    destruct H as [H | []]. discriminate.
  - unfold trend in H. destruct by_dow as [|first rest]; [destruct H|].
    destruct (last (first :: rest)) as [final|] eqn:El; [|destruct H].
    destruct (positive_mean (mean final)) eqn:Ep; [|destruct H].
    destruct H as [H | []]. inversion H; subst.
    exists first, rest, final. repeat split; assumption.
Qed.

End WithBackend.

End TrendFacts.

Section InsightProperties.
Context {B : Backend}.
Import Pandas PandasFacts Vocabulary Terms Insights GroupBy Sorting SortFacts
       GroupFacts SummaryFacts AggFacts TrendFacts.

(** X17. The top-performer sentence is there exactly when [by_barber]
    has a row, it is then the first sentence, and it names the barber
    of the first row with that row's revenue and count; in the report
    of [compute_summaries] no other barber has a larger revenue. *)
Theorem top_performer_leads (spec : BackendSpec B) (σ : gmap nat DataFrame)
        (df : nat) (table : DataFrame) (s : Summaries) (tips : list insight) :
  σ !! df = Some table ->
  empty table = false ->
  compute_summaries table = Ok s ->
  (insights_of df s σ).1 = Ok tips ->
  (forall name revenue cuts,
      In (TopPerformer name revenue cuts) tips
      <-> exists g rest, by_barber s = Some (g :: rest)
                         /\ name = gkey g /\ revenue = gsum g
                         /\ cuts = gcount g)
  /\ (forall g rest, by_barber s = Some (g :: rest) ->
        head tips = Some (TopPerformer (gkey g) (gsum g) (gcount g))
        /\ Forall (fun h => gsum h <= gsum g)%Q rest).
Proof.
  intros Hdf He Hs Htips.
  destruct (InsightFacts.insights_of_Ok σ df table s tips Hdf He Htips)
    as [by_dow ->].
  split.
  - intros name revenue cuts. rewrite in_top_performer.
    unfold top_performer. destruct (by_barber s) as [[|g rest]|]; split;
      try discriminate; try (intros (g' & rest' & Hg & _); discriminate).
    + intros H. inversion H; subst. eauto 10.
    + intros (g' & rest' & Hg & -> & -> & ->). now inv_Ok Hg.
  - intros g rest Hg. split.
    + unfold top_performer. rewrite Hg. reflexivity.
    + apply compute_summaries_Ok in Hs as (_ & Hb & _).
      rewrite Hg in Hb.
      apply breakdown_Some in Hb as (k & p & keys & vals & _ & _ & _ & _ & Ht).
      pose proof (sort_values_desc_sorted spec gsum
                    (agg String.compare keys vals)) as Hsorted.
      rewrite <- Ht in Hsorted. now inversion Hsorted.
Qed.

(** X18. On a table in which no row lacks its price, as every table the
    loader returns, the day-of-week sentence reports a percentage that
    is a number and is not negative: the slower day's mean price is at
    most the faster day's, which is positive. The percentage is at most
    100 when no price is negative, and it is 0 when the slower and the
    faster day are the same day, as they are when all rows fall on one
    day of the week. *)
Theorem trend_reports_a_drop (spec : BackendSpec B) (σ : gmap nat DataFrame)
        (df : nat) (table : DataFrame) (s : Summaries) (tips : list insight)
        (vals : list (option Q)) (slowest fastest : string) (drop : option Q) :
  σ !! df = Some table ->
  empty table = false ->
  prices_are table vals ->
  Forall (fun v => v <> None) vals ->
  (insights_of df s σ).1 = Ok tips ->
  In (DowTrend slowest drop fastest) tips ->
  exists d, drop = Some d
            /\ (0 <= d)%Q
            /\ (Forall nonnegative vals -> (d <= 100)%Q)
            /\ (slowest = fastest -> (d == 0)%Q).
Proof.
  intros Hdf He (p & Hp & Hvals) Hall Htips Hin.
  destruct (insights_of_parts σ df table s tips Hdf He Htips)
    as (ts & t & Hd & Ht & ->).
  apply in_trend in Hin
    as (first & rest & final & Hby & Hlast & Hpos & -> & -> & ->).
  unfold group_by_text in Ht.
  inv_bind Ht. inv_bind Ht. inv_bind Ht. inv_bind Ht. inv_Ok Ht.
  rewrite getitem_setitem_other in E0 by discriminate.
  rewrite Hp in E0. inv_Ok E0. rewrite Hvals in E2. inv_Ok E2.
  set (t := agg String.compare x1 x2) in *.
  assert (Hcounted : forall g, In g t ->
            0 < gcount g
            /\ (Forall nonnegative x2 -> (0 <= gsum g)%Q)).
  { intros g Hg.
    pose proof (agg_spec String.compare String.eqb string_same_eq
                  string_cmp_eq compare_lt_trans compare_gt_lt _ _ _ Hg)
      as [Hsum Hcount].
    assert (Hk : In (gkey g) (map gkey t)) by now apply in_map.
    unfold t, agg in Hk.
    apply (agg_from_keys String.compare string_cmp_eq) in Hk
      as [[] | [v Hv]].
    apply (prices_of_in String.eqb) in Hv; [|apply String.eqb_refl].
    split.
    - rewrite Hcount. eapply priced_pos; [exact Hv|].
      apply prices_of_sub in Hv.
      rewrite List.Forall_forall in Hall. now apply Hall.
    - intros Hnn. rewrite Hsum. apply sum_skipna_nonneg.
      apply List.Forall_forall. intros w Hw. apply prices_of_sub in Hw.
      rewrite List.Forall_forall in Hnn. now apply Hnn. }
  assert (Hkeys : Forall (fun g : group string => mean g <> None) t).
  { apply List.Forall_forall. intros g Hg.
    destruct (Hcounted g Hg) as [Hc _].
    destruct (mean_counted g Hc) as [-> _]. discriminate. }
  destruct (sort_values_asc_sorted spec mean t Hkeys)
    as (Hperm & vs & Hvs & Hsorted).
  rewrite Hby in Hvs, Hperm.
  assert (Hfirst : In first t)
    by (apply (Permutation_in _ Hperm); now left).
  assert (Hfinal' : In final (first :: rest))
    by (rewrite <- Hby; now apply last_in).
  assert (Hfinal : In final t) by now apply (Permutation_in _ Hperm).
  destruct (positive_mean_Some _ Hpos) as (hi & Hhi & Hhi0).
  destruct vs as [|lo vs]; [discriminate|].
  simpl in Hvs. injection Hvs as Hlo Hrest.
  assert (Hle : (lo <= hi)%Q).
  { apply (sorted_head_le vs); [exact Hsorted|].
    destruct Hfinal' as [<- | Hf]; [left; congruence|].
    right. apply (in_map mean) in Hf. rewrite Hrest, Hhi in Hf.
    apply in_map_iff in Hf as (q & Hq & Hf). now inv_Ok Hq. }
  rewrite Hlo, Hhi. simpl. eexists. split; [reflexivity|].
  split; [now apply drop_nonneg|]. split.
  - intros Hnn. apply drop_at_most_all; [exact Hhi0|].
    destruct (Hcounted first Hfirst) as [Hc Hs0].
    destruct (mean_counted first Hc) as [Hm Hn].
    rewrite Hm in Hlo. injection Hlo as <-.
    apply Qle_shift_div_l; [exact Hn|]. specialize (Hs0 Hnn). lra.
  - intros Hsame.
    assert (Heq : first = final).
    { apply (same_key_same_row gkey t); auto.
      apply InsightFacts.sorted_labels_distinct. apply agg_sorted. }
    subst final. rewrite Hlo in Hhi. injection Hhi as <-.
    now apply drop_of_itself.
Qed.

End InsightProperties.

(** ** Runs of the dashboard *)

Module RunFacts.
Import Pandas PandasFacts Vocabulary Terms StoreFacts TableFacts LabelFacts
       LoadedFacts Insights.

Lemma fresh_kept (σ : gmap nat DataFrame) l :
  is_Some (σ !! l) -> l <> fresh (dom σ).
Proof. intros [t Ht] ->. rewrite fresh_unbound in Ht. discriminate. Qed.

Section WithBackend.
Context {B : Backend}.

(** What [dashboard] computes, step by step. *)
Lemma dashboard_run (σ : gmap nat DataFrame) r mode a b loaded :
  σ !! r = Some loaded ->
  dashboard r mode a b σ
  = if empty loaded then (Ok None, σ)
    else
      match Period.filtered loaded a b with
      | Raise e => (Raise e, σ)
      | Ok out =>
          let σ1 := <[fresh (dom σ) := out]> σ in
          let r2 := fresh (dom σ1) in
          let σ2 := <[r2 := out]> σ1 in
          match compute_summaries out with
          | Raise e => (Raise e, σ2)
          | Ok s =>
              match ai_insights r2 s σ2 with
              | (Ok tips, σ3) => (Ok (Some (s, tips)), σ3)
              | (Raise e, σ3) => (Raise e, σ3)
              end
          end
      end.
Proof.
  intros Hr.
  unfold dashboard, filter_by_period, Period.filtered, mbind, M_bind,
    deref, lift, alloc, mret, M_ret.
  rewrite Hr. destruct (empty loaded); [reflexivity|]. rewrite Hr.
  destruct (Period.period_mask loaded a b) as [mask|e]; [|reflexivity].
  cbn [result_bind]. rewrite !lookup_insert_eq.
  destruct (compute_summaries (loc_mask mask loaded)) as [s|e]; [|reflexivity].
  destruct (ai_insights _ s _) as [[tips|e] σ3]; reflexivity.
Qed.

(** The sentences depend on the table and the summaries only. *)
Lemma ai_insights_value (σ σ' : gmap nat DataFrame) r r' t s :
  σ !! r = Some t -> σ' !! r' = Some t ->
  (ai_insights r s σ).1 = (ai_insights r' s σ').1.
Proof.
  intros H H'. unfold ai_insights, insights_of, mbind, M_bind, deref, lift,
    assign, mret, M_ret.
  rewrite H, H'. destruct (empty t); [reflexivity|].
  destruct (getitem t "Date") as [d|e]; [|reflexivity].
  destruct (dt d) as [ts|e]; [|reflexivity].
  rewrite !lookup_insert_eq.
  destruct (mean_by_dow _); reflexivity.
Qed.

(** [ai_insights] writes to the table it is given and to no other. *)
Lemma ai_insights_others (σ : gmap nat DataFrame) r s l :
  l <> r -> (ai_insights r s σ).2 !! l = σ !! l.
Proof.
  intros Hne. rewrite ai_insights_store.
  destruct (σ !! r) as [t|] eqn:Hr.
  - destruct (insights_of_run σ r t s Hr) as [-> | (_ & ts & _ & ->)];
      [reflexivity | now apply lookup_insert_ne].
  - unfold insights_of, mbind, M_bind, deref. now rewrite Hr.
Qed.

(** [dashboard] leaves every table the store held as it was. *)
Lemma dashboard_store (σ : gmap nat DataFrame) r mode a b l :
  is_Some (σ !! l) -> (dashboard r mode a b σ).2 !! l = σ !! l.
Proof.
  intros Hl. destruct (σ !! r) as [loaded|] eqn:Hr.
  - rewrite (dashboard_run _ _ _ _ _ _ Hr).
    destruct (empty loaded); [reflexivity|].
    destruct (Period.filtered loaded a b) as [out|e]; [|reflexivity].
    cbv zeta. set (σ1 := <[fresh (dom σ) := out]> σ).
    set (r2 := fresh (dom σ1)). set (σ2 := <[r2 := out]> σ1).
    assert (H1 : l <> fresh (dom σ)) by now apply fresh_kept.
    assert (Hl1 : σ1 !! l = σ !! l) by (unfold σ1; now rewrite lookup_insert_ne).
    assert (H2 : l <> r2) by (apply fresh_kept; now rewrite Hl1).
    assert (Hl2 : σ2 !! l = σ !! l)
      by (unfold σ2; now rewrite lookup_insert_ne).
    destruct (compute_summaries out) as [s|e]; [|exact Hl2].
    pose proof (ai_insights_others σ2 r2 s l H2) as Hl3.
    destruct (ai_insights r2 s σ2) as [[tips|e] σ3]; simpl in *; congruence.
  - unfold dashboard, mbind, M_bind, deref. now rewrite Hr.
Qed.

(** What [dashboard] returns depends on the table of the session, not
    on the rest of the store. *)
Lemma dashboard_value (σ σ' : gmap nat DataFrame) r mode a b loaded :
  σ !! r = Some loaded -> σ' !! r = Some loaded ->
  (dashboard r mode a b σ).1 = (dashboard r mode a b σ').1.
Proof.
  intros H H'.
  rewrite (dashboard_run _ _ _ _ _ _ H), (dashboard_run _ _ _ _ _ _ H').
  destruct (empty loaded); [reflexivity|].
  destruct (Period.filtered loaded a b) as [out|e]; [|reflexivity].
  cbv zeta.
  destruct (compute_summaries out) as [s|e]; [|reflexivity].
  match goal with
  | |- (match ai_insights ?r1 s ?s1 with _ => _ end).1
       = (match ai_insights ?r2 s ?s2 with _ => _ end).1 =>
      pose proof (ai_insights_value s1 s2 r1 r2 out s) as Hv;
      destruct (ai_insights r1 s s1) as [[tips|e] σ3];
      destruct (ai_insights r2 s s2) as [[tips'|e'] σ3']
  end;
  simpl in *;
  (rewrite !lookup_insert_eq in Hv; specialize (Hv eq_refl eq_refl);
   congruence).
Qed.

Lemma text_values_day_names ts :
  text_values (day_names ts) = Ok (map (option_map day_name) ts).
Proof.
  unfold day_names, text_values. induction ts as [|t ts IH]; [reflexivity|].
  simpl. simpl in IH. rewrite IH. destruct t; reflexivity.
Qed.

Lemma numeric_values_total p :
  is_numeric p -> exists vals, numeric_values p = Ok vals.
Proof. intros [[zs ->] | [qs ->]]; simpl; eauto. Qed.

(** [ai_insights] does not raise on a transaction table that has no
    [dow] column yet. *)
Lemma ai_insights_total (σ : gmap nat DataFrame) r t s :
  σ !! r = Some t -> transaction_table t -> has_column "dow" t = false ->
  exists tips, (ai_insights r s σ).1 = Ok tips.
Proof.
  intros Hr (_ & (d & Hd & [ts ->]) & (p & Hp & Hnum) & _) Hdow.
  unfold ai_insights, insights_of, mbind, M_bind, deref, lift, assign,
    mret, M_ret.
  rewrite Hr. destruct (empty t); [simpl; eauto|].
  rewrite Hd. simpl. rewrite lookup_insert_eq.
  unfold mean_by_dow, group_by_text.
  rewrite (getitem_setitem_new _ _ _ Hdow).
  rewrite getitem_setitem_other by discriminate. rewrite Hp.
  cbn [mbind result_bind]. rewrite text_values_day_names.
  destruct (numeric_values_total p Hnum) as [vals ->].
  simpl. eauto.
Qed.

Lemma filtered_total df a b :
  transaction_table df ->
  exists mask, Period.filtered df a b = Ok (loc_mask mask df).
Proof.
  intros (_ & (d & Hd & [ts ->]) & _).
  rewrite WindowFacts.filtered_spec, Hd. eauto.
Qed.

(** A table without rows is summarised without raising: no revenue, no
    transaction, no day. *)
Lemma compute_summaries_empty df :
  transaction_table df -> index df = [] ->
  compute_summaries df
  = Ok {| total_revenue := 0;
          num_transactions := 0;
          by_barber := empty_breakdown df "Barber Name";
          by_method := empty_breakdown df "Payment Method";
          by_day := [] |}.
Proof.
  intros (Hwf & (d & Hd & [ts ->]) & (p & Hp & Hnum) & Htext) Hidx.
  assert (Hts : ts = []).
  { apply length_zero_iff_nil.
    pose proof (SummaryFacts.well_formed_getitem _ _ _ Hwf Hd) as H.
    simpl in H. now rewrite H, Hidx. }
  assert (Hvals : numeric_values p = Ok []).
  { pose proof (SummaryFacts.well_formed_getitem _ _ _ Hwf Hp) as H.
    rewrite Hidx in H.
    destruct Hnum as [[zs ->] | [qs ->]]; simpl in *;
      apply length_zero_iff_nil in H; subst; reflexivity. }
  assert (Hbreak : forall col, col = "Barber Name" \/ col = "Payment Method" ->
            breakdown df col = Ok (empty_breakdown df col)).
  { intros col Hcol. unfold breakdown, empty_breakdown, group_by_text.
    destruct (has_column col df) eqn:Hc; [|reflexivity].
    destruct (Htext col Hcol Hc) as (k & Hk & [names ->]).
    rewrite Hk. simpl. rewrite Hp. simpl.
    pose proof (SummaryFacts.well_formed_getitem _ _ _ Hwf Hk) as H.
    simpl in H. rewrite length_map, Hidx in H.
    apply length_zero_iff_nil in H. subst names.
    simpl. rewrite Hvals. simpl.
    change (GroupBy.agg String.compare [] []) with (@nil (group string)).
    now rewrite SortFacts.sort_values_desc_nil. }
  unfold compute_summaries, price_total, revenue_by_day, empty, len.
  rewrite Hidx. simpl.
  rewrite !Hbreak by auto. simpl. rewrite Hd. simpl. rewrite Hp. simpl.
  rewrite Hvals. simpl. subst ts. reflexivity.
Qed.

(** What [Main.show] computes, step by step. *)
Lemma show_run (σ : gmap nat DataFrame) ui r loaded :
  σ !! r = Some loaded ->
  Main.show ui (Some r) σ
  = if empty loaded then (Ok None, σ)
    else
      match Period.filtered loaded (OnDate (Main.period ui).1)
                            (OnDate (Main.period ui).2) with
      | Raise e => (Raise e, σ)
      | Ok out =>
          let σ1 := <[fresh (dom σ) := out]> σ in
          let r2 := fresh (dom σ1) in
          let σ2 := <[r2 := out]> σ1 in
          match compute_summaries out with
          | Raise e => (Raise e, σ2)
          | Ok s =>
              match Main.st_dataframe out with
              | Raise e => (Raise e, σ2)
              | Ok _ =>
                  match ai_insights r2 s σ2 with
                  | (Ok tips, σ3) =>
                      (Ok (Some {| Main.summaries := s;
                                   Main.cards := Main.metrics s;
                                   Main.tips := tips |}), σ3)
                  | (Raise e, σ3) => (Raise e, σ3)
                  end
              end
          end
      end.
Proof.
  intros Hr.
  unfold Main.show, filter_by_period, Period.filtered, mbind, M_bind,
    deref, lift, alloc, mret, M_ret.
  rewrite Hr. destruct (empty loaded); [reflexivity|]. rewrite Hr.
  destruct (Period.period_mask loaded _ _) as [mask|e]; [|reflexivity].
  cbn [result_bind]. rewrite !lookup_insert_eq.
  destruct (compute_summaries (loc_mask mask loaded)) as [s|e]; [|reflexivity].
  destruct (Main.st_dataframe (loc_mask mask loaded)) as [[]|e]; [|reflexivity].
  destruct (ai_insights _ s _) as [[tips|e] σ3]; reflexivity.
Qed.

(** Showing a table raises exactly when a label repeats. *)
Lemma st_dataframe_cases df :
  (NoDup (labels df) -> Main.st_dataframe df = Ok tt)
  /\ (~ NoDup (labels df) -> Main.st_dataframe df = Raise ValueError).
Proof.
  unfold Main.st_dataframe. split; intros H.
  - now rewrite bool_decide_eq_true_2.
  - now rewrite bool_decide_eq_false_2.
Qed.

(** Whatever [Main.show] returns, it leaves every table the store held
    as it was. *)
Lemma show_store (σ : gmap nat DataFrame) ui session l :
  is_Some (σ !! l) -> (Main.show ui session σ).2 !! l = σ !! l.
Proof.
  intros Hl. destruct session as [r|]; [|reflexivity].
  destruct (σ !! r) as [loaded|] eqn:Hr.
  - rewrite (show_run _ _ _ _ Hr).
    destruct (empty loaded); [reflexivity|].
    destruct (Period.filtered loaded _ _) as [out|e]; [|reflexivity].
    cbv zeta. set (σ1 := <[fresh (dom σ) := out]> σ).
    set (r2 := fresh (dom σ1)). set (σ2 := <[r2 := out]> σ1).
    assert (H1 : l <> fresh (dom σ)) by now apply fresh_kept.
    assert (Hl1 : σ1 !! l = σ !! l) by (unfold σ1; now rewrite lookup_insert_ne).
    assert (H2 : l <> r2) by (apply fresh_kept; now rewrite Hl1).
    assert (Hl2 : σ2 !! l = σ !! l)
      by (unfold σ2; now rewrite lookup_insert_ne).
    destruct (compute_summaries out) as [s|e]; [|exact Hl2].
    destruct (Main.st_dataframe out) as [[]|e]; [|exact Hl2].
    pose proof (ai_insights_others σ2 r2 s l H2) as Hl3.
    destruct (ai_insights r2 s σ2) as [[tips|e] σ3]; simpl in *; congruence.
  - unfold Main.show, mbind, M_bind, deref. now rewrite Hr.
Qed.

(** What [load_sales_dataframe] returns is presentable. *)
Lemma load_presentable (data : list record) (df : DataFrame) :
  load_sales_dataframe data = Ok df -> presentable df.
Proof.
  intros Hload. destruct (empty df) eqn:He; [now left | right]. split.
  - apply (load_transaction_table data); [exact Hload|].
    destruct (empty (Frame.of_records data)) eqn:Hraw; [|reflexivity].
    unfold load_sales_dataframe in Hload. rewrite Hraw in Hload.
    inv_Ok Hload. congruence.
  - now apply (load_no_dow data).
Qed.

End WithBackend.
End RunFacts.

Section MainProperties.
Context {B : Backend}.
Import Pandas PandasFacts Vocabulary Terms StoreFacts TableFacts LabelFacts
       RunFacts.

(** X19. A run of the dashboard leaves every table the store held as it
    was, the table of the session among them (the filtered copy is the
    one [ai_insights] writes to), and what it returns depends on the
    table of the session only: run again on the store it left, as
    Streamlit does at every interaction, it returns the same. *)
Theorem dashboard_is_repeatable (σ : gmap nat DataFrame) (session : nat)
        (mode : string) (start_date end_date : bound) :
  (forall l, is_Some (σ !! l) ->
     (dashboard session mode start_date end_date σ).2 !! l = σ !! l)
  /\ (dashboard session mode start_date end_date
                (dashboard session mode start_date end_date σ).2).1
     = (dashboard session mode start_date end_date σ).1.
Proof.
  split; [intros l; apply dashboard_store|].
  destruct (σ !! session) as [loaded|] eqn:Hs.
  - symmetry. apply (dashboard_value _ _ _ _ _ _ loaded); [exact Hs|].
    rewrite dashboard_store by (rewrite Hs; eauto). exact Hs.
  - assert (Hrun : dashboard session mode start_date end_date σ
                   = (Raise NameError, σ)).
    { unfold dashboard, mbind, M_bind, deref. now rewrite Hs. }
    rewrite Hrun. simpl. now rewrite Hrun.
Qed.

(** X20. A run of [main] in which "Load Data" is not pressed, on a
    session that holds an empty table or a transaction table (dates
    without time zone) that has no [dow] column, raises in one case
    only: when the table has rows and two columns of one label, line
    185 raises [ValueError], whatever the period. Otherwise the run
    returns a page. Either way the session and the tables of the store
    are left as they were. *)
Theorem rerun_raises_on_repeated_labels_only (σ : gmap nat DataFrame)
        (ui : Main.Sidebar) (fetched : option (list record))
        (r : nat) (df : DataFrame) :
  Main.load_btn ui = false ->
  σ !! r = Some df ->
  presentable df ->
  (forall l, is_Some (σ !! l) ->
     (Main.main ui fetched (Some r) σ).2 !! l = σ !! l)
  /\ (empty df = true \/ NoDup (labels df) ->
      exists page,
        (Main.main ui fetched (Some r) σ).1 = Ok (Some r, [], page))
  /\ (empty df = false -> ~ NoDup (labels df) ->
      (Main.main ui fetched (Some r) σ).1 = Raise ValueError).
Proof.
  intros Hbtn Hr Hp.
  assert (Hmain : Main.main ui fetched (Some r) σ
                  = match Main.show ui (Some r) σ with
                    | (Ok page, σ') => (Ok (Some r, [], page), σ')
                    | (Raise e, σ') => (Raise e, σ')
                    end).
  { unfold Main.main, Main.load, mbind at 1, M_bind at 1. rewrite Hbtn.
    unfold mret at 1, M_ret at 1. cbn [fst snd].
    unfold mbind at 1, M_bind at 1.
    destruct (Main.show ui (Some r) σ) as [[page|e] σ']; reflexivity. }
  split; [|split].
  - intros l Hl. rewrite Hmain.
    pose proof (show_store σ ui (Some r) l Hl) as Hs.
    destruct (Main.show ui (Some r) σ) as [[page|e] σ']; exact Hs.
  - intros Hcase. rewrite Hmain, (show_run _ _ _ _ Hr).
    destruct (empty df) eqn:He; [simpl; eauto|].
    destruct Hcase as [Hcase | Hnd]; [discriminate|].
    destruct Hp as [Hp | [Ht Hdow]]; [congruence|].
    destruct (filtered_total df (OnDate (Main.period ui).1)
                (OnDate (Main.period ui).2) Ht) as [mask ->]. cbv zeta.
    set (out := loc_mask mask df).
    assert (Hout : transaction_table out) by now apply loc_mask_transaction_table.
    destruct (compute_summaries_total out Hout) as [s ->].
    rewrite (proj1 (st_dataframe_cases out))
      by (unfold out; now rewrite labels_loc_mask).
    set (σ1 := <[fresh (dom σ) := out]> σ). set (r2 := fresh (dom σ1)).
    destruct (ai_insights_total (<[r2 := out]> σ1) r2 out s) as [tips Htips].
    + apply lookup_insert_eq.
    + exact Hout.
    + unfold out. now rewrite has_column_loc_mask.
    + destruct (ai_insights r2 s _) as [[tips'|e] σ3]; simpl in *;
        [eauto | discriminate].
  - intros He Hdup. rewrite Hmain, (show_run _ _ _ _ Hr), He.
    destruct Hp as [Hp | [Ht Hdow]]; [congruence|].
    destruct (filtered_total df (OnDate (Main.period ui).1)
                (OnDate (Main.period ui).2) Ht) as [mask ->]. cbv zeta.
    set (out := loc_mask mask df).
    assert (Hout : transaction_table out) by now apply loc_mask_transaction_table.
    destruct (compute_summaries_total out Hout) as [s ->].
    rewrite (proj2 (st_dataframe_cases out))
      by (unfold out; now rewrite labels_loc_mask).
    reflexivity.
Qed.


(** X22. When the table of the session has no two columns of one label
    and no row of it falls into the period, the page shows a total of
    "OMR 0.00", "0" transactions and an average ticket of "OMR 0.00"
    (line 190 does not divide by the count of 0), breakdowns without
    rows, and the one sentence "No data in the selected range.". *)
Theorem empty_period_page (σ : gmap nat DataFrame) (ui : Main.Sidebar)
        (r : nat) (df out : DataFrame) :
  σ !! r = Some df ->
  transaction_table df ->
  NoDup (labels df) ->
  empty df = false ->
  Period.filtered df (OnDate (Main.period ui).1) (OnDate (Main.period ui).2)
  = Ok out ->
  index out = [] ->
  (Main.show ui (Some r) σ).1
  = Ok (Some {| Main.summaries :=
                  {| total_revenue := 0;
                     num_transactions := 0;
                     by_barber := empty_breakdown df "Barber Name";
                     by_method := empty_breakdown df "Payment Method";
                     by_day := [] |};
                Main.cards :=
                  {| Main.shown_total := "OMR 0.00";
                     Main.shown_count := "0";
                     Main.shown_avg := "OMR 0.00" |};
                Main.tips := ["No data in the selected range."] |}).
Proof.
  intros Hr Ht Hnd He Hf Hidx.
  assert (Hout : transaction_table out)
    by (eapply filtered_transaction_table; eauto).
  destruct (filtered_total df (OnDate (Main.period ui).1)
              (OnDate (Main.period ui).2) Ht) as [mask Hm].
  rewrite Hf in Hm. inv_Ok Hm.
  assert (Hlabels : forall col,
            empty_breakdown (loc_mask mask df) col = empty_breakdown df col).
  { intros col. unfold empty_breakdown. now rewrite has_column_loc_mask. }
  rewrite (show_run _ _ _ _ Hr), He, Hf. cbv zeta.
  rewrite (compute_summaries_empty _ Hout Hidx), !Hlabels.
  rewrite (proj1 (st_dataframe_cases _)) by now rewrite labels_loc_mask.
  unfold ai_insights, insights_of, mbind, M_bind, deref, mret, M_ret.
  rewrite lookup_insert_eq.
  assert (Hempty : empty (loc_mask mask df) = true)
    by (unfold empty; now rewrite Hidx).
  rewrite Hempty. reflexivity.
Qed.

End MainProperties.

(** ** The script [las.py] *)

Module LasFacts.
Import Pandas PandasFacts LabelFacts RowFacts Vocabulary Terms.

Lemma keys_NoDup data : NoDup (Frame.keys data).
Proof.
  unfold Frame.keys, Frame.first_seen. rewrite <- Permutation_rev.
  apply NoDup_remove_dups.
Qed.

(** A sheet's table has one column for each label. *)
Lemma filter_named_columns data c ks :
  NoDup ks ->
  List.filter (named c) (map (Frame.column_of data) ks)
  = if existsb (String.eqb c) ks then [Frame.column_of data c] else [].
Proof.
  induction 1 as [|k ks Hk Hnd IH]; [reflexivity|].
  rewrite list_elem_of_In in Hk. simpl. unfold named at 1. simpl.
  destruct (String.eqb_spec c k) as [<- | Hne]; simpl.
  - rewrite IH.
    assert (Hno : existsb (String.eqb c) ks = false).
    { apply not_true_iff_false. intros Hex. apply existsb_exists in Hex
        as (k & Hin & Heq). apply String.eqb_eq in Heq. now subst k. }
    now rewrite Hno.
  - exact IH.
Qed.

Lemma existsb_In c ks : existsb (String.eqb c) ks = true <-> In c ks.
Proof.
  rewrite existsb_exists. split.
  - intros (k & Hin & Heq). apply String.eqb_eq in Heq. now subst k.
  - intros Hin. exists c. split; [exact Hin | apply String.eqb_refl].
Qed.

Lemma of_records_getitem data c :
  getitem (Frame.of_records data) c
  = if existsb (String.eqb c) (Frame.keys data)
    then Ok (Frame.infer (map (Frame.lookup_key c) data))
    else Raise (KeyError c).
Proof.
  unfold getitem, Frame.of_records. simpl.
  rewrite filter_named_columns by apply keys_NoDup.
  destruct (existsb (String.eqb c) (Frame.keys data)); reflexivity.
Qed.

Lemma labels_of_records data : labels (Frame.of_records data) = Frame.keys data.
Proof.
  unfold labels, Frame.of_records. simpl. rewrite map_map. simpl.
  apply map_id.
Qed.

Lemma labels_setitem_same df c s :
  has_column c df = true -> labels (setitem df c s) = labels df.
Proof.
  intros H. unfold setitem, labels. rewrite H. simpl. rewrite map_map.
  apply map_ext. intros p. destruct (named c p) eqn:E; [|reflexivity].
  apply named_iff in E. simpl. congruence.
Qed.

End LasFacts.

Section LasProperties.
Context {B : Backend}.
Import Pandas PandasFacts LoadFacts LabelFacts Vocabulary Terms LasFacts.

(** X23. The script [las.py] looks the date column up under the label
    "Date" as it stands in the sheet: it raises [KeyError] exactly when
    no record has that very key (a sheet without records, or one whose
    header is written "date"), where [app.py] normalises the labels and
    goes on. When it does not raise it keeps every row of the sheet
    under its position and every column under its label, leaves a
    datetime column under "Date", and prints the first five rows. *)
Theorem las_needs_the_date_header (data : list record) :
  (Las.df data = Raise (KeyError "Date") <-> ~ In "Date" (Frame.keys data))
  /\ ((exists df, Las.df data = Ok df) <-> In "Date" (Frame.keys data))
  /\ (forall df, Las.df data = Ok df ->
        index df = seq 0 (length data)
        /\ labels df = Frame.keys data
        /\ (exists d, getitem df "Date" = Ok d /\ is_datetime d)
        /\ Las.printed data = Ok (Las.head 5 df)
        /\ len (Las.head 5 df) = Nat.min 5 (length data)).
Proof.
  unfold Las.printed, Las.df. rewrite of_records_getitem.
  destruct (existsb (String.eqb "Date") (Frame.keys data)) eqn:E.
  - apply existsb_In in E. cbn [mbind result_bind].
    split; [split; [discriminate | tauto]|].
    split; [split; eauto|].
    intros df H. inv_Ok H.
    assert (Hget : getitem (Frame.of_records data) "Date"
                   = Ok (Frame.infer (map (Frame.lookup_key "Date") data))).
    { rewrite of_records_getitem. apply existsb_In in E. now rewrite E. }
    split; [now rewrite index_setitem|].
    split.
    { rewrite labels_setitem_same by (eapply getitem_has_column; eauto).
      apply labels_of_records. }
    split.
    { eexists. split; [eapply getitem_setitem_same; eauto|].
      apply to_datetime_is_datetime. }
    split; [reflexivity|].
    unfold len, Las.head. simpl. rewrite index_setitem. simpl.
    rewrite length_firstn, length_seq. reflexivity.
  - assert (Hno : ~ In "Date" (Frame.keys data)).
    { intros Hin. apply existsb_In in Hin. congruence. }
    cbn [mbind result_bind].
    split; [tauto|]. split; [|discriminate].
    split; [intros [df H]; discriminate | tauto].
Qed.

End LasProperties.

(** ** The default period of the sidebar *)

Module CalendarFacts.
Import Sample Terms.
Local Open Scope Z_scope.

(** The day, month and year of a day number give the day number back;
    the day lies within a month, the month within a year. *)
Lemma civil_round_trip (z : Date) :
  let '(y, m, d) := civil_from_days z in
  days_from_civil y m d = z /\ 1 <= d <= 31 /\ 1 <= m <= 12.
Proof.
  unfold civil_from_days, days_from_civil. cbv zeta.
  set (z' := z + 719468).
  set (era := z' / 146097).
  set (doe := z' - era * 146097).
  assert (Hdoe : 0 <= doe < 146097).
  { unfold doe, era. Z.to_euclidean_division_equations. lia. }
  set (yoe := (doe - doe / 1460 + doe / 36524 - doe / 146096) / 365).
  set (doy := doe - (365 * yoe + yoe / 4 - yoe / 100)).
  set (mp := (5 * doy + 2) / 153).
  assert (Hyoe : 0 <= yoe <= 399).
  { unfold yoe. Z.to_euclidean_division_equations. lia. }
  assert (Hdoy : 0 <= doy <= 365).
  { unfold doy, yoe. Z.to_euclidean_division_equations. lia. }
  assert (Hmp : 0 <= mp <= 11).
  { unfold mp. Z.to_euclidean_division_equations. lia. }
  destruct (mp <? 10) eqn:Emp.
  - apply Z.ltb_lt in Emp.
    replace (mp + 3 <=? 2) with false by (symmetry; apply Z.leb_gt; lia).
    split; [|split].
    + replace ((mp + 3 + 9) mod 12) with mp
        by (Z.to_euclidean_division_equations; lia).
      replace ((yoe + era * 400 + 0) / 400) with era
        by (Z.to_euclidean_division_equations; lia).
      replace (yoe + era * 400 + 0 - era * 400) with yoe by lia.
      unfold doy, z', doe in *. lia.
    + unfold mp. Z.to_euclidean_division_equations. lia.
    + lia.
  - apply Z.ltb_ge in Emp.
    replace (mp - 9 <=? 2) with true by (symmetry; apply Z.leb_le; lia).
    split; [|split].
    + replace ((mp - 9 + 9) mod 12) with mp
        by (Z.to_euclidean_division_equations; lia).
      replace (yoe + era * 400 + 1 - 1) with (yoe + era * 400) by lia.
      replace ((yoe + era * 400) / 400) with era
        by (Z.to_euclidean_division_equations; lia).
      replace (yoe + era * 400 - era * 400) with yoe by lia.
      unfold doy, z', doe in *. lia.
    + unfold mp. Z.to_euclidean_division_equations. lia.
    + lia.
Qed.

(** The first day of a month is the first day of that month. *)
Lemma first_of_month (y m : Z) :
  1 <= m <= 12 -> civil_from_days (days_from_civil y m 1) = (y, m, 1).
Proof.
  intros Hm. unfold civil_from_days, days_from_civil. cbv zeta.
  set (y' := if m <=? 2 then y - 1 else y).
  set (era := y' / 400).
  set (yoe := y' - era * 400).
  assert (Hyoe : 0 <= yoe <= 399).
  { unfold yoe, era. Z.to_euclidean_division_equations. lia. }
  set (mp := (m + 9) mod 12).
  assert (Hmp : 0 <= mp <= 11 /\ (m <= 2 -> mp = m + 9) /\ (2 < m -> mp = m - 3)).
  { unfold mp. Z.to_euclidean_division_equations. lia. }
  set (doy := (153 * mp + 2) / 5 + 1 - 1).
  assert (Hdoy : 0 <= doy <= 337 /\ (5 * doy + 2) / 153 = mp
                 /\ doy - (153 * mp + 2) / 5 + 1 = 1).
  { unfold doy. destruct Hmp as (Hb & _).
    Z.to_euclidean_division_equations. lia. }
  set (doe := yoe * 365 + yoe / 4 - yoe / 100 + doy).
  assert (Hdoe : 0 <= doe < 146097).
  { unfold doe. Z.to_euclidean_division_equations. lia. }
  replace (era * 146097 + doe - 719468 + 719468) with (era * 146097 + doe)
    by lia.
  assert (Hera : (era * 146097 + doe) / 146097 = era).
  { Z.to_euclidean_division_equations. lia. }
  rewrite Hera.
  replace (era * 146097 + doe - era * 146097) with doe by lia.
  assert (Hy : (doe - doe / 1460 + doe / 36524 - doe / 146096) / 365 = yoe).
  { unfold doe. destruct Hdoy as (Hd & _).
    Z.to_euclidean_division_equations. lia. }
  rewrite Hy.
  replace (doe - (365 * yoe + yoe / 4 - yoe / 100)) with doy
    by (unfold doe; lia).
  destruct Hdoy as (_ & -> & ->).
  destruct Hmp as (Hb & Hlo & Hhi).
  unfold y', yoe in *.
  destruct (Z.leb_spec m 2).
  - rewrite (Hlo ltac:(lia)).
    replace (m + 9 <? 10) with false by (symmetry; apply Z.ltb_ge; lia).
    replace (m + 9 - 9 <=? 2) with true by (symmetry; apply Z.leb_le; lia).
    repeat f_equal; lia.
  - rewrite (Hhi ltac:(lia)).
    replace (m - 3 <? 10) with true by (symmetry; apply Z.ltb_lt; lia).
    replace (m - 3 + 3 <=? 2) with false by (symmetry; apply Z.leb_gt; lia).
    repeat f_equal; lia.
Qed.

Lemma days_linear (y m d : Z) :
  days_from_civil y m d = days_from_civil y m 1 + (d - 1).
Proof. unfold days_from_civil. cbv zeta. lia. Qed.

(** [d.replace(day=1)] goes back to the first day of the month of [d]. *)
Lemma replace_day_first (d : Date) :
  month_of (Main.replace_day d 1) = month_of d
  /\ day_of_month (Main.replace_day d 1) = 1
  /\ Main.replace_day d 1 = d - (day_of_month d - 1)
  /\ 1 <= day_of_month d <= 31.
Proof.
  unfold Main.replace_day, month_of, day_of_month.
  pose proof (civil_round_trip d) as H.
  destruct (civil_from_days d) as [[y m] dd]. destruct H as (Hd & Hdd & Hm).
  rewrite (first_of_month y m Hm).
  repeat split; try lia. rewrite (days_linear y m dd) in Hd. lia.
Qed.

(** Two days of one month are as far apart as their days of the
    month. *)
Lemma same_month_distance (a b : Date) :
  month_of a = month_of b -> a - b = day_of_month a - day_of_month b.
Proof.
  unfold month_of, day_of_month.
  pose proof (civil_round_trip a) as Ha. pose proof (civil_round_trip b) as Hb.
  destruct (civil_from_days a) as [[ya ma] da].
  destruct (civil_from_days b) as [[yb mb] db].
  destruct Ha as (Ha & _), Hb as (Hb & _). intros E. inversion E; subst yb mb.
  rewrite (days_linear ya ma da) in Ha. rewrite (days_linear ya ma db) in Hb.
  lia.
Qed.

End CalendarFacts.

Section DefaultProperties.
Import Terms CalendarFacts.

(** X24. The period the sidebar comes up with, on the day [today], ends
    today in every mode. It is that one day in Daily mode and the seven
    days up to today in Weekly mode. In Monthly mode it starts on the
    first day of the month in which the day six days before today lies
    (line 161 takes the month of [default_start], not of [today]): this
    is between 6 and 36 days before today, and during the first six
    days of a month it is the first day of the month before. *)
Theorem default_period (id mode : string) (today : Date) (pressed : bool) :
  let ui := Main.default_sidebar id mode today pressed in
  (Main.period ui).2 = today
  /\ (mode = "Daily" -> (Main.period ui).1 = today)
  /\ (mode = "Weekly" -> (Main.period ui).1 = (today - 6)%Z)
  /\ (mode <> "Daily" -> mode <> "Weekly" ->
      month_of (Main.period ui).1 = month_of (today - 6)%Z
      /\ day_of_month (Main.period ui).1 = 1%Z
      /\ (today - 36 <= (Main.period ui).1 <= today - 6)%Z
      /\ ((day_of_month today <= 6)%Z ->
          month_of (Main.period ui).1 <> month_of today)).
Proof.
  intros ui. unfold ui, Main.period, Main.default_sidebar, Main.default_dates.
  cbn [Main.mode Main.first_date Main.second_date].
  destruct (String.eqb_spec mode "Daily") as [Hd | Hd].
  { simpl. repeat split; congruence. }
  destruct (String.eqb_spec mode "Weekly") as [Hw | Hw].
  { simpl. repeat split; congruence. }
  cbn [fst snd]. split; [reflexivity|].
  split; [congruence|]. split; [congruence|]. intros _ _.
  destruct (replace_day_first (today - 6)%Z) as (Hmonth & Hday & Hstart & Hdom).
  split; [exact Hmonth|]. split; [exact Hday|]. split; [lia|].
  intros Hsix Hsame. rewrite Hmonth in Hsame.
  apply same_month_distance in Hsame. lia.
Qed.

End DefaultProperties.

(** ** The further properties on the sample sheets *)

Section Samples.
#[local] Existing Instance Sample.backend.
Import Pandas Vocabulary Examples Insights Terms Sheets.

(** X1 on the form sheet: the first record only is kept. *)
Lemma load_keeps_exactly_the_valid_rows_witness :
  load_sales_dataframe form_sheet = Ok form_table
  /\ empty (Frame.of_records form_sheet) = false
  /\ index form_table
     = List.filter (valid form_sheet) (seq 0 (length form_sheet)).
Proof.
  assert (H1 : load_sales_dataframe form_sheet = Ok form_table)
    by (vm_compute; reflexivity).
  assert (H2 : empty (Frame.of_records form_sheet) = false)
    by (vm_compute; reflexivity).
  split; [exact H1|]. split; [exact H2|].
  exact (load_keeps_exactly_the_valid_rows form_sheet form_table H1 H2).
Defined.

(** X2 on the form sheet. *)
Lemma loaded_labels_are_normalised_witness :
  load_sales_dataframe form_sheet = Ok form_table
  /\ has_column "Timestamp" form_table = false
  /\ (has_column "Barber" form_table = true ->
      has_column "Barber Name" form_table = true)
  /\ Forall (fun l => normalize_label l = l) (labels form_table).
Proof.
  assert (H1 : load_sales_dataframe form_sheet = Ok form_table)
    by (vm_compute; reflexivity).
  split; [exact H1|].
  exact (loaded_labels_are_normalised form_sheet form_table H1).
Defined.

(** X3 on the form sheet, whose barber cell is ["  Sam "]. *)
Lemma loaded_names_are_trimmed_witness :
  load_sales_dataframe form_sheet = Ok form_table
  /\ In (0, OStr "Sam") (cells form_table "Barber Name")
  /\ exists t, OStr "Sam" = OStr t /\ trimmed t.
Proof.
  assert (H1 : load_sales_dataframe form_sheet = Ok form_table)
    by (vm_compute; reflexivity).
  assert (H2 : In (0, OStr "Sam") (cells form_table "Barber Name"))
    by (left; reflexivity).
  split; [exact H1|]. split; [exact H2|].
  exact (loaded_names_are_trimmed form_sheet form_table "Barber Name" 0
           (OStr "Sam") H1 (or_introl eq_refl) H2).
Defined.

(** X4 on the sheet with the headers ["Date"] and ["date "]. *)
Lemma doubled_header_raises_witness :
  In "Date" (Frame.keys doubled_sheet)
  /\ In "date " (Frame.keys doubled_sheet)
  /\ normalize_label "Date" = "Date"
  /\ normalize_label "date " = "Date"
  /\ exists c', In c' read_labels
                /\ load_sales_dataframe doubled_sheet = Raise (NotASeries c').
Proof.
  assert (H1 : In "Date" (Frame.keys doubled_sheet)) by (left; reflexivity).
  assert (H2 : In "date " (Frame.keys doubled_sheet))
    by (right; left; reflexivity).
  assert (H3 : "Date" <> "date ") by discriminate.
  assert (H4 : normalize_label "Date" = "Date") by (vm_compute; reflexivity).
  assert (H5 : normalize_label "date " = "Date") by (vm_compute; reflexivity).
  assert (H6 : In "Date" read_labels) by (left; reflexivity).
  split; [exact H1|]. split; [exact H2|]. split; [exact H4|].
  split; [exact H5|].
  exact (doubled_header_raises doubled_sheet "Date" "date " "Date"
           H1 H2 H3 H4 H5 H6).
Defined.

(** X5 on the sheet without records. *)
Lemma empty_sheet_has_no_columns_witness :
  empty (Frame.of_records []) = true
  /\ load_sales_dataframe [] = Ok (Frame.of_records [])
  /\ compute_summaries (Frame.of_records []) = Raise (KeyError "Date").
Proof.
  assert (H1 : empty (Frame.of_records []) = true) by reflexivity.
  destruct (empty_sheet_has_no_columns [] H1) as (Hload & _ & _ & Hsum & _).
  split; [exact H1|]. split; [exact Hload | exact Hsum].
Defined.

(** X6 on the form sheet. *)
Lemma loaded_cells_are_the_parsed_cells_witness :
  load_sales_dataframe form_sheet = Ok form_table
  /\ getitem form_table "Date" = Ok (SDatetime [Some (midnight july1)])
  /\ prices_are form_table [Some (125050 # 100)]
  /\ dates form_sheet !! 0 = Some (Some (midnight july1))
  /\ exists txt, price_texts form_sheet !! 0 = Some txt
                 /\ Some (125050 # 100)
                    = option_map Numeric.num_value (Numeric.parse txt).
Proof.
  assert (H1 : load_sales_dataframe form_sheet = Ok form_table)
    by (vm_compute; reflexivity).
  assert (H2 : getitem form_table "Date" = Ok (SDatetime [Some (midnight july1)]))
    by reflexivity.
  assert (H3 : prices_are form_table [Some (125050 # 100)])
    by (eexists; split; reflexivity).
  destruct (loaded_cells_are_the_parsed_cells form_sheet form_table _ _
              H1 H2 H3) as [Hd Hp].
  split; [exact H1|]. split; [exact H2|]. split; [exact H3|].
  split; [apply Hd | apply Hp]; left; reflexivity.
Defined.

(** X7 on the [Service] column of the form sheet. *)
Lemma load_leaves_other_columns_witness :
  load_sales_dataframe form_sheet = Ok form_table
  /\ ~ In "Service" read_labels
  /\ has_column "Service" form_table
     = has_column "Service" (relabel (Frame.of_records form_sheet))
  /\ sublist (cells form_table "Service")
             (cells (relabel (Frame.of_records form_sheet)) "Service").
Proof.
  assert (H1 : load_sales_dataframe form_sheet = Ok form_table)
    by (vm_compute; reflexivity).
  assert (H2 : ~ In "Service" read_labels).
  { intros [H | [H | [H | [H | []]]]]; discriminate H. }
  split; [exact H1|]. split; [exact H2|].
  exact (load_leaves_other_columns form_sheet form_table "Service" H1 H2).
Defined.

(** X8 on the table of the two sales, from the second of July back to
    the first. *)
Lemma reversed_window_selects_nothing_witness :
  Period.filtered plain_table (OnDate july2) (OnDate july1)
  = Ok (loc_mask [false; false] plain_table)
  /\ (to_timestamp (OnDate july1) < to_timestamp (OnDate july2))%Z
  /\ index (loc_mask [false; false] plain_table) = []
  /\ empty (loc_mask [false; false] plain_table) = true
  /\ labels (loc_mask [false; false] plain_table) = labels plain_table.
Proof.
  assert (H1 : Period.filtered plain_table (OnDate july2) (OnDate july1)
               = Ok (loc_mask [false; false] plain_table))
    by (vm_compute; reflexivity).
  assert (H2 : (to_timestamp (OnDate july1) < to_timestamp (OnDate july2))%Z)
    by (vm_compute; reflexivity).
  split; [exact H1|]. split; [exact H2|].
  exact (reversed_window_selects_nothing plain_table _ (OnDate july2)
           (OnDate july1) H1 H2).
Defined.

(** X9 on the table of [gap_sheet]: its second day, and that day
    again. *)
Lemma filtering_again_narrows_witness :
  Period.filtered gap_table (OnDate july2) (OnDate july2) = Ok second_row
  /\ (to_timestamp (OnDate july2) <= to_timestamp (OnDate july2))%Z
  /\ Period.filtered second_row (OnDate july2) (OnDate july2)
     = Period.filtered gap_table (OnDate july2) (OnDate july2)
  /\ Period.filtered second_row (OnDate july2) (OnDate july2) = Ok second_row.
Proof.
  assert (H1 : Period.filtered gap_table (OnDate july2) (OnDate july2)
               = Ok second_row) by (vm_compute; reflexivity).
  assert (H2 : (to_timestamp (OnDate july2) <= to_timestamp (OnDate july2))%Z)
    by (vm_compute; discriminate).
  split; [exact H1|]. split; [exact H2|].
  exact (filtering_again_narrows gap_table second_row (OnDate july2)
           (OnDate july2) (OnDate july2) (OnDate july2) H1 H2 H2).
Defined.

(** X10 on the sale of half past two: the Daily view of its day is
    without rows. *)
Lemma daily_view_keeps_midnight_rows_witness :
  Main.mode (daily false) = "Daily"
  /\ getitem afternoon_table "Date"
     = Ok (SDatetime [Some (at_clock july1 14 30)])
  /\ Period.filtered afternoon_table (OnDate july1) (OnDate july1)
     = Ok (loc_mask [false] afternoon_table).
Proof.
  assert (H1 : Main.mode (daily false) = "Daily") by reflexivity.
  assert (H2 : getitem afternoon_table "Date"
               = Ok (SDatetime [Some (at_clock july1 14 30)])) by reflexivity.
  split; [exact H1|]. split; [exact H2|].
  exact (daily_view_keeps_midnight_rows (daily false) afternoon_table _ H1 H2).
Defined.

(** X11 on the table of [gap_sheet] and its second day. *)
Lemma filter_keeps_rows_in_order_witness :
  Period.filtered gap_table (OnDate july2) (OnDate july2) = Ok second_row
  /\ sublist (index second_row) (index gap_table)
  /\ labels second_row = labels gap_table
  /\ forall col, sublist (cells second_row col) (cells gap_table col).
Proof.
  assert (H1 : Period.filtered gap_table (OnDate july2) (OnDate july2)
               = Ok second_row) by (vm_compute; reflexivity).
  split; [exact H1|].
  exact (filter_keeps_rows_in_order gap_table second_row (OnDate july2)
           (OnDate july2) H1).
Defined.



(** X15 on the payment methods of [gap_sheet]. *)
Lemma breakdown_counts_every_priced_row_witness :
  compute_summaries gap_table = Ok gap_summaries
  /\ well_formed gap_table
  /\ names_are gap_table "Payment Method" ["Cash"; "Card"]
  /\ prices_are gap_table [Some (10 # 1); Some (15 # 1)]
  /\ exists t, by_method gap_summaries = Some t
               /\ count_sum t = priced [Some (10 # 1); Some (15 # 1)].
Proof.
  assert (H1 : compute_summaries gap_table = Ok gap_summaries)
    by (vm_compute; reflexivity).
  assert (H2 : well_formed gap_table) by (repeat constructor).
  assert (H3 : names_are gap_table "Payment Method" ["Cash"; "Card"])
    by (eexists; split; vm_compute; reflexivity).
  assert (H4 : prices_are gap_table [Some (10 # 1); Some (15 # 1)])
    by (eexists; split; reflexivity).
  split; [exact H1|]. split; [exact H2|]. split; [exact H3|].
  split; [exact H4|]. eexists. split; [reflexivity|].
  exact (proj1 (breakdown_counts_every_priced_row SampleFacts.backend_spec
                  gap_table gap_summaries "Payment Method" _ _ _ H1
                  (or_intror (conj eq_refl eq_refl)) H2 H3 H4)).
Defined.

(** X17 on the table of [gap_sheet], whose first barber row is that of
    the record without a barber. *)
Lemma top_performer_leads_witness :
  ({[0 := gap_table]} : gmap nat DataFrame) !! 0 = Some gap_table
  /\ empty gap_table = false
  /\ compute_summaries gap_table = Ok gap_summaries
  /\ (insights_of 0 gap_summaries {[0 := gap_table]}).1 = Ok gap_insights
  /\ head gap_insights = Some (TopPerformer "nan" (15 # 1) 1).
Proof.
  assert (H1 : ({[0 := gap_table]} : gmap nat DataFrame) !! 0 = Some gap_table)
    by (vm_compute; reflexivity).
  assert (H2 : empty gap_table = false) by reflexivity.
  assert (H3 : compute_summaries gap_table = Ok gap_summaries)
    by (vm_compute; reflexivity).
  assert (H4 : (insights_of 0 gap_summaries {[0 := gap_table]}).1
               = Ok gap_insights) by (vm_compute; reflexivity).
  split; [exact H1|]. split; [exact H2|]. split; [exact H3|].
  split; [exact H4|].
  destruct (top_performer_leads SampleFacts.backend_spec _ 0 gap_table
              gap_summaries gap_insights H1 H2 H3 H4) as [_ Hhead].
  exact (proj1 (Hhead _ _ eq_refl)).
Defined.

(** X18 on the table of [gap_sheet]: a Tuesday of 10 and a Wednesday of
    15. *)
Lemma trend_reports_a_drop_witness :
  ({[0 := gap_table]} : gmap nat DataFrame) !! 0 = Some gap_table
  /\ empty gap_table = false
  /\ prices_are gap_table [Some (10 # 1); Some (15 # 1)]
  /\ Forall (fun v => v <> None) [Some (10 # 1); Some (15 # 1)]
  /\ (insights_of 0 gap_summaries {[0 := gap_table]}).1 = Ok gap_insights
  /\ In (DowTrend "Tuesday" (Some (500 # 15)) "Wednesday") gap_insights
  /\ exists d, Some (500 # 15) = Some d /\ (0 <= d)%Q.
Proof.
  assert (H1 : ({[0 := gap_table]} : gmap nat DataFrame) !! 0 = Some gap_table)
    by (vm_compute; reflexivity).
  assert (H2 : empty gap_table = false) by reflexivity.
  assert (H3 : prices_are gap_table [Some (10 # 1); Some (15 # 1)])
    by (eexists; split; reflexivity).
  assert (H4 : Forall (fun v : option Q => v <> None)
                      [Some (10 # 1); Some (15 # 1)])
    by (repeat constructor; discriminate).
  assert (H5 : (insights_of 0 gap_summaries {[0 := gap_table]}).1
               = Ok gap_insights) by (vm_compute; reflexivity).
  assert (H6 : In (DowTrend "Tuesday" (Some (500 # 15)) "Wednesday")
                  gap_insights) by (right; right; left; reflexivity).
  split; [exact H1|]. split; [exact H2|]. split; [exact H3|].
  split; [exact H4|]. split; [exact H5|]. split; [exact H6|].
  destruct (trend_reports_a_drop SampleFacts.backend_spec _ 0 gap_table
              gap_summaries gap_insights _ _ _ _ H1 H2 H3 H4 H5 H6)
    as (d & Hd & Hpos & _).
  exists d. split; [exact Hd | exact Hpos].
Defined.

(** X20 on a session that holds the table of the two sales. *)
Lemma rerun_raises_on_repeated_labels_only_witness :
  Main.load_btn (daily false) = false
  /\ ({[0 := plain_table]} : gmap nat DataFrame) !! 0 = Some plain_table
  /\ presentable plain_table
  /\ exists page,
       (Main.main (daily false) None (Some 0) {[0 := plain_table]}).1
       = Ok (Some 0, [], page).
Proof.
  assert (H1 : Main.load_btn (daily false) = false) by reflexivity.
  assert (H2 : ({[0 := plain_table]} : gmap nat DataFrame) !! 0
               = Some plain_table) by (vm_compute; reflexivity).
  assert (H3 : presentable plain_table).
  { right. split; [|reflexivity].
    split; [repeat constructor|]. split; [|split].
    - eexists. split; [reflexivity | eexists; reflexivity].
    - eexists. split; [reflexivity | right; eexists; reflexivity].
    - intros col [-> | ->] _; eexists; (split; [reflexivity|]).
      + exists ["Sam"; "Sam"]. reflexivity.
      + exists ["Cash"; "Card"]. reflexivity. }
  split; [exact H1|]. split; [exact H2|]. split; [exact H3|].
  destruct (rerun_raises_on_repeated_labels_only {[0 := plain_table]}
              (daily false) None 0 plain_table H1 H2 H3) as (_ & Hpage & _).
  apply Hpage. right. apply (bool_decide_eq_true_1 _). vm_compute. reflexivity.
Defined.

(** A sheet with the headers ["Service"] and ["service "] is loaded
    without complaint, and the run that loads it raises at line 185. *)
Lemma twice_served_sheet_stops_main :
  load_sales_dataframe twice_served_sheet = Ok twice_served_table
  /\ presentable twice_served_table
  /\ ~ NoDup (labels twice_served_table)
  /\ (Main.main (daily true) (Some twice_served_sheet) None ∅).1
     = Raise ValueError.
Proof.
  split; [vm_compute; reflexivity|]. split; [|split].
  - apply (RunFacts.load_presentable twice_served_sheet).
    vm_compute. reflexivity.
  - apply (bool_decide_eq_false_1 _). vm_compute. reflexivity.
  - vm_compute. reflexivity.
Qed.


(** X22 on the sale of half past two, in the Daily view of its day. *)
Lemma empty_period_page_witness :
  ({[0 := afternoon_table]} : gmap nat DataFrame) !! 0 = Some afternoon_table
  /\ transaction_table afternoon_table
  /\ NoDup (labels afternoon_table)
  /\ empty afternoon_table = false
  /\ Period.filtered afternoon_table (OnDate (Main.period (daily false)).1)
                     (OnDate (Main.period (daily false)).2)
     = Ok empty_table
  /\ index empty_table = []
  /\ (Main.show (daily false) (Some 0) {[0 := afternoon_table]}).1
     = Ok (Some {| Main.summaries := empty_summaries;
                   Main.cards :=
                     {| Main.shown_total := "OMR 0.00";
                        Main.shown_count := "0";
                        Main.shown_avg := "OMR 0.00" |};
                   Main.tips := ["No data in the selected range."] |}).
Proof.
  assert (H1 : ({[0 := afternoon_table]} : gmap nat DataFrame) !! 0
               = Some afternoon_table) by (vm_compute; reflexivity).
  assert (H2 : transaction_table afternoon_table).
  { split; [repeat constructor|]. split; [|split].
    - eexists. split; [reflexivity | eexists; reflexivity].
    - eexists. split; [reflexivity | left; eexists; reflexivity].
    - intros col [-> | ->] _; eexists; (split; [reflexivity|]).
      + exists ["Sam"]. reflexivity.
      + exists ["Cash"]. reflexivity. }
  assert (Hnd : NoDup (labels afternoon_table))
    by (apply (bool_decide_eq_true_1 _); vm_compute; reflexivity).
  assert (H3 : empty afternoon_table = false) by reflexivity.
  assert (H4 : Period.filtered afternoon_table
                 (OnDate (Main.period (daily false)).1)
                 (OnDate (Main.period (daily false)).2)
               = Ok empty_table) by (vm_compute; reflexivity).
  assert (H5 : index empty_table = []) by reflexivity.
  split; [exact H1|]. split; [exact H2|]. split; [exact Hnd|].
  split; [exact H3|]. split; [exact H4|]. split; [exact H5|].
  exact (empty_period_page {[0 := afternoon_table]} (daily false) 0
           afternoon_table empty_table H1 H2 Hnd H3 H4 H5).
Defined.

End Samples.

(** ** Sums as the machine takes them *)

Module MachineFacts.
Import Pandas Vocabulary Terms.

Section Wrapping.
Local Open Scope Z_scope.

Lemma wrap_add_l a b : Int64.wrap (Int64.wrap a + b) = Int64.wrap (a + b).
Proof.
  unfold Int64.wrap. f_equal.
  replace ((a + 2 ^ 63) mod 2 ^ 64 - 2 ^ 63 + b + 2 ^ 63)
    with ((a + 2 ^ 63) mod 2 ^ 64 + b) by lia.
  rewrite Zplus_mod_idemp_l. f_equal. lia.
Qed.

Lemma wrap_add_r a b : Int64.wrap (a + Int64.wrap b) = Int64.wrap (a + b).
Proof. rewrite Z.add_comm, wrap_add_l. f_equal. lia. Qed.


Lemma wrap_small a : - 2 ^ 63 <= a < 2 ^ 63 -> Int64.wrap a = a.
Proof. intros H. unfold Int64.wrap. rewrite Z.mod_small; lia. Qed.

Lemma sum_from acc zs :
  fold_left (fun acc z => Int64.wrap (acc + z)) zs (Int64.wrap acc)
  = Int64.wrap (acc + Machine.plain_sum zs).
Proof.
  revert acc. induction zs as [|z zs IH]; intros acc; simpl.
  - f_equal. lia.
  - rewrite wrap_add_l, IH. f_equal. lia.
Qed.

(** The int64 sum is the sum of the numbers, wrapped around once. *)
Lemma sum_wrap zs : Int64.sum zs = Int64.wrap (Machine.plain_sum zs).
Proof. unfold Int64.sum. apply (sum_from 0). Qed.

Lemma plain_sum_app a b :
  Machine.plain_sum (a ++ b) = Machine.plain_sum a + Machine.plain_sum b.
Proof. induction a as [|x a IH]; simpl; lia. Qed.

Lemma plain_sum_perm a b :
  Permutation a b -> Machine.plain_sum a = Machine.plain_sum b.
Proof. induction 1; simpl; lia. Qed.

Lemma wrap_sum_wrapped {A} (f : A -> Z) l :
  Int64.wrap (Machine.plain_sum (map (fun x => Int64.wrap (f x)) l))
  = Int64.wrap (Machine.plain_sum (map f l)).
Proof.
  induction l as [|x l IH]; [reflexivity|]. simpl.
  rewrite wrap_add_l, <- wrap_add_r, IH, wrap_add_r. reflexivity.
Qed.

Lemma abs_sum_nonneg zs : 0 <= Machine.abs_sum zs.
Proof. induction zs; simpl; lia. Qed.

Lemma plain_sum_bound zs : Z.abs (Machine.plain_sum zs) <= Machine.abs_sum zs.
Proof. induction zs; simpl; lia. Qed.

Lemma abs_sum_rows_of {K} (same : K -> K -> bool) k keys zs :
  Machine.abs_sum (Machine.rows_of same k keys zs) <= Machine.abs_sum zs.
Proof.
  revert zs. induction keys as [|k' keys IH]; intros [|z zs]; simpl;
    try lia.
  - pose proof (abs_sum_nonneg zs). lia.
  - specialize (IH zs).
    destruct k' as [k''|]; [destruct (same k k'')|]; simpl; lia.
Qed.

End Wrapping.

(** The exact reading of an int64 column. *)
Lemma sum_skipna_ints zs :
  (sum_skipna (map (fun z => Some (inject_Z z)) zs)
   == inject_Z (Machine.plain_sum zs))%Q.
Proof.
  induction zs as [|z zs IH]; [reflexivity|]. simpl.
  rewrite IH, inject_Z_plus. reflexivity.
Qed.

Lemma prices_of_map {K V} (same : K -> K -> bool) (f : V -> option Q) k keys vs :
  prices_of same k keys (map f vs) = map f (Machine.rows_of same k keys vs).
Proof.
  revert vs. induction keys as [|k' keys IH]; intros [|v vs]; simpl;
    try reflexivity.
  destruct k' as [k''|]; [destruct (same k k'')|]; simpl; now rewrite IH.
Qed.

Lemma revenue_sum_pointwise {K} (l : list (group K)) (f : group K -> Z) :
  (forall g, In g l -> (gsum g == inject_Z (f g))%Q) ->
  (Insights.revenue_sum l == inject_Z (Machine.plain_sum (map f l)))%Q.
Proof.
  induction l as [|g l IH]; intros H; [reflexivity|]. simpl.
  rewrite (H g) by now left. rewrite IH by (intros; apply H; now right).
  now rewrite inject_Z_plus.
Qed.


Section Keyed.
Context {K : Type} (cmp : K -> K -> comparison) (same : K -> K -> bool).
Hypothesis same_eq : forall a b, same a b = true <-> a = b.
Hypothesis cmp_eq : forall a b, cmp a b = Eq <-> a = b.
Hypothesis cmp_trans : forall a b c, cmp a b = Lt -> cmp b c = Lt -> cmp a c = Lt.
Hypothesis cmp_gt : forall a b, cmp a b = Gt -> cmp b a = Lt.

(** The sums of the groups of an int64 column add up to the sum of the
    column. *)
Lemma int_groups_add_up names zs :
  length names = length zs ->
  Machine.plain_sum
    (map (fun g => Machine.plain_sum
                     (Machine.rows_of same (gkey g) (map Some names) zs))
         (GroupBy.agg cmp (map Some names)
                      (map (fun z => Some (inject_Z z)) zs)))
  = Machine.plain_sum zs.
Proof.
  intros Hlen.
  set (vals := map (fun z => Some (inject_Z z)) zs).
  set (G := GroupBy.agg cmp (map Some names) vals).
  assert (H : (inject_Z (Machine.plain_sum
                 (map (fun g => Machine.plain_sum
                        (Machine.rows_of same (gkey g) (map Some names) zs)) G))
               == inject_Z (Machine.plain_sum zs))%Q).
  { rewrite <- revenue_sum_pointwise.
    - unfold G. rewrite GroupFacts.revenue_sum_agg
        by (unfold vals; now rewrite length_map).
      apply sum_skipna_ints.
    - intros g Hin.
      apply (AggFacts.agg_spec cmp same same_eq cmp_eq cmp_trans cmp_gt)
        in Hin as [Hsum _].
      rewrite Hsum. unfold vals. rewrite prices_of_map.
      apply sum_skipna_ints. }
  unfold Qeq in H. simpl in H. lia.
Qed.

(** The rows of the grouped table of an int64 column. *)
Lemma int_groups keys vals zs :
  Machine.groups cmp same keys vals (Machine.Int64s zs)
  = Machine.IntTable
      (map (fun g => {| Machine.label := gkey g;
                        Machine.revenue :=
                          Int64.sum (Machine.rows_of same (gkey g) keys zs);
                        Machine.transactions := gcount g |})
           (GroupBy.agg cmp keys vals)).
Proof. reflexivity. Qed.

(** Added in int64, the revenues of the groups of an int64 column give
    the int64 sum of the column; when the column is far from the
    bounds of int64, nothing wraps around. *)
Lemma int_revenues_add_up names zs rows :
  length names = length zs ->
  Permutation rows
    (map (fun g => {| Machine.label := gkey g;
                      Machine.revenue :=
                        Int64.sum (Machine.rows_of same (gkey g) (map Some names) zs);
                      Machine.transactions := gcount g |})
         (GroupBy.agg cmp (map Some names)
                      (map (fun z => Some (inject_Z z)) zs))) ->
  Int64.sum (map Machine.revenue rows) = Int64.sum zs
  /\ ((Machine.abs_sum zs < 2 ^ 63)%Z ->
      Machine.plain_sum (map Machine.revenue rows) = Machine.plain_sum zs).
Proof.
  intros Hlen Hperm.
  pose proof (int_groups_add_up names zs Hlen) as Hsum.
  apply (Permutation_map Machine.revenue) in Hperm.
  rewrite map_map in Hperm. cbn [Machine.revenue] in Hperm.
  split.
  - rewrite !sum_wrap, (plain_sum_perm _ _ Hperm).
    erewrite map_ext by (intros g; apply sum_wrap).
    now rewrite wrap_sum_wrapped, Hsum.
  - intros Hb. rewrite (plain_sum_perm _ _ Hperm), <- Hsum. f_equal.
    apply map_ext. intros g. rewrite sum_wrap. apply wrap_small.
    pose proof (plain_sum_bound
                  (Machine.rows_of same (gkey g) (map Some names) zs)).
    pose proof (abs_sum_rows_of same (gkey g) (map Some names) zs).
    lia.
Qed.

End Keyed.


(** *** Doubles *)








(** *** Sorting by revenue *)



Section WithSpec.
Context {B : Backend} (spec : BackendSpec B).




End WithSpec.

(** *** The two amounts *)








Section WithBackend.
Context {B : Backend}.



End WithBackend.

End MachineFacts.

Section MachineClaims.
Context {B : Backend}.
Import Pandas PandasFacts Vocabulary Terms SummaryFacts SortFacts GroupFacts
       AggFacts MachineFacts.


(** X13. When every price is a whole number and no row lacks its date,
    the revenues of [by_day] add up to [total_revenue] in the same way:
    their int64 sum is the int64 sum of the [Price] column, of which
    [total_revenue] is the float, and nothing wraps around as long as
    the prices are far from the bounds of int64. *)
Theorem whole_prices_add_up_by_day (df : DataFrame)
        (ts : list (option Timestamp)) (zs : list Z) :
  well_formed df ->
  no_nulls df "Date" ->
  getitem df "Date" = Ok (SDatetime ts) ->
  getitem df "Price" = Ok (SInt zs) ->
  exists rows,
    Machine.grouped_by_day df = Ok (Machine.IntTable rows)
    /\ Machine.series_sum (Machine.revenues (Machine.IntTable rows))
       = Machine.series_sum (Machine.Int64s zs)
    /\ Machine.total df
       = Ok (Machine.to_float
               (Machine.series_sum (Machine.revenues (Machine.IntTable rows))))
    /\ ((Machine.abs_sum zs < 2 ^ 63)%Z ->
        Machine.plain_sum (map Machine.revenue rows) = Machine.plain_sum zs).
Proof.
  intros Hwf Hnn Hd Hp.
  destruct (notna_all_some ts) as [days Hdays].
  { apply Hnn. now apply getitem_In. }
  assert (Hlen : length (map date_of days) = length zs).
  { rewrite length_map.
    pose proof (well_formed_getitem _ _ _ Hwf Hd) as Ht. simpl in Ht.
    pose proof (well_formed_getitem _ _ _ Hwf Hp) as Hz. simpl in Hz.
    rewrite Hdays, length_map in Ht. now rewrite Ht, Hz. }
  unfold Machine.grouped_by_day.
  rewrite Hd, Hp. cbn [mbind result_bind dt numeric_values Machine.cells].
  rewrite (int_groups Z.compare Z.eqb).
  eexists. split; [reflexivity|].
  assert (Hkeys : map (option_map date_of) ts = map Some (map date_of days)).
  { rewrite Hdays, !map_map. reflexivity. }
  rewrite Hkeys.
  destruct (int_revenues_add_up Z.compare Z.eqb day_same_eq day_cmp_eq
              day_cmp_trans day_cmp_gt (map date_of days) zs _ Hlen
              (Permutation_refl _)) as [Hsum Hplain].
  assert (Htotal : Machine.total df
                   = Ok (Machine.to_float (Machine.IntVal (Int64.sum zs)))).
  { unfold Machine.total. rewrite Hp. cbn [mbind result_bind Machine.cells].
    destruct (empty df) eqn:He; [|reflexivity].
    assert (Hnil : zs = []).
    { apply length_zero_iff_nil.
      pose proof (well_formed_getitem _ _ _ Hwf Hp) as Hz. simpl in Hz.
      rewrite Hz. unfold empty in He.
      destruct (index df); [reflexivity|].
      destruct (columns df) eqn:Hc; [|discriminate].
      unfold getitem in Hp. rewrite Hc in Hp. discriminate. }
    subst zs. reflexivity. }
  split; [|split].
  - cbn [Machine.revenues Machine.series_sum]. f_equal. exact Hsum.
  - cbn [Machine.revenues Machine.series_sum]. rewrite Htotal.
    do 3 f_equal. symmetry. exact Hsum.
  - exact Hplain.
Qed.




End MachineClaims.

(** ** The machine sums on the sample sheets *)

Section MachineSamples.
#[local] Existing Instance Sample.backend.
Import Pandas Vocabulary Examples Terms Cents.




(** The sentence of line 110 on four tables: 10 in cash and 15 by card;
    5 in cash and a refund of 5 by card, where the amounts cancel and
    the sentence is printed all the same; 0.1 and 0.2 in cash and a
    refund of 0.3 by card, where the doubles do not cancel and the
    share is out of all proportion; and the same three amounts all by
    card, where [total_revenue] is positive, the revenue of "Card" is
    0.0, and no sentence is printed. *)
Lemma cash_lines_of_the_samples :
  (m ← Machine.grouped gap_table "Payment Method";
   Ok (option_map Machine.render_cash_line (Machine.cash_share m)))
  = Ok (Some "Cash share: 40.0% (Cash OMR 10.00 vs Card OMR 15.00).")
  /\ (m ← Machine.grouped offset_table "Payment Method";
      Ok (option_map Machine.render_cash_line (Machine.cash_share m)))
     = Ok (Some "Cash share: 0.0% (Cash OMR 5.00 vs Card OMR -5.00).")
  /\ (m ← Machine.grouped cents_table "Payment Method";
      Ok (option_map Machine.render_cash_line (Machine.cash_share m)))
     = Ok (Some "Cash share: 540431955284459584.0% (Cash OMR 0.30 vs Card OMR -0.30).")
  /\ load_sales_dataframe card_sheet = Ok card_table
  /\ Machine.total card_table = Ok last_place
  /\ Machine.grouped card_table "Payment Method"
     = Ok (Some (Machine.FloatTable
                   [{| Machine.label := "Card";
                       Machine.revenue := Float64.zero;
                       Machine.transactions := 3 |}]))
  /\ (m ← Machine.grouped card_table "Payment Method";
      Ok (Machine.cash_share m))
     = Ok None.
Proof. repeat split; vm_compute; reflexivity. Qed.

(** X13 on the table of [gap_sheet]. *)
Lemma whole_prices_add_up_by_day_witness :
  well_formed gap_table
  /\ no_nulls gap_table "Date"
  /\ getitem gap_table "Date"
     = Ok (SDatetime [Some (midnight july1); Some (midnight july2)])
  /\ getitem gap_table "Price" = Ok (SInt [10; 15]%Z)
  /\ exists rows,
       Machine.grouped_by_day gap_table = Ok (Machine.IntTable rows)
       /\ Machine.series_sum (Machine.revenues (Machine.IntTable rows))
          = Machine.IntVal 25.
Proof.
  assert (H1 : well_formed gap_table) by (repeat constructor).
  assert (H2 : no_nulls gap_table "Date").
  { intros s [H | [H | [H | [H | []]]]]; inversion H; subst;
      repeat constructor. }
  assert (H3 : getitem gap_table "Date"
               = Ok (SDatetime [Some (midnight july1); Some (midnight july2)]))
    by reflexivity.
  assert (H4 : getitem gap_table "Price" = Ok (SInt [10; 15]%Z)) by reflexivity.
  split; [exact H1|]. split; [exact H2|]. split; [exact H3|].
  split; [exact H4|].
  destruct (whole_prices_add_up_by_day gap_table _ _ H1 H2 H3 H4)
    as (rows & Hg & Hsum & _).
  exists rows. split; [exact Hg | exact Hsum].
Defined.

End MachineSamples.
